(** * Shipping charge estimator: a shallow embedding of the pricing core

    The development follows the TypeScript modules of the repository:
    - [distance-calculator.ts]  (haversine distance, coordinate check),
    - [transport-strategy.ts]   (distance bands and rates),
    - [cache-manager.ts]        (singleton TTL cache and key builder),
    - [validation.ts]           (coordinates, required fields, UUIDs,
                                 delivery speed),
    - [shipping-service.ts]     (the three service operations),
    - [error-handler.ts]        (the messages of the error classes),
    - [calculate-shipping/index.ts] (request check and status of the
                                 answer), and the [getTransportMode] of
                                 the older handlers.

    Numbers.  A JavaScript [number] is modelled as a real number or [NaN];
    rounding error, overflow and the two infinities of IEEE doubles are
    not represented.  [Date.now()] is an integer number of milliseconds.
    Comparisons, control flow and the cache do not depend on rounding.
    The value of a distance does: the properties that follow a distance
    through the service take the number [calculateDistance] returns as
    given, and name what is derived from it by the expression the source
    computes it with.

    Effects.  The service operations run in a state-and-exception monad
    over the shared cache and the clock; every awaited query advances the
    clock.  Console output ([console.log], [logError]) and the periodic
    [setInterval] sweep of the cache are left out: each operation is
    followed on its own, from the state it starts in. *)

From Stdlib Require Import Reals Lra Lia ZArith.
From stdpp Require Import gmap strings list.

(** ** JavaScript numbers *)

Inductive number : Type :=
| NaN
| Num (r : R).

Declare Scope js_scope.
Delimit Scope js_scope with js.
Bind Scope js_scope with number.

Definition lift1 (f : R → R) (x : number) : number :=
  match x with
  | Num a => Num (f a)
  | NaN => NaN
  end.

Definition lift2 (f : R → R → R) (x y : number) : number :=
  match x, y with
  | Num a, Num b => Num (f a b)
  | _, _ => NaN
  end.

Definition cmp2 (p : R → R → bool) (x y : number) : bool :=
  match x, y with
  | Num a, Num b => p a b
  | _, _ => false
  end.

Definition Rltb (a b : R) : bool := if Rlt_dec a b then true else false.
Definition Rleb (a b : R) : bool := if Rle_dec a b then true else false.

Definition nadd : number → number → number := lift2 Rplus.
Definition nsub : number → number → number := lift2 Rminus.
Definition nmul : number → number → number := lift2 Rmult.

(** [x / y].  A zero divisor would give an infinity or [NaN] in
    JavaScript; the model answers [NaN].  Every divisor in this program
    is one of the literals 2, 100 and 180. *)
Definition ndiv (x y : number) : number :=
  match x, y with
  | Num a, Num b => if Req_dec_T b 0 then NaN else Num (a / b)
  | _, _ => NaN
  end.

Definition nlt : number → number → bool := cmp2 Rltb.
Definition nle : number → number → bool := cmp2 Rleb.
Definition ngt (x y : number) : bool := nlt y x.
Definition nge (x y : number) : bool := nle y x.

Definition isNaN (x : number) : bool :=
  match x with
  | NaN => true
  | Num _ => false
  end.

Notation "x + y" := (nadd x y) : js_scope.
Notation "x - y" := (nsub x y) : js_scope.
Notation "x * y" := (nmul x y) : js_scope.
Notation "x / y" := (ndiv x y) : js_scope.
Notation "x <? y" := (nlt x y) : js_scope.
Notation "x <=? y" := (nle x y) : js_scope.
Notation "x >? y" := (ngt x y) : js_scope.
Notation "x >=? y" := (nge x y) : js_scope.

(** Numeric literals of the source. *)
Definition lit (z : Z) : number := Num (IZR z).

(** [Math.atan2] on real arguments, by quadrant. *)
Definition atan2R (y x : R) : R :=
  if Rlt_dec 0 x then atan (y / x)
  else if Rlt_dec x 0 then
    (if Rle_dec 0 y then atan (y / x) + PI else atan (y / x) - PI)%R
  else if Rlt_dec 0 y then (PI / 2)%R
  else if Rlt_dec y 0 then (- PI / 2)%R
  else 0%R.

Module Math.
Definition PI : number := Num Rtrigo1.PI.
Definition sin : number → number := lift1 Rtrigo_def.sin.
Definition cos : number → number := lift1 Rtrigo_def.cos.
  (** [Math.sqrt] of a negative number is [NaN]. *)
Definition sqrt (x : number) : number :=
    match x with
    | Num a => if Rlt_dec a 0 then NaN else Num (R_sqrt.sqrt a)
    | NaN => NaN
    end.
Definition atan2 : number → number → number := lift2 atan2R.
  (** [Math.round]: nearest integer, halves towards plus infinity. *)
Definition round : number → number :=
    lift1 (fun a => IZR (Zfloor (a + / 2))).
End Math.

(** ** Exceptions

    Template literals that splice a number into a message are kept as a
    list of fragments, since the decimal rendering of a real number is
    not part of the model. *)

Inductive fragment : Type :=
| Lit (s : string)
| Val (n : number).

Record ValidationError : Type := { field : string; message : string }.

Inductive Exception : Type :=
| Error (msg : list fragment)
| ResourceNotFoundError (resourceType resourceId : string)
| NoWarehousesFoundError
| UnsupportedLocationError (msg : list fragment)
| ValidationException (errors : list ValidationError).

(** How a call ends.  [BadCast] marks a cache entry read at a type it
    does not have: [cache.get<T>] is an unchecked cast, after which
    JavaScript would go on with an object of the wrong shape, which this
    model does not follow. *)
Inductive outcome (A : Type) : Type :=
| Return (a : A)
| Throw (e : Exception)
| BadCast.
Arguments Return {A} a.
Arguments Throw {A} e.
Arguments BadCast {A}.

(** ** distance-calculator.ts *)

Definition toRadians (degrees : number) : number :=
  (degrees * (Math.PI / lit 180))%js.

(** The two [typeof] tests hold of every [number]. *)
Definition isValidCoordinate (lat lon : number) : bool :=
  negb (isNaN lat) && negb (isNaN lon) &&
  (lat >=? lit (-90))%js && (lat <=? lit 90)%js &&
  (lon >=? lit (-180))%js && (lon <=? lit 180)%js.

(** The haversine formula, on exact numbers.  On doubles the rounded
    term [a] can exceed 1 at valid points that are nearly antipodal,
    (82, 0) and (-82, 180) for one pair; [Math.sqrt(1 - a)] and the
    distance are then [NaN].  On reals [a] stays within 0 and 1. *)
Definition calculateDistance (lat1 lon1 lat2 lon2 : number) : outcome number :=
  if negb (isValidCoordinate lat1 lon1) || negb (isValidCoordinate lat2 lon2)
  then Throw (Error [Lit "Invalid coordinates provided"])
  else
    let R := lit 6371 in
    let dLat := toRadians (lat2 - lat1)%js in
    let dLon := toRadians (lon2 - lon1)%js in
    let a :=
      (Math.sin (dLat / lit 2) * Math.sin (dLat / lit 2) +
       Math.cos (toRadians lat1) *
       Math.cos (toRadians lat2) *
       Math.sin (dLon / lit 2) *
       Math.sin (dLon / lit 2))%js in
    let c := (lit 2 * Math.atan2 (Math.sqrt a) (Math.sqrt (lit 1 - a)))%js in
    let distance := (R * c)%js in
    Return distance.

(** ** transport-strategy.ts *)

Record TransportStrategy : Type := {
  canHandle : number → bool;
  getRate : number;
  getMode : string;
  getMinDistance : number;
  getMaxDistance : option number
}.

Definition AeroplaneStrategy : TransportStrategy := {|
  canHandle := fun distance => (distance >=? lit 500)%js;
  getRate := lit 1;
  getMode := "Aeroplane";
  getMinDistance := lit 500;
  getMaxDistance := None
|}.

Definition TruckStrategy : TransportStrategy := {|
  canHandle := fun distance =>
    (distance >=? lit 100)%js && (distance <? lit 500)%js;
  getRate := lit 2;
  getMode := "Truck";
  getMinDistance := lit 100;
  getMaxDistance := Some (Num (49999 / 100))
|}.

Definition MiniVanStrategy : TransportStrategy := {|
  canHandle := fun distance =>
    (distance >=? lit 0)%js && (distance <? lit 100)%js;
  getRate := lit 3;
  getMode := "Mini Van";
  getMinDistance := lit 0;
  getMaxDistance := Some (Num (9999 / 100))
|}.

Record ModeAndRate : Type := { mode : string; rate : number }.

Module TransportModeSelector.
  (** Order matters: checked from the longest band to the shortest. *)
Definition strategies : list TransportStrategy :=
    [AeroplaneStrategy; TruckStrategy; MiniVanStrategy].

Definition selectStrategy (distance : number) : outcome TransportStrategy :=
    if (distance <? lit 0)%js then
      Throw (Error [Lit "Distance cannot be negative"])
    else
      match List.find (fun strategy => canHandle strategy distance) strategies with
      | Some strategy => Return strategy
      | None =>
          Throw (Error [Lit "No transport mode available for distance: ";
                        Val distance; Lit " km"])
      end.

Definition getTransportModeAndRate (distance : number)
    : outcome ModeAndRate :=
    match selectStrategy distance with
    | Return strategy =>
        Return {| mode := getMode strategy; rate := getRate strategy |}
    | Throw e => Throw e
    | BadCast => BadCast
    end.

Definition getAllStrategies : list TransportStrategy := strategies.
End TransportModeSelector.

(** ** shipping-charge/index.ts and calculate-shipping/index.ts

    The two older handlers choose the transport mode with a function of
    their own. *)

Definition getTransportMode (distance : number) : ModeAndRate :=
  if (distance >=? lit 500)%js then {| mode := "Aeroplane"; rate := lit 1 |}
  else if (distance >=? lit 100)%js then {| mode := "Truck"; rate := lit 2 |}
  else {| mode := "Mini Van"; rate := lit 3 |}.

(** ** Strings *)

(** [s.includes(pattern)]: [pattern] occurs somewhere in [s]. *)
Fixpoint includes (pattern s : string) : bool :=
  String.prefix pattern s ||
  match s with
  | EmptyString => false
  | String _ rest => includes pattern rest
  end.

(** ** cache-manager.ts *)

Record CacheEntry (T : Type) : Type := { value : T; expiresAt : Z }.
Arguments value {T} _.
Arguments expiresAt {T} _.

Module CacheStats.
Record t : Type := {
    hits : nat;
    misses : nat;
    size : nat;
    hitRate : number
  }.
End CacheStats.

(** The singleton is an explicit state; [Date.now()] is the argument
    [now] of the operations that read the clock. *)
Module CacheManager.
Section Generic.
Context {T : Type}.

Record t : Type := {
      cache : gmap string (CacheEntry T);
      hits : nat;
      misses : nat;
      defaultTTL : Z
    }.

    (** The private constructor: an empty map, 5 minutes of default TTL. *)
Definition getInstance : t :=
      {| cache := ∅; hits := 0; misses := 0; defaultTTL := 300000 |}.

    (** [ttl || this.defaultTTL]: an omitted TTL and the falsy TTL 0 both
        select the default. *)
Definition set (now : Z) (key : string) (value : T) (ttl : option Z)
        (this : t) : t :=
      let expiresAt :=
        (now + match ttl with
               | Some ms => if (ms =? 0)%Z then defaultTTL this else ms
               | None => defaultTTL this
               end)%Z in
      {| cache := <[key := {| value := value; expiresAt := expiresAt |}]> (cache this);
         hits := hits this;
         misses := misses this;
         defaultTTL := defaultTTL this |}.

Definition get (now : Z) (key : string) (this : t) : option T * t :=
      match cache this !! key with
      | None =>
          (None,
           {| cache := cache this; hits := hits this;
              misses := S (misses this); defaultTTL := defaultTTL this |})
      | Some entry =>
          if (now >? expiresAt entry)%Z then
            (None,
             {| cache := base.delete key (cache this); hits := hits this;
                misses := S (misses this); defaultTTL := defaultTTL this |})
          else
            (Some (value entry),
             {| cache := cache this; hits := S (hits this);
                misses := misses this; defaultTTL := defaultTTL this |})
      end.

Definition has (now : Z) (key : string) (this : t) : bool * t :=
      match cache this !! key with
      | None => (false, this)
      | Some entry =>
          if (now >? expiresAt entry)%Z then
            (false,
             {| cache := base.delete key (cache this); hits := hits this;
                misses := misses this; defaultTTL := defaultTTL this |})
          else (true, this)
      end.

Definition delete (key : string) (this : t) : bool * t :=
      (bool_decide (is_Some (cache this !! key)),
       {| cache := base.delete key (cache this); hits := hits this;
          misses := misses this; defaultTTL := defaultTTL this |}).

Definition clear (this : t) : t :=
      {| cache := ∅; hits := 0; misses := 0; defaultTTL := defaultTTL this |}.

Definition cleanup (now : Z) (this : t) : nat * t :=
      let kept := filter (fun kv => ¬ (now > expiresAt kv.2)%Z) (cache this) in
      ((base.size (cache this) - base.size kept)%nat,
       {| cache := kept; hits := hits this;
          misses := misses this; defaultTTL := defaultTTL this |}).

Definition getStats (this : t) : CacheStats.t :=
      let total := (hits this + misses this)%nat in
      {| CacheStats.hits := hits this;
         CacheStats.misses := misses this;
         CacheStats.size := base.size (cache this);
         CacheStats.hitRate :=
           if (0 <? total)%nat
           then (lit (Z.of_nat (hits this)) / lit (Z.of_nat total))%js
           else lit 0 |}.

Definition resetStats (this : t) : t :=
      {| cache := cache this; hits := 0; misses := 0;
         defaultTTL := defaultTTL this |}.
(** [deletePattern] removes the keys that include [pattern] and counts
    them. *)
Definition deletePattern (pattern : string) (this : t) : nat * t :=
  (base.size (filter (fun kv => includes pattern kv.1 = true) (cache this)),
   {| cache := filter (fun kv => ¬ includes pattern kv.1 = true) (cache this);
      hits := hits this; misses := misses this;
      defaultTTL := defaultTTL this |}).

(** [getOrSet].  The factory is a computation that does not touch the
    cache: [factory] is how it ends and [later] the time at which it
    does.  The read answers [null] for a miss, and the test is
    [cached !== null]: [isNull] tells which values of [T] are [null], so
    a live entry that holds [null] is taken for a miss. *)
Definition getOrSet (isNull : T → bool) (now : Z) (key : string)
    (factory : outcome T) (later : Z) (ttl : option Z) (this : t)
    : outcome T * t :=
  let (cached, this) := get now key this in
  let produce :=
    match factory with
    | Return value => (Return value, set later key value ttl this)
    | Throw e => (Throw e, this)
    | BadCast => (BadCast, this)
    end in
  match cached with
  | Some v => if isNull v then produce else (Return v, this)
  | None => produce
  end.
End Generic.
Arguments t : clear implicits.
End CacheManager.

Module CacheKeyBuilder.
Definition nearestWarehouse (sellerId : string) : string :=
    "nearest_warehouse:seller:" +:+ sellerId.

  (** [productId ? `${base}:${productId}` : base]: an omitted and an
      empty product id leave the base key. *)
Definition withProduct (base : string) (productId : option string) : string :=
    match productId with
    | Some p => if bool_decide (p = "") then base else base +:+ ":" +:+ p
    | None => base
    end.

Definition shippingCharge (warehouseId customerId deliverySpeed : string)
      (productId : option string) : string :=
    let base :=
      "shipping_charge:" +:+ warehouseId +:+ ":" +:+ customerId +:+ ":" +:+ deliverySpeed in
    withProduct base productId.

Definition entity (entityType entityId : string) : string :=
    "entity:" +:+ entityType +:+ ":" +:+ entityId.

Definition calculation (sellerId customerId deliverySpeed : string)
      (productId : option string) : string :=
    let base :=
      "calculation:" +:+ sellerId +:+ ":" +:+ customerId +:+ ":" +:+ deliverySpeed in
    withProduct base productId.
End CacheKeyBuilder.

(** ** validation.ts *)

Definition validateCoordinates (latitude longitude : number)
    (fieldPrefix : string) : outcome bool :=
  let errors : list ValidationError := [] in
  let errors :=
    if isNaN latitude then
      errors ++ [{| field := fieldPrefix +:+ "latitude";
                    message := fieldPrefix +:+ "latitude must be a valid number" |}]
    else if (latitude <? lit (-90))%js || (latitude >? lit 90)%js then
      errors ++ [{| field := fieldPrefix +:+ "latitude";
                    message := fieldPrefix +:+ "latitude must be between -90 and 90 degrees" |}]
    else errors in
  let errors :=
    if isNaN longitude then
      errors ++ [{| field := fieldPrefix +:+ "longitude";
                    message := fieldPrefix +:+ "longitude must be a valid number" |}]
    else if (longitude <? lit (-180))%js || (longitude >? lit 180)%js then
      errors ++ [{| field := fieldPrefix +:+ "longitude";
                    message := fieldPrefix +:+ "longitude must be between -180 and 180 degrees" |}]
    else errors in
  if (0 <? length errors)%nat then Throw (ValidationException errors)
  else Return true.

(** A value of type [unknown], as far as [validateRequired] tells values
    apart. *)
Inductive JsValue : Type :=
| VNull
| VUndefined
| VString (s : string)
| VNumber (n : number)
| VBoolean (b : bool)
| VObject.

(** [value === null || value === undefined || value === ''] *)
Definition isMissing (value : JsValue) : bool :=
  match value with
  | VNull | VUndefined => true
  | VString s => bool_decide (s = "")
  | _ => false
  end.

(** [params] lists the entries in the order of [Object.entries]. *)
Definition validateRequired (params : list (string * JsValue)) : outcome bool :=
  let errors :=
    fold_left
      (fun (errors : list ValidationError) (entry : string * JsValue) =>
         if isMissing entry.2
         then errors ++ [{| field := entry.1;
                            message := entry.1 +:+ " is required" |}]
         else errors)
      params [] in
  if (0 <? length errors)%nat then Throw (ValidationException errors)
  else Return true.

Definition validateDeliverySpeed (value : string) : outcome bool :=
  let validSpeeds := ["standard"; "express"] in
  if bool_decide (value = "") then
    Throw (ValidationException
             [{| field := "deliverySpeed";
                 message := "deliverySpeed is required" |}])
  else if negb (bool_decide (value ∈ validSpeeds)) then
    Throw (ValidationException
             [{| field := "deliverySpeed";
                 message := "deliverySpeed must be one of: standard, express" |}])
  else Return true.

(** The character classes of the UUID pattern
    [/^[0-9a-f]{8}-[0-9a-f]{4}-4[0-9a-f]{3}-[89ab][0-9a-f]{3}-[0-9a-f]{12}$/i],
    by character code. *)
Inductive charClass : Type :=
| HexDigit      (* [0-9a-f], either case *)
| Dash          (* - *)
| Four          (* 4 *)
| VariantDigit. (* [89ab], either case *)

Definition between (lo hi n : N) : bool := (lo <=? n)%N && (n <=? hi)%N.

Definition inClass (cl : charClass) (c : Ascii.ascii) : bool :=
  let n := Ascii.N_of_ascii c in
  match cl with
  | HexDigit => between 48 57 n || between 97 102 n || between 65 70 n
  | Dash => (n =? 45)%N
  | Four => (n =? 52)%N
  | VariantDigit =>
      between 56 57 n || between 97 98 n || between 65 66 n
  end.

Definition uuidRegex : list charClass :=
  repeat HexDigit 8 ++ [Dash] ++ repeat HexDigit 4 ++ [Dash; Four] ++
  repeat HexDigit 3 ++ [Dash; VariantDigit] ++ repeat HexDigit 3 ++ [Dash] ++
  repeat HexDigit 12.

(** [regex.test(s)] for a pattern anchored at both ends that is a
    sequence of single-character classes. *)
Fixpoint test (regex : list charClass) (s : string) : bool :=
  match regex, s with
  | [], EmptyString => true
  | cl :: regex', String c s' => inClass cl c && test regex' s'
  | _, _ => false
  end.

Definition validateUUID (value fieldName : string) : outcome bool :=
  if bool_decide (value = "") then
    Throw (ValidationException
             [{| field := fieldName; message := fieldName +:+ " is required" |}])
  else if negb (test uuidRegex value) then
    Throw (ValidationException
             [{| field := fieldName;
                 message := fieldName +:+ " must be a valid UUID" |}])
  else Return true.

(** ** shipping-service.ts: data *)

Module Warehouse.
Record t : Type := {
    id : string; name : string; latitude : number; longitude : number;
    city : option string
  }.
End Warehouse.

Module Seller.
Record t : Type := {
    id : string; name : string; latitude : number; longitude : number
  }.
End Seller.

Module Customer.
Record t : Type := {
    id : string; name : string; latitude : number; longitude : number
  }.
End Customer.

Module Product.
Record t : Type := { weight_kg : number }.
End Product.

Module DeliverySpeedConfig.
Record t : Type := {
    speed_type : string; base_charge : number; extra_charge_per_kg : number
  }.
End DeliverySpeedConfig.

Record WarehouseLocation : Type := { lat : number; long : number }.

Module NearestWarehouseResult.
Record t : Type := {
    warehouseId : string;
    warehouseLocation : WarehouseLocation;
    warehouseName : string;
    distance_km : number
  }.
End NearestWarehouseResult.

Record Breakdown : Type := {
  baseCharge : number;
  transportCharge : number;
  expressCharge : number
}.

Module ShippingChargeResult.
Record t : Type := {
    shippingCharge : number;
    transportMode : string;
    distance_km : number;
    weight_kg : number;
    breakdown : Breakdown
  }.
End ShippingChargeResult.

Record NearestWarehouseInfo : Type := {
  warehouseId : string;
  warehouseLocation : WarehouseLocation;
  warehouseName : string
}.

Module CompleteShippingResult.
Record t : Type := {
    shippingCharge : number;
    nearestWarehouse : NearestWarehouseInfo;
    transportMode : string;
    distance_km : number;
    weight_kg : number;
    breakdown : Breakdown
  }.
End CompleteShippingResult.

(** The answer of a Supabase query, [{ data, error }]. *)
Record PostgrestError : Type := { pg_message : string }.

Record Response (A : Type) : Type := {
  data : option A;
  error : option PostgrestError
}.
Arguments data {A} _.
Arguments error {A} _.

(** The client, seen through the six queries the service issues.  Each
    awaited query lets [latency] milliseconds pass. *)
Record SupabaseClient : Type := {
  sellers_by_id : string → Response Seller.t;
  customers_by_id : string → Response Customer.t;
  warehouses_by_id : string → Response Warehouse.t;
  warehouses_active : Response (list Warehouse.t);
  products_by_id : string → Response Product.t;
  delivery_speeds_by_type : string → Response DeliverySpeedConfig.t;
  latency : Z
}.

(** What the shared cache holds: the result of one of the three
    operations. *)
Inductive CachedValue : Type :=
| OfNearestWarehouse (r : NearestWarehouseResult.t)
| OfShippingCharge (r : ShippingChargeResult.t)
| OfCompleteShipping (r : CompleteShippingResult.t).

(** ** shipping-service.ts: the service

    The state a call can touch: the shared cache singleton and the clock.
    A thrown exception leaves the state as it was when it was thrown. *)

Record World : Type := {
  cache : CacheManager.t CachedValue;
  clock : Z
}.

Definition M (A : Type) : Type := World → outcome A * World.

#[export] Instance M_ret : MRet M := fun A a w => (Return a, w).

#[export] Instance M_bind : MBind M := fun A B f m w =>
  match m w with
  | (Return a, w') => f a w'
  | (Throw e, w') => (Throw e, w')
  | (BadCast, w') => (BadCast, w')
  end.

Definition throw {A : Type} (e : Exception) : M A := fun w => (Throw e, w).

Definition badCast {A : Type} : M A := fun w => (BadCast, w).

(** A pure call that may throw. *)
Definition call {A : Type} (o : outcome A) : M A := fun w => (o, w).

Definition cache_get (key : string) : M (option CachedValue) := fun w =>
  let (v, c) := CacheManager.get (clock w) key (cache w) in
  (Return v, {| cache := c; clock := clock w |}).

Definition cache_set (key : string) (value : CachedValue) (ttl : Z) : M unit :=
  fun w =>
    (Return (),
     {| cache := CacheManager.set (clock w) key value (Some ttl) (cache w);
        clock := clock w |}).

(** The scan of lines 168-184.  [nearestWarehouse] and [minDistance] are
    assigned together, so the pair is [None] while they still hold their
    initial values [null] and [Infinity]; every distance that is not
    [NaN] is below [Infinity]. *)
Fixpoint nearestScan (seller : Seller.t) (warehouses : list Warehouse.t)
    (best : option (Warehouse.t * number))
    : outcome (option (Warehouse.t * number)) :=
  match warehouses with
  | [] => Return best
  | warehouse :: rest =>
      match calculateDistance (Seller.latitude seller) (Seller.longitude seller)
              (Warehouse.latitude warehouse) (Warehouse.longitude warehouse) with
      | Return distance =>
          let closer :=
            match best with
            | None => negb (isNaN distance)
            | Some (_, minDistance) => (distance <? minDistance)%js
            end in
          nearestScan seller rest
            (if closer then Some (warehouse, distance) else best)
      | Throw e => Throw e
      | BadCast => BadCast
      end
  end.

(** Lines 335-358 of [calculateShippingCharge]: mode and rate, the three
    charges and the result.  [Number(x)] of a number is that number.
    The products and [Math.round(x * 100) / 100] are taken on exact
    numbers; on doubles an amount within rounding error of half a cent
    can come out one cent apart (1 km at 0.075 kg: 0.22 for 0.225). *)
Definition priceShipment (distance weightKg : number)
    (deliveryConfig : DeliverySpeedConfig.t) (deliverySpeed : string)
    : outcome ShippingChargeResult.t :=
  match TransportModeSelector.getTransportModeAndRate distance with
  | Return mr =>
      let baseCharge := DeliverySpeedConfig.base_charge deliveryConfig in
      let transportCharge := (distance * rate mr * weightKg)%js in
      let expressCharge :=
        if bool_decide (deliverySpeed = "express")
        then (DeliverySpeedConfig.extra_charge_per_kg deliveryConfig * weightKg)%js
        else lit 0 in
      let totalCharge := (baseCharge + transportCharge + expressCharge)%js in
      Return {|
        ShippingChargeResult.shippingCharge :=
          (Math.round (totalCharge * lit 100) / lit 100)%js;
        ShippingChargeResult.transportMode := mode mr;
        ShippingChargeResult.distance_km :=
          (Math.round (distance * lit 100) / lit 100)%js;
        ShippingChargeResult.weight_kg := weightKg;
        ShippingChargeResult.breakdown := {|
          baseCharge := baseCharge;
          transportCharge := (Math.round (transportCharge * lit 100) / lit 100)%js;
          expressCharge := (Math.round (expressCharge * lit 100) / lit 100)%js
        |}
      |}
  | Throw e => Throw e
  | BadCast => BadCast
  end.

Section ShippingService.
Variable supabase : SupabaseClient.

  (** [await] of a query: its answer, [latency] milliseconds later. *)
Definition await {A : Type} (response : A) : M A := fun w =>
    (Return response,
     {| cache := cache w; clock := (clock w + latency supabase)%Z |}).

Definition findNearestWarehouse (sellerId : string)
      : M NearestWarehouseResult.t :=
    let cacheKey := CacheKeyBuilder.nearestWarehouse sellerId in
    cached ← cache_get cacheKey;
    match cached with
    | Some (OfNearestWarehouse r) => mret r
    | Some _ => badCast
    | None =>
        sellerResponse ← await (sellers_by_id supabase sellerId);
        match error sellerResponse, data sellerResponse with
        | None, Some seller =>
            match validateCoordinates (Seller.latitude seller)
                    (Seller.longitude seller) "seller." with
            | Return _ =>
                warehouseResponse ← await (warehouses_active supabase);
                match error warehouseResponse with
                | Some warehouseError =>
                    throw (Error [Lit ("Database error fetching warehouses: "
                                       +:+ pg_message warehouseError)])
                | None =>
                    match data warehouseResponse with
                    | None | Some [] => throw NoWarehousesFoundError
                    | Some warehouses =>
                        best ← call (nearestScan seller warehouses None);
                        match best with
                        | None =>
                            throw (Error [Lit "Could not determine nearest warehouse"])
                        | Some (nearestWarehouse, minDistance) =>
                            let result := {|
                              NearestWarehouseResult.warehouseId :=
                                Warehouse.id nearestWarehouse;
                              NearestWarehouseResult.warehouseLocation := {|
                                lat := Warehouse.latitude nearestWarehouse;
                                long := Warehouse.longitude nearestWarehouse |};
                              NearestWarehouseResult.warehouseName :=
                                Warehouse.name nearestWarehouse;
                              NearestWarehouseResult.distance_km :=
                                (Math.round (minDistance * lit 100) / lit 100)%js
                            |} in
                            _ ← cache_set cacheKey (OfNearestWarehouse result) 300000;
                            mret result
                        end
                    end
                end
            | _ =>
                throw (UnsupportedLocationError
                         [Lit "Invalid seller coordinates: latitude ";
                          Val (Seller.latitude seller); Lit ", longitude ";
                          Val (Seller.longitude seller)])
            end
        | _, _ => throw (ResourceNotFoundError "Seller" sellerId)
        end
    end.

Definition calculateShippingCharge (warehouseId customerId deliverySpeed : string)
      (productId : option string) : M ShippingChargeResult.t :=
    let cacheKey :=
      CacheKeyBuilder.shippingCharge warehouseId customerId deliverySpeed productId in
    cached ← cache_get cacheKey;
    match cached with
    | Some (OfShippingCharge r) => mret r
    | Some _ => badCast
    | None =>
        warehouseResponse ← await (warehouses_by_id supabase warehouseId);
        match error warehouseResponse, data warehouseResponse with
        | None, Some warehouse =>
            match validateCoordinates (Warehouse.latitude warehouse)
                    (Warehouse.longitude warehouse) "warehouse." with
            | Return _ =>
                customerResponse ← await (customers_by_id supabase customerId);
                match error customerResponse, data customerResponse with
                | None, Some customer =>
                    match validateCoordinates (Customer.latitude customer)
                            (Customer.longitude customer) "customer." with
                    | Return _ =>
                        deliveryResponse ←
                          await (delivery_speeds_by_type supabase deliverySpeed);
                        match error deliveryResponse, data deliveryResponse with
                        | None, Some deliveryConfig =>
                            weightKg ←
                              match productId with
                              | Some p =>
                                  if bool_decide (p = "") then mret (lit 1)
                                  else
                                    productResponse ← await (products_by_id supabase p);
                                    match data productResponse with
                                    | Some product => mret (Product.weight_kg product)
                                    | None => mret (lit 1)
                                    end
                              | None => mret (lit 1)
                              end;
                            distance ←
                              call (calculateDistance
                                      (Warehouse.latitude warehouse)
                                      (Warehouse.longitude warehouse)
                                      (Customer.latitude customer)
                                      (Customer.longitude customer));
                            result ←
                              call (priceShipment distance weightKg
                                      deliveryConfig deliverySpeed);
                            _ ← cache_set cacheKey (OfShippingCharge result) 120000;
                            mret result
                        | _, _ =>
                            throw (Error [Lit ("Delivery speed configuration not found: "
                                               +:+ deliverySpeed)])
                        end
                    | _ =>
                        throw (UnsupportedLocationError
                                 [Lit "Invalid customer coordinates: latitude ";
                                  Val (Customer.latitude customer); Lit ", longitude ";
                                  Val (Customer.longitude customer)])
                    end
                | _, _ => throw (ResourceNotFoundError "Customer" customerId)
                end
            | _ =>
                throw (UnsupportedLocationError
                         [Lit "Invalid warehouse coordinates: latitude ";
                          Val (Warehouse.latitude warehouse); Lit ", longitude ";
                          Val (Warehouse.longitude warehouse)])
            end
        | _, _ => throw (ResourceNotFoundError "Warehouse" warehouseId)
        end
    end.

Definition calculateCompleteShipping (sellerId customerId deliverySpeed : string)
      (productId : option string) : M CompleteShippingResult.t :=
    let cacheKey :=
      CacheKeyBuilder.calculation sellerId customerId deliverySpeed productId in
    cached ← cache_get cacheKey;
    match cached with
    | Some (OfCompleteShipping r) => mret r
    | Some _ => badCast
    | None =>
        nearestWarehouse ← findNearestWarehouse sellerId;
        shippingCharge ←
          calculateShippingCharge
            (NearestWarehouseResult.warehouseId nearestWarehouse)
            customerId deliverySpeed productId;
        let result := {|
          CompleteShippingResult.shippingCharge :=
            ShippingChargeResult.shippingCharge shippingCharge;
          CompleteShippingResult.nearestWarehouse := {|
            warehouseId := NearestWarehouseResult.warehouseId nearestWarehouse;
            warehouseLocation :=
              NearestWarehouseResult.warehouseLocation nearestWarehouse;
            warehouseName := NearestWarehouseResult.warehouseName nearestWarehouse |};
          CompleteShippingResult.transportMode :=
            ShippingChargeResult.transportMode shippingCharge;
          CompleteShippingResult.distance_km :=
            ShippingChargeResult.distance_km shippingCharge;
          CompleteShippingResult.weight_kg :=
            ShippingChargeResult.weight_kg shippingCharge;
          CompleteShippingResult.breakdown :=
            ShippingChargeResult.breakdown shippingCharge
        |} in
        _ ← cache_set cacheKey (OfCompleteShipping result) 120000;
        mret result
    end.
End ShippingService.

(** ** calculate-shipping handler: the request check (lines 72-100)

    The body is taken with string or absent fields.  The check either
    throws, which the handler answers with status 400, or yields the
    four arguments handed to [calculateCompleteShipping]. *)

Module CalculateRequest.
Record t : Type := {
  sellerId : option string;
  customerId : option string;
  deliverySpeed : option string;
  productId : option string
}.
End CalculateRequest.

Definition ofField (x : option string) : JsValue :=
  match x with
  | Some s => VString s
  | None => VUndefined
  end.

(** [x || undefined] and the truth test of [if (x)] on a string field. *)
Definition truthy (x : option string) : option string :=
  match x with
  | Some s => if bool_decide (s = "") then None else Some s
  | None => None
  end.

Definition andThen {A B : Type} (o : outcome A) (k : A → outcome B) : outcome B :=
  match o with
  | Return a => k a
  | Throw e => Throw e
  | BadCast => BadCast
  end.

Definition checkCalculateRequest (body : CalculateRequest.t)
    : outcome (string * string * string * option string) :=
  let sellerId := default "" (CalculateRequest.sellerId body) in
  let customerId := default "" (CalculateRequest.customerId body) in
  let deliverySpeed := default "standard" (CalculateRequest.deliverySpeed body) in
  let productId := CalculateRequest.productId body in
  andThen (validateRequired
             [("sellerId", ofField (CalculateRequest.sellerId body));
              ("customerId", ofField (CalculateRequest.customerId body))]) (fun _ =>
  andThen (validateUUID sellerId "sellerId") (fun _ =>
  andThen (validateUUID customerId "customerId") (fun _ =>
  andThen (match truthy productId with
           | Some p => validateUUID p "productId"
           | None => Return true
           end) (fun _ =>
  andThen (validateDeliverySpeed deliverySpeed) (fun _ =>
  Return (sellerId, customerId, deliverySpeed, truthy productId)))))).

(** ** calculate-shipping handler: the answer (lines 29-140)

    The request as the handler reads it: the method, and what
    [req.json()] gives, [None] when it rejects.  A body that is [null]
    cannot be destructured; of any other body the four properties are
    read.  Hints, CORS headers and the response time are left out of the
    answer. *)

Inductive JsonBody : Type :=
| NullBody
| FieldsBody (fields : CalculateRequest.t).

Module HttpRequest.
Record t : Type := { method : string; json : option JsonBody }.
End HttpRequest.

(** What the handler takes from where it runs: [String(n)] for the
    numbers spliced into a message, the message of the [TypeError]
    thrown when [null] is destructured, and whether [SUPABASE_URL] and
    [SUPABASE_SERVICE_ROLE_KEY] are both set. *)
Record Runtime : Type := {
  show : number → string;
  typeErrorMessage : string;
  configured : bool
}.

Definition renderMessage (show : number → string) (msg : list fragment) : string :=
  foldr (fun f rest =>
           match f with
           | Lit s => s +:+ rest
           | Val n => show n +:+ rest
           end) "" msg.

(** [error.message], as the constructors of the error classes set it. *)
Definition messageOf (show : number → string) (e : Exception) : string :=
  match e with
  | Error msg => renderMessage show msg
  | ResourceNotFoundError resourceType resourceId =>
      resourceType +:+ " not found: " +:+ resourceId
  | NoWarehousesFoundError => "No active warehouses found in the system"
  | UnsupportedLocationError msg => renderMessage show msg
  | ValidationException _ => "Validation failed"
  end.

Inductive ResponseBody : Type :=
| TextBody (text : string)
| ResultBody (result : CompleteShippingResult.t)
| ValidationBody (details : list ValidationError)
| ErrorBody (error : string) (message : option string).

Module HttpResponse.
Record t : Type := { status : Z; body : ResponseBody }.
End HttpResponse.

Definition createValidationErrorResponse (show : number → string)
    (error : Exception) : ResponseBody :=
  match error with
  | ValidationException errors => ValidationBody errors
  | _ => ErrorBody "Invalid request" (Some (messageOf show error))
  end.

(** The outer [catch] (lines 115-139). *)
Definition failureResponse (errorMessage : string) : HttpResponse.t :=
  let statusCode :=
    if includes "not found" errorMessage then 404%Z else 500%Z in
  {| HttpResponse.status := statusCode;
     HttpResponse.body :=
       ErrorBody (if (statusCode =? 404)%Z
                  then "Resource not found"
                  else "Internal server error")
                 (Some errorMessage) |}.

Definition calculateShippingHandler (runtime : Runtime)
    (supabase : SupabaseClient) (req : HttpRequest.t) : M HttpResponse.t :=
  fun w =>
    if bool_decide (HttpRequest.method req = "OPTIONS") then
      (Return {| HttpResponse.status := 200;
                 HttpResponse.body := TextBody "ok" |}, w)
    else if negb (bool_decide (HttpRequest.method req = "POST")) then
      (Return {| HttpResponse.status := 405;
                 HttpResponse.body := ErrorBody "Method not allowed" None |}, w)
    else if negb (configured runtime) then
      (Return (failureResponse "Missing Supabase configuration"), w)
    else
      match HttpRequest.json req with
      | None =>
          (Return {| HttpResponse.status := 400;
                     HttpResponse.body :=
                       ErrorBody "Invalid JSON in request body" None |}, w)
      | Some NullBody =>
          (Return (failureResponse (typeErrorMessage runtime)), w)
      | Some (FieldsBody body) =>
          match checkCalculateRequest body with
          | Throw error =>
              (Return {| HttpResponse.status := 400;
                         HttpResponse.body :=
                           createValidationErrorResponse (show runtime) error |},
               w)
          | BadCast => (BadCast, w)
          | Return (sellerId, customerId, deliverySpeed, productId) =>
              match calculateCompleteShipping supabase sellerId customerId
                      deliverySpeed productId w with
              | (Return result, w') =>
                  (Return {| HttpResponse.status := 200;
                             HttpResponse.body := ResultBody result |}, w')
              | (Throw error, w') =>
                  (Return (failureResponse (messageOf (show runtime) error)), w')
              | (BadCast, w') => (BadCast, w')
              end
          end
      end.

(** * Vocabulary of the properties

    Notions the statements below are written with: rounding to two
    decimals, the haversine distance on real coordinates, the band table
    as a function, the scan as a first minimum, and the sample rows of
    the test fixtures. *)

(** Rounding to two decimal places, as the source writes it each time:
    [Math.round(x * 100) / 100]. *)
Definition round2 (x : R) : R := (IZR (Zfloor (x * 100 + / 2)) / 100)%R.

(** The haversine term [a] and the distance, on real coordinates. *)
Definition havA (lat1 lon1 lat2 lon2 : R) : R :=
  (sin ((lat2 - lat1) * (PI / 180) / 2) * sin ((lat2 - lat1) * (PI / 180) / 2) +
   cos (lat1 * (PI / 180)) * cos (lat2 * (PI / 180)) *
   sin ((lon2 - lon1) * (PI / 180) / 2) *
   sin ((lon2 - lon1) * (PI / 180) / 2))%R.

Definition haversine (lat1 lon1 lat2 lon2 : R) : R :=
  (6371 * (2 * atan2R (sqrt (havA lat1 lon1 lat2 lon2))
                      (sqrt (1 - havA lat1 lon1 lat2 lon2))))%R.

Inductive pointName : Type := FirstPoint | SecondPoint.
Inductive fieldName : Type := LatitudeField | LongitudeField.

(** A component fails its check when it is [NaN] or outside its range. *)
Definition failsCheck (f : fieldName) (x : number) : Prop :=
  match x with
  | NaN => True
  | Num r =>
      match f with
      | LatitudeField => (r < -90 ∨ 90 < r)%R
      | LongitudeField => (r < -180 ∨ 180 < r)%R
      end
  end.

Definition component (lat1 lon1 lat2 lon2 : number)
    (p : pointName) (f : fieldName) : number :=
  match p, f with
  | FirstPoint, LatitudeField => lat1
  | FirstPoint, LongitudeField => lon1
  | SecondPoint, LatitudeField => lat2
  | SecondPoint, LongitudeField => lon2
  end.

Definition invalidInput (lat1 lon1 lat2 lon2 : number) : Prop :=
  ∃ p f, failsCheck f (component lat1 lon1 lat2 lon2 p f).

(** The band table of transport-strategy.ts read as a function. *)
Definition bandMode (d : R) : string :=
  if Rlt_dec d 100 then "Mini Van" else if Rlt_dec d 500 then "Truck" else "Aeroplane".

Definition bandRate (d : R) : R :=
  if Rlt_dec d 100 then 3%R else if Rlt_dec d 500 then 2%R else 1%R.

(** The surcharge before rounding. *)
Definition expressOf (deliverySpeed : string) (e w : R) : R :=
  if bool_decide (deliverySpeed = "express") then (e * w)%R else 0%R.

(** The real number behind a coordinate that passed validation. *)
Definition realOf (x : number) : R :=
  match x with
  | Num r => r
  | NaN => 0%R
  end.

(** Distance from a seller to a warehouse, in kilometres. *)
Definition sellerDistance (seller : Seller.t) (warehouse : Warehouse.t) : R :=
  haversine (realOf (Seller.latitude seller)) (realOf (Seller.longitude seller))
            (realOf (Warehouse.latitude warehouse))
            (realOf (Warehouse.longitude warehouse)).

Definition validWarehouse (warehouse : Warehouse.t) : Prop :=
  isValidCoordinate (Warehouse.latitude warehouse) (Warehouse.longitude warehouse)
  = true.

(** The scan, on real distances: keep the first strictly smaller one. *)
Fixpoint firstMin (dist : Warehouse.t → R) (warehouses : list Warehouse.t)
    (best : option (Warehouse.t * R)) : option (Warehouse.t * R) :=
  match warehouses with
  | [] => best
  | warehouse :: rest =>
      firstMin dist rest
        match best with
        | None => Some (warehouse, dist warehouse)
        | Some (_, minDistance) =>
            if Rlt_dec (dist warehouse) minDistance
            then Some (warehouse, dist warehouse) else best
        end
  end.

Definition asNumber (best : option (Warehouse.t * R))
    : option (Warehouse.t * number) :=
  match best with
  | Some (warehouse, d) => Some (warehouse, Num d)
  | None => None
  end.

Definition found {A : Type} (a : A) : Response A :=
  {| data := Some a; error := None |}.

(** The result record built at lines 190-198. *)
Definition nearestResult (nearestWarehouse : Warehouse.t) (minDistance : number)
    : NearestWarehouseResult.t :=
  {| NearestWarehouseResult.warehouseId := Warehouse.id nearestWarehouse;
     NearestWarehouseResult.warehouseLocation :=
       {| lat := Warehouse.latitude nearestWarehouse;
          long := Warehouse.longitude nearestWarehouse |};
     NearestWarehouseResult.warehouseName := Warehouse.name nearestWarehouse;
     NearestWarehouseResult.distance_km :=
       (Math.round (minDistance * lit 100) / lit 100)%js |}.

(** A miss: the read at the start of an operation finds no live entry. *)
Definition cacheMiss (key : string) (w : World) : Prop :=
  (CacheManager.get (clock w) key (cache w)).1 = None.

(** The weight resolved at lines 313-325. *)
Definition resolvedWeight (supabase : SupabaseClient) (productId : option string)
    : number :=
  match productId with
  | Some p =>
      if bool_decide (p = "") then lit 1
      else match data (products_by_id supabase p) with
           | Some product => Product.weight_kg product
           | None => lit 1
           end
  | None => lit 1
  end.

(** The result record built at lines 423-434. *)
Definition completeResult (nearestWarehouse : NearestWarehouseResult.t)
    (shippingCharge : ShippingChargeResult.t) : CompleteShippingResult.t :=
  {| CompleteShippingResult.shippingCharge :=
       ShippingChargeResult.shippingCharge shippingCharge;
     CompleteShippingResult.nearestWarehouse :=
       {| warehouseId := NearestWarehouseResult.warehouseId nearestWarehouse;
          warehouseLocation :=
            NearestWarehouseResult.warehouseLocation nearestWarehouse;
          warehouseName := NearestWarehouseResult.warehouseName nearestWarehouse |};
     CompleteShippingResult.transportMode :=
       ShippingChargeResult.transportMode shippingCharge;
     CompleteShippingResult.distance_km :=
       ShippingChargeResult.distance_km shippingCharge;
     CompleteShippingResult.weight_kg :=
       ShippingChargeResult.weight_kg shippingCharge;
     CompleteShippingResult.breakdown :=
       ShippingChargeResult.breakdown shippingCharge |}.

Definition routeDistance (warehouse : Warehouse.t) (customer : Customer.t) : R :=
  haversine (realOf (Warehouse.latitude warehouse))
            (realOf (Warehouse.longitude warehouse))
            (realOf (Customer.latitude customer))
            (realOf (Customer.longitude customer)).

(** The namespace of a key: which operation's prefix it starts with. *)
Fixpoint startsWith (pre s : string) : bool :=
  match pre, s with
  | EmptyString, _ => true
  | String a pre', String b s' => Ascii.eqb a b && startsWith pre' s'
  | String _ _, EmptyString => false
  end.

(** How an operation with cache key [key] and cached form [inj] leaves
    the cache: other keys are untouched; after a throw nothing is stored
    under [key]; after a return the entry under [key] is the result. *)
Definition cacheDiscipline {A : Type} (key : string) (inj : A → CachedValue)
    (w : World) (run : outcome A * World) : Prop :=
  (∀ k, k ≠ key →
     CacheManager.cache (cache run.2) !! k = CacheManager.cache (cache w) !! k)
  ∧ match run.1 with
    | Throw _ => CacheManager.cache (cache run.2) !! key = None
    | Return r =>
        ∃ e, CacheManager.cache (cache run.2) !! key = Some e ∧ value e = inj r
    | BadCast => True
    end.

(** The key namespace in which each kind of result is stored. *)
Definition namespaceOf (v : CachedValue) : string :=
  match v with
  | OfNearestWarehouse _ => "nearest_warehouse:"
  | OfShippingCharge _ => "shipping_charge:"
  | OfCompleteShipping _ => "calculation:"
  end.

Definition wellTyped (m : CacheManager.t CachedValue) : Prop :=
  ∀ k e, CacheManager.cache m !! k = Some e →
         startsWith (namespaceOf (value e)) k = true.

(** ** Sample data (test-fixtures.ts) *)

(** [.single()] on no row: no data and an error. *)
Definition notFound {A : Type} : Response A :=
  {| data := None; error := Some {| pg_message := "no rows returned" |} |}.

Definition nestle : Seller.t :=
  {| Seller.id := "660e8400-e29b-41d4-a716-446655440001";
     Seller.name := "Nestle India Ltd.";
     Seller.latitude := Num (286139 / 10000);
     Seller.longitude := Num (772090 / 10000) |}.

Definition kiranaMumbai : Customer.t :=
  {| Customer.id := "550e8400-e29b-41d4-a716-446655440001";
     Customer.name := "Shree Kirana Store";
     Customer.latitude := Num (191136 / 10000);
     Customer.longitude := Num (728697 / 10000) |}.

Definition mumbai : Warehouse.t :=
  {| Warehouse.id := "770e8400-e29b-41d4-a716-446655440001";
     Warehouse.name := "MUMB_Warehouse";
     Warehouse.latitude := Num (190760 / 10000);
     Warehouse.longitude := Num (728777 / 10000);
     Warehouse.city := Some "Mumbai" |}.

Definition delhi : Warehouse.t :=
  {| Warehouse.id := "770e8400-e29b-41d4-a716-446655440002";
     Warehouse.name := "Delhi_Warehouse";
     Warehouse.latitude := Num (287041 / 10000);
     Warehouse.longitude := Num (771025 / 10000);
     Warehouse.city := Some "Delhi" |}.

(** A warehouse row with the coordinates of the fixture [invalidCoords]. *)
Definition misplaced : Warehouse.t :=
  {| Warehouse.id := "770e8400-e29b-41d4-a716-446655440098";
     Warehouse.name := "Misplaced_Warehouse";
     Warehouse.latitude := Num 999;
     Warehouse.longitude := Num 999;
     Warehouse.city := None |}.

Definition lightProductId : string := "880e8400-e29b-41d4-a716-446655440001".

(** A store with the rows above; [active] is the list of active
    warehouses, in the order the store returns them. *)
Definition testStore (active : list Warehouse.t) : SupabaseClient :=
  {| sellers_by_id := fun id =>
       if bool_decide (id = Seller.id nestle) then found nestle else notFound;
     customers_by_id := fun id =>
       if bool_decide (id = Customer.id kiranaMumbai)
       then found kiranaMumbai else notFound;
     warehouses_by_id := fun id =>
       match List.find (fun x => bool_decide (Warehouse.id x = id))
               [mumbai; delhi] with
       | Some x => found x
       | None => notFound
       end;
     warehouses_active := found active;
     products_by_id := fun id =>
       if bool_decide (id = lightProductId)
       then found {| Product.weight_kg := Num (25 / 10) |} else notFound;
     delivery_speeds_by_type := fun speed =>
       if bool_decide (speed = "standard") then
         found {| DeliverySpeedConfig.speed_type := "standard";
                  DeliverySpeedConfig.base_charge := Num 10;
                  DeliverySpeedConfig.extra_charge_per_kg := Num 0 |}
       else if bool_decide (speed = "express") then
         found {| DeliverySpeedConfig.speed_type := "express";
                  DeliverySpeedConfig.base_charge := Num 10;
                  DeliverySpeedConfig.extra_charge_per_kg := Num (12 / 10) |}
       else notFound;
     latency := 5 |}.

(** A process that has just started: empty cache, clock at 0. *)
Definition freshWorld : World :=
  {| cache := CacheManager.getInstance; clock := 0 |}.

(** * Properties *)

(** ** Numbers *)

Lemma Rltb_true (a b : R) : Rltb a b = true ↔ (a < b)%R.
Proof. unfold Rltb. destruct (Rlt_dec a b); split; intros; auto; discriminate. Qed.

Lemma Rltb_false (a b : R) : Rltb a b = false ↔ (b <= a)%R.
Proof.
  unfold Rltb. destruct (Rlt_dec a b); split; intros; auto; try discriminate; lra.
Qed.

Lemma Rleb_true (a b : R) : Rleb a b = true ↔ (a <= b)%R.
Proof. unfold Rleb. destruct (Rle_dec a b); split; intros; auto; discriminate. Qed.

Lemma Rleb_false (a b : R) : Rleb a b = false ↔ (b < a)%R.
Proof.
  unfold Rleb. destruct (Rle_dec a b); split; intros; auto; try discriminate; lra.
Qed.

Lemma ndiv_Num (a b : R) : b ≠ 0%R → (Num a / Num b)%js = Num (a / b).
Proof. intros Hb. unfold ndiv. destruct (Req_dec_T b 0); [contradiction | reflexivity]. Qed.

Lemma sqrt_Num (a : R) : (0 <= a)%R → Math.sqrt (Num a) = Num (sqrt a).
Proof. intros Ha. unfold Math.sqrt. destruct (Rlt_dec a 0); [lra | reflexivity]. Qed.

Lemma toRadians_Num (x : R) : toRadians (Num x) = Num (x * (PI / 180)).
Proof.
  unfold toRadians, Math.PI, lit. rewrite ndiv_Num by lra. reflexivity.
Qed.

Lemma round2_Num (x : R) :
  (Math.round (Num x * lit 100) / lit 100)%js = Num (round2 x).
Proof. unfold lit. cbn [nmul lift2 Math.round lift1]. rewrite ndiv_Num by lra. reflexivity. Qed.

Lemma round2_error (x : R) : (- (1 / 200) < round2 x - x <= 1 / 200)%R.
Proof.
  unfold round2. pose proof (Zfloor_bound (x * 100 + / 2)) as [H1 H2]. lra.
Qed.

Lemma round2_value (x : R) (z : Z) :
  (IZR z <= x * 100 + / 2 < IZR z + 1)%R → round2 x = (IZR z / 100)%R.
Proof. intros H. unfold round2. rewrite (Zfloor_eq z) by exact H. reflexivity. Qed.

(** ** distance-calculator.ts *)

Lemma isValidCoordinate_true (lat lon : number) :
  isValidCoordinate lat lon = true ↔
  ∃ a b : R, lat = Num a ∧ lon = Num b ∧
    (-90 <= a <= 90)%R ∧ (-180 <= b <= 180)%R.
Proof.
  unfold isValidCoordinate, nge, nle, lit. split.
  - destruct lat as [|a], lon as [|b]; cbn; try discriminate.
    rewrite !andb_true_iff, !Rleb_true. intros [[[Ha1 Ha2] Hb1] Hb2].
    exists a, b. repeat split; auto.
  - intros (a & b & -> & -> & [Ha1 Ha2] & [Hb1 Hb2]). cbn.
    rewrite !andb_true_iff, !Rleb_true. auto.
Qed.

Lemma cos_latitude_nonneg (lat : R) :
  (-90 <= lat <= 90)%R → (0 <= cos (lat * (PI / 180)))%R.
Proof.
  intros [H1 H2]. pose proof PI_RGT_0 as Hpi.
  apply cos_ge_0; nra.
Qed.

Lemma havA_range (lat1 lon1 lat2 lon2 : R) :
  (-90 <= lat1 <= 90)%R → (-90 <= lat2 <= 90)%R →
  (0 <= havA lat1 lon1 lat2 lon2 <= 1)%R.
Proof.
  intros H1 H2. unfold havA.
  pose proof (cos_latitude_nonneg lat1 H1) as Hc1.
  pose proof (cos_latitude_nonneg lat2 H2) as Hc2.
  set (p1 := (lat1 * (PI / 180))%R) in *.
  set (p2 := (lat2 * (PI / 180))%R) in *.
  replace ((lat2 - lat1) * (PI / 180) / 2)%R with ((p2 - p1) / 2)%R
    by (unfold p1, p2; lra).
  set (s := sin ((p2 - p1) / 2)).
  set (t := sin ((lon2 - lon1) * (PI / 180) / 2)).
  assert (Ht : (0 <= t * t <= 1)%R).
  { pose proof (SIN_bound ((lon2 - lon1) * (PI / 180) / 2)) as Hb.
    fold t in Hb. nra. }
  assert (Hs : (2 * (s * s) = 1 - (cos p2 * cos p1 + sin p2 * sin p1))%R).
  { rewrite <- cos_minus.
    replace (p2 - p1)%R with (2 * ((p2 - p1) / 2))%R at 1 by lra.
    rewrite cos_2a_sin. fold s. lra. }
  assert (Hsum : (cos p2 * cos p1 - sin p2 * sin p1 <= 1)%R).
  { rewrite <- cos_plus. apply COS_bound. }
  assert (Hcc : (0 <= cos p1 * cos p2)%R) by nra.
  split; [nra|].
  assert ((cos p1 * cos p2 * t * t <= cos p1 * cos p2)%R) by nra.
  nra.
Qed.

Lemma atan_nonneg (x : R) : (0 <= x)%R → (0 <= atan x)%R.
Proof.
  intros [Hx | <-].
  - left. rewrite <- atan_0. apply atan_increasing. exact Hx.
  - rewrite atan_0. lra.
Qed.

Lemma atan2R_nonneg (y x : R) : (0 <= y)%R → (0 <= x)%R → (0 <= atan2R y x)%R.
Proof.
  intros Hy Hx. unfold atan2R. pose proof PI_RGT_0 as Hpi.
  destruct (Rlt_dec 0 x) as [Hpos|_].
  - apply atan_nonneg. unfold Rdiv.
    apply Rmult_le_pos; [assumption|]. left. apply Rinv_0_lt_compat. assumption.
  - destruct (Rlt_dec x 0); [lra|].
    destruct (Rlt_dec 0 y); [lra|].
    destruct (Rlt_dec y 0); lra.
Qed.

Lemma haversine_nonneg (lat1 lon1 lat2 lon2 : R) :
  (0 <= haversine lat1 lon1 lat2 lon2)%R.
Proof.
  unfold haversine.
  pose proof (atan2R_nonneg _ _ (sqrt_pos (havA lat1 lon1 lat2 lon2))
                (sqrt_pos (1 - havA lat1 lon1 lat2 lon2))).
  lra.
Qed.

(** On valid coordinates the call returns the haversine distance: the
    two square roots are taken of numbers in [[0, 1]]. *)
Lemma calculateDistance_valid (lat1 lon1 lat2 lon2 : R) :
  (-90 <= lat1 <= 90)%R → (-180 <= lon1 <= 180)%R →
  (-90 <= lat2 <= 90)%R → (-180 <= lon2 <= 180)%R →
  calculateDistance (Num lat1) (Num lon1) (Num lat2) (Num lon2)
  = Return (Num (haversine lat1 lon1 lat2 lon2)).
Proof.
  intros Ha1 Hb1 Ha2 Hb2. unfold calculateDistance.
  assert (isValidCoordinate (Num lat1) (Num lon1) = true) as ->
    by (apply isValidCoordinate_true; eauto 10).
  assert (isValidCoordinate (Num lat2) (Num lon2) = true) as ->
    by (apply isValidCoordinate_true; eauto 10).
  cbn [negb orb]. cbv zeta.
  cbn [nsub lift2]. rewrite !toRadians_Num. unfold lit.
  rewrite !ndiv_Num by lra.
  cbn [Math.sin Math.cos lift1 nmul nadd lift2 nsub].
  fold (havA lat1 lon1 lat2 lon2).
  pose proof (havA_range lat1 lon1 lat2 lon2 Ha1 Ha2) as [Hlo Hhi].
  rewrite !sqrt_Num by lra.
  reflexivity.
Qed.

(** *** Invalid coordinates (C7) *)

Lemma isValidCoordinate_false (lat lon : number) :
  isValidCoordinate lat lon = false ↔
  failsCheck LatitudeField lat ∨ failsCheck LongitudeField lon.
Proof.
  unfold isValidCoordinate, nge, nle, lit.
  destruct lat as [|a], lon as [|b]; cbn; try tauto.
  rewrite !andb_false_iff, !Rleb_false. tauto.
Qed.

Lemma invalidInput_iff (lat1 lon1 lat2 lon2 : number) :
  invalidInput lat1 lon1 lat2 lon2 ↔
  isValidCoordinate lat1 lon1 = false ∨ isValidCoordinate lat2 lon2 = false.
Proof.
  rewrite !isValidCoordinate_false. unfold invalidInput. split.
  - intros ([] & [] & H); cbn in H; tauto.
  - intros [[H|H]|[H|H]];
      [exists FirstPoint, LatitudeField | exists FirstPoint, LongitudeField
      |exists SecondPoint, LatitudeField | exists SecondPoint, LongitudeField];
      exact H.
Qed.

Lemma calculateDistance_invalid (lat1 lon1 lat2 lon2 : number) :
  isValidCoordinate lat1 lon1 = false ∨ isValidCoordinate lat2 lon2 = false →
  calculateDistance lat1 lon1 lat2 lon2
  = Throw (Error [Lit "Invalid coordinates provided"]).
Proof.
  intros H. unfold calculateDistance.
  destruct H as [-> | ->]; cbn [negb orb]; [reflexivity|].
  rewrite orb_true_r. reflexivity.
Qed.

(** C7, as the code has it.  Whenever a component of either point is
    [NaN] or out of range the call throws, and it throws the same plain
    [Error("Invalid coordinates provided")] in every such case, whichever
    field of whichever point failed. *)
Theorem calculateDistance_invalid_throws (lat1 lon1 lat2 lon2 : number) :
  invalidInput lat1 lon1 lat2 lon2 →
  calculateDistance lat1 lon1 lat2 lon2
  = Throw (Error [Lit "Invalid coordinates provided"]).
Proof.
  intros H. apply calculateDistance_invalid. apply invalidInput_iff. exact H.
Qed.

Lemma calculateDistance_invalid_throws_witness :
  invalidInput (lit 100) (Num (775946 / 10000)) (Num (129716 / 10000)) (Num (775946 / 10000))
  ∧ calculateDistance (lit 100) (Num (775946 / 10000))
                      (Num (129716 / 10000)) (Num (775946 / 10000))
    = Throw (Error [Lit "Invalid coordinates provided"]).
Proof.
  assert (H : invalidInput (lit 100) (Num (775946 / 10000))
                (Num (129716 / 10000)) (Num (775946 / 10000))).
  { exists FirstPoint, LatitudeField. cbn. lra. }
  split; [exact H|].
  apply (calculateDistance_invalid_throws _ _ _ _ H).
Defined.

(** C7, as the specification words it, fails: no reading of the thrown
    exception names a field of a point that failed, since an out-of-range
    first latitude and an out-of-range second longitude throw the same
    value. *)
Lemma calculateDistance_error_names_no_field :
  ¬ ∃ identify : Exception → pointName * fieldName,
      ∀ lat1 lon1 lat2 lon2 : number,
        invalidInput lat1 lon1 lat2 lon2 →
        ∃ e, calculateDistance lat1 lon1 lat2 lon2 = Throw e ∧
             failsCheck (identify e).2
               (component lat1 lon1 lat2 lon2 (identify e).1 (identify e).2).
Proof.
  intros (identify & H).
  destruct (H (lit 91) (lit 0) (lit 0) (lit 0)) as (e1 & He1 & Hf1).
  { exists FirstPoint, LatitudeField. cbn. lra. }
  destruct (H (lit 0) (lit 0) (lit 0) (lit 181)) as (e2 & He2 & Hf2).
  { exists SecondPoint, LongitudeField. cbn. lra. }
  rewrite calculateDistance_invalid in He1
    by (apply invalidInput_iff; exists FirstPoint, LatitudeField; cbn; lra).
  rewrite calculateDistance_invalid in He2
    by (apply invalidInput_iff; exists SecondPoint, LongitudeField; cbn; lra).
  injection He1 as <-. injection He2 as <-.
  destruct (identify (Error [Lit "Invalid coordinates provided"])) as [[] []];
    cbn in Hf1, Hf2; lra.
Qed.

(** ** transport-strategy.ts *)

Ltac band_cases :=
  unfold TransportModeSelector.getTransportModeAndRate,
    TransportModeSelector.selectStrategy, TransportModeSelector.strategies;
  cbn [List.find canHandle AeroplaneStrategy TruckStrategy MiniVanStrategy
       List.filter];
  unfold nge, nle, nlt, lit, cmp2, Rltb, Rleb;
  repeat (match goal with
          | |- context [Rlt_dec ?a ?b] => destruct (Rlt_dec a b); try lra
          | |- context [Rle_dec ?a ?b] => destruct (Rle_dec a b); try lra
          end; cbn [andb]);
  try reflexivity.

(** C2.  Every non-negative distance gets exactly one band: Mini Van at
    rate 3 on [[0, 100)], Truck at rate 2 on [[100, 500)], Aeroplane at
    rate 1 from 500 on; exactly one of the three strategies accepts the
    distance; 100 selects Truck and 500 selects Aeroplane. *)
Theorem transport_bands_partition (d : R) :
  (0 <= d)%R →
  ((d < 100)%R →
     TransportModeSelector.getTransportModeAndRate (Num d)
     = Return {| mode := "Mini Van"; rate := lit 3 |})
  ∧ ((100 <= d < 500)%R →
     TransportModeSelector.getTransportModeAndRate (Num d)
     = Return {| mode := "Truck"; rate := lit 2 |})
  ∧ ((500 <= d)%R →
     TransportModeSelector.getTransportModeAndRate (Num d)
     = Return {| mode := "Aeroplane"; rate := lit 1 |})
  ∧ length (List.filter (fun s => canHandle s (Num d))
              TransportModeSelector.getAllStrategies) = 1
  ∧ TransportModeSelector.getTransportModeAndRate (lit 100)
    = Return {| mode := "Truck"; rate := lit 2 |}
  ∧ TransportModeSelector.getTransportModeAndRate (lit 500)
    = Return {| mode := "Aeroplane"; rate := lit 1 |}.
Proof.
  intros Hd. unfold TransportModeSelector.getAllStrategies.
  repeat split; try intros ?; band_cases.
Qed.

Lemma transport_bands_partition_witness :
  TransportModeSelector.getTransportModeAndRate (Num 50)
  = Return {| mode := "Mini Van"; rate := lit 3 |}.
Proof.
  destruct (transport_bands_partition 50) as (H & _); [lra|].
  apply H. lra.
Defined.

(** C6.  A negative distance is rejected: [selectStrategy] throws
    [Error("Distance cannot be negative")], so does
    [getTransportModeAndRate], and no mode is returned; -1 is such a
    distance. *)
Theorem negative_distance_rejected (d : R) :
  (d < 0)%R →
  TransportModeSelector.selectStrategy (Num d)
  = Throw (Error [Lit "Distance cannot be negative"])
  ∧ TransportModeSelector.getTransportModeAndRate (Num d)
    = Throw (Error [Lit "Distance cannot be negative"])
  ∧ (∀ r, TransportModeSelector.getTransportModeAndRate (Num d) ≠ Return r)
  ∧ TransportModeSelector.getTransportModeAndRate (lit (-1))
    = Throw (Error [Lit "Distance cannot be negative"]).
Proof.
  intros Hd.
  assert (Hs : TransportModeSelector.selectStrategy (Num d)
               = Throw (Error [Lit "Distance cannot be negative"])) by band_cases.
  assert (Hg : TransportModeSelector.getTransportModeAndRate (Num d)
               = Throw (Error [Lit "Distance cannot be negative"])).
  { unfold TransportModeSelector.getTransportModeAndRate. rewrite Hs. reflexivity. }
  repeat split; auto.
  - intros r. rewrite Hg. discriminate.
  - band_cases.
Qed.

Lemma negative_distance_rejected_witness :
  TransportModeSelector.selectStrategy (Num (-10))
  = Throw (Error [Lit "Distance cannot be negative"]).
Proof.
  destruct (negative_distance_rejected (-10)) as (H & _); [lra | exact H].
Defined.

(** ** cache-manager.ts *)

Section CacheProperties.
Context {T : Type}.
Implicit Types (this : CacheManager.t T) (key : string) (v : T).

Lemma set_lookup now key v ttl this :
    CacheManager.cache (CacheManager.set now key v ttl this) !! key
    = Some {| value := v;
              expiresAt := (now + match ttl with
                                  | Some ms =>
                                      if (ms =? 0)%Z
                                      then CacheManager.defaultTTL this else ms
                                  | None => CacheManager.defaultTTL this
                                  end)%Z |}.
  Proof. unfold CacheManager.set. cbn. apply lookup_insert_eq. Qed.

Lemma set_lookup_nonzero now key v (t : Z) this :
    t ≠ 0%Z →
    CacheManager.cache (CacheManager.set now key v (Some t) this) !! key
    = Some {| value := v; expiresAt := (now + t)%Z |}.
  Proof.
    intros Ht. rewrite set_lookup.
    destruct (Z.eqb_spec t 0); [contradiction | reflexivity].
  Qed.

Lemma set_lookup_ne now key key' v ttl this :
    key ≠ key' →
    CacheManager.cache (CacheManager.set now key v ttl this) !! key'
    = CacheManager.cache this !! key'.
  Proof. intros H. unfold CacheManager.set. cbn. by apply lookup_insert_ne. Qed.

  (** What a read does to an entry, by the expiry time found. *)
Lemma get_live now key this (e : CacheEntry T) :
    CacheManager.cache this !! key = Some e → (now <= expiresAt e)%Z →
    CacheManager.get now key this
    = (Some (value e),
       {| CacheManager.cache := CacheManager.cache this;
          CacheManager.hits := S (CacheManager.hits this);
          CacheManager.misses := CacheManager.misses this;
          CacheManager.defaultTTL := CacheManager.defaultTTL this |}).
  Proof.
    intros He Hle. unfold CacheManager.get. rewrite He.
    destruct (Z.gtb_spec now (expiresAt e)); [lia | reflexivity].
  Qed.

Lemma get_expired now key this (e : CacheEntry T) :
    CacheManager.cache this !! key = Some e → (now > expiresAt e)%Z →
    CacheManager.get now key this
    = (None,
       {| CacheManager.cache := base.delete key (CacheManager.cache this);
          CacheManager.hits := CacheManager.hits this;
          CacheManager.misses := S (CacheManager.misses this);
          CacheManager.defaultTTL := CacheManager.defaultTTL this |}).
  Proof.
    intros He Hgt. unfold CacheManager.get. rewrite He.
    destruct (Z.gtb_spec now (expiresAt e)); [reflexivity | lia].
  Qed.

Lemma has_live now key this (e : CacheEntry T) :
    CacheManager.cache this !! key = Some e → (now <= expiresAt e)%Z →
    CacheManager.has now key this = (true, this).
  Proof.
    intros He Hle. unfold CacheManager.has. rewrite He.
    destruct (Z.gtb_spec now (expiresAt e)); [lia | reflexivity].
  Qed.

Lemma has_expired now key this (e : CacheEntry T) :
    CacheManager.cache this !! key = Some e → (now > expiresAt e)%Z →
    CacheManager.has now key this
    = (false,
       {| CacheManager.cache := base.delete key (CacheManager.cache this);
          CacheManager.hits := CacheManager.hits this;
          CacheManager.misses := CacheManager.misses this;
          CacheManager.defaultTTL := CacheManager.defaultTTL this |}).
  Proof.
    intros He Hgt. unfold CacheManager.has. rewrite He.
    destruct (Z.gtb_spec now (expiresAt e)); [reflexivity | lia].
  Qed.

  (** C8, as the code has it.  For a TTL [t] other than 0, an entry set at
      time [T] is returned by [get] (and reported by [has]) at every time
      up to and including [T + t]; at every later time [get] returns
      [null], [has] returns [false], and that very read removes the
      entry.  A TTL of 0, like an omitted TTL, selects the default TTL
      instead, so the same holds with [defaultTTL] in place of [t]. *)
Theorem cache_ttl_expiry key v (t now0 now : Z) this :
    t ≠ 0%Z →
    let set_t := CacheManager.set now0 key v (Some t) this in
    let set_0 := CacheManager.set now0 key v (Some 0%Z) this in
    let d := CacheManager.defaultTTL this in
    ((now <= now0 + t)%Z →
       (CacheManager.get now key set_t).1 = Some v
       ∧ CacheManager.cache (CacheManager.get now key set_t).2 !! key
         = CacheManager.cache set_t !! key
       ∧ CacheManager.has now key set_t = (true, set_t))
    ∧ ((now > now0 + t)%Z →
       (CacheManager.get now key set_t).1 = None
       ∧ CacheManager.cache (CacheManager.get now key set_t).2 !! key = None
       ∧ (CacheManager.has now key set_t).1 = false
       ∧ CacheManager.cache (CacheManager.has now key set_t).2 !! key = None)
    ∧ ((now <= now0 + d)%Z → (CacheManager.get now key set_0).1 = Some v)
    ∧ ((now > now0 + d)%Z → (CacheManager.get now key set_0).1 = None).
  Proof.
    intros Ht set_t set_0 d.
    pose proof (set_lookup_nonzero now0 key v t this Ht) as Hs. fold set_t in Hs.
    pose proof (set_lookup now0 key v (Some 0%Z) this) as H0. fold set_0 in H0.
    change (CacheManager.cache set_0 !! key
            = Some {| value := v; expiresAt := (now0 + d)%Z |}) in H0.
    split; [|split; [|split]]; intros Hnow; repeat split.
    - rewrite (get_live now key set_t _ Hs) by (cbn; lia). reflexivity.
    - rewrite (get_live now key set_t _ Hs) by (cbn; lia). reflexivity.
    - rewrite (has_live now key set_t _ Hs) by (cbn; lia). reflexivity.
    - rewrite (get_expired now key set_t _ Hs) by (cbn; lia). reflexivity.
    - rewrite (get_expired now key set_t _ Hs) by (cbn; lia). cbn.
      apply lookup_delete_eq.
    - rewrite (has_expired now key set_t _ Hs) by (cbn; lia). reflexivity.
    - rewrite (has_expired now key set_t _ Hs) by (cbn; lia). cbn.
      apply lookup_delete_eq.
    - rewrite (get_live now key set_0 _ H0) by (cbn; lia). reflexivity.
    - rewrite (get_expired now key set_0 _ H0) by (cbn; lia). reflexivity.
  Qed.

  (** C10.  [clear()] empties the map and zeroes both counters, so the
      statistics read right after are all 0; [resetStats()] zeroes the
      counters too and keeps the entries. *)
Theorem clear_resets_stats this :
    CacheManager.getStats (CacheManager.clear this)
    = {| CacheStats.hits := 0; CacheStats.misses := 0;
         CacheStats.size := 0; CacheStats.hitRate := lit 0 |}
    ∧ CacheManager.getStats (CacheManager.resetStats this)
      = {| CacheStats.hits := 0; CacheStats.misses := 0;
           CacheStats.size := base.size (CacheManager.cache this);
           CacheStats.hitRate := lit 0 |}
    ∧ CacheManager.cache (CacheManager.clear this) = ∅.
  Proof.
    unfold CacheManager.getStats, CacheManager.clear, CacheManager.resetStats.
    cbn. rewrite map_size_empty. auto.
  Qed.
End CacheProperties.

(** The 100 ms entry of the test suite: present at once, gone after 150 ms. *)
Lemma cache_ttl_expiry_witness :
  (CacheManager.get 0 "expiring-key"
     (CacheManager.set 0 "expiring-key" "expiring-value" (Some 100%Z)
        CacheManager.getInstance)).1 = Some "expiring-value"
  ∧ (CacheManager.get 150 "expiring-key"
       (CacheManager.set 0 "expiring-key" "expiring-value" (Some 100%Z)
          CacheManager.getInstance)).1 = None.
Proof.
  pose proof (cache_ttl_expiry "expiring-key" "expiring-value" 100 0 0
                CacheManager.getInstance ltac:(lia)) as (H1 & _).
  pose proof (cache_ttl_expiry "expiring-key" "expiring-value" 100 0 150
                CacheManager.getInstance ltac:(lia)) as (_ & H2 & _).
  split.
  - apply H1. lia.
  - apply H2. lia.
Defined.

(** C8, as the specification words it, fails at TTL 0: the entry set at
    time 0 is still returned at time 1, strictly after [0 + 0]. *)
Lemma cache_ttl_zero_keeps_entry :
  (1 > 0 + 0)%Z
  ∧ (CacheManager.get 1 "k"
       (CacheManager.set 0 "k" "v" (Some 0%Z) CacheManager.getInstance)).1
    = Some "v"
  ∧ (CacheManager.has 1 "k"
       (CacheManager.set 0 "k" "v" (Some 0%Z) CacheManager.getInstance)).1
    = true.
Proof. repeat split; vm_compute; reflexivity. Qed.

(** Hit and miss accounting of the test suite: after [resetStats()], one
    [set] and two reads of the same key give 2 hits, no miss and a hit
    rate of 1. *)
Example two_hits_hit_rate_1 :
  let c0 := CacheManager.resetStats (CacheManager.getInstance (T := string)) in
  let c1 := CacheManager.set 0 "hit-key" "value" None c0 in
  let c2 := (CacheManager.get 1 "hit-key" c1).2 in
  let c3 := (CacheManager.get 2 "hit-key" c2).2 in
  CacheManager.getStats c3
  = {| CacheStats.hits := 2; CacheStats.misses := 0;
       CacheStats.size := 1; CacheStats.hitRate := Num 1 |}.
Proof.
  intros c0 c1 c2 c3.
  pose proof (set_lookup 0 "hit-key" "value" None c0) as H1. fold c1 in H1.
  assert (Hc2 : c2 = {| CacheManager.cache := CacheManager.cache c1;
                        CacheManager.hits := 1; CacheManager.misses := 0;
                        CacheManager.defaultTTL := 300000 |}).
  { unfold c2. rewrite (get_live 1 "hit-key" c1 _ H1) by (cbn; lia). reflexivity. }
  assert (Hc3 : c3 = {| CacheManager.cache := CacheManager.cache c1;
                        CacheManager.hits := 2; CacheManager.misses := 0;
                        CacheManager.defaultTTL := 300000 |}).
  { unfold c3. rewrite Hc2.
    match goal with
    | |- context [CacheManager.get 2 "hit-key" ?st] =>
        rewrite (get_live 2 "hit-key" st _ H1) by (cbn; lia)
    end.
    reflexivity. }
  rewrite Hc3. unfold CacheManager.getStats.
  cbn [CacheManager.cache CacheManager.hits CacheManager.misses].
  assert (Hsize : base.size (CacheManager.cache c1) = 1%nat).
  { unfold c1, c0, CacheManager.set, CacheManager.resetStats,
      CacheManager.getInstance. cbn [CacheManager.cache].
    rewrite map_size_insert_None by apply lookup_empty.
    rewrite map_size_empty. reflexivity. }
  rewrite Hsize. cbn [Nat.add Nat.ltb Nat.leb].
  unfold lit. change (Z.of_nat 2) with 2%Z.
  rewrite ndiv_Num by lra. do 2 f_equal. lra.
Qed.

(** ** Pricing (shipping-service.ts, lines 335-358) *)

Lemma getTransportModeAndRate_band (d : R) :
  (0 <= d)%R →
  TransportModeSelector.getTransportModeAndRate (Num d)
  = Return {| mode := bandMode d; rate := Num (bandRate d) |}.
Proof.
  intros Hd. unfold bandMode, bandRate.
  destruct (Rlt_dec d 100); [|destruct (Rlt_dec d 500)]; band_cases.
Qed.

Lemma priceShipment_Num (d w b e : R) (speedType deliverySpeed : string) :
  (0 <= d)%R →
  priceShipment (Num d) (Num w)
    {| DeliverySpeedConfig.speed_type := speedType;
       DeliverySpeedConfig.base_charge := Num b;
       DeliverySpeedConfig.extra_charge_per_kg := Num e |} deliverySpeed
  = Return {|
      ShippingChargeResult.shippingCharge :=
        Num (round2 (b + d * bandRate d * w + expressOf deliverySpeed e w));
      ShippingChargeResult.transportMode := bandMode d;
      ShippingChargeResult.distance_km := Num (round2 d);
      ShippingChargeResult.weight_kg := Num w;
      ShippingChargeResult.breakdown := {|
        baseCharge := Num b;
        transportCharge := Num (round2 (d * bandRate d * w));
        expressCharge := Num (round2 (expressOf deliverySpeed e w)) |} |}.
Proof.
  intros Hd. unfold priceShipment, expressOf.
  rewrite getTransportModeAndRate_band by exact Hd.
  cbn [rate mode DeliverySpeedConfig.base_charge
       DeliverySpeedConfig.extra_charge_per_kg].
  destruct (bool_decide (deliverySpeed = "express"));
    unfold lit; cbn [nmul nadd lift2 Math.round lift1];
    rewrite !ndiv_Num by lra; reflexivity.
Qed.

(** The priced scenarios of the test suite: 50 km and 10 kg cost 1510 by
    standard and 1522 by express delivery; 600 km and 25 kg by express
    cost 15040. *)
Example price_standard_50km_10kg :
  ∃ r : ShippingChargeResult.t,
    priceShipment (Num 50) (Num 10)
      {| DeliverySpeedConfig.speed_type := "standard";
         DeliverySpeedConfig.base_charge := Num 10;
         DeliverySpeedConfig.extra_charge_per_kg := Num 0 |} "standard"
    = Return r
    ∧ ShippingChargeResult.shippingCharge r = Num 1510.
Proof.
  eexists. split; [apply priceShipment_Num; lra|].
  cbn [ShippingChargeResult.shippingCharge].
  assert (Hrate : bandRate 50 = 3%R).
  { unfold bandRate. destruct (Rlt_dec 50 100); [reflexivity | lra]. }
  rewrite Hrate. change (expressOf "standard" 0 10) with 0%R.
  rewrite (round2_value _ 151000) by lra. f_equal. lra.
Qed.

Example price_express_50km_10kg :
  ∃ r : ShippingChargeResult.t,
    priceShipment (Num 50) (Num 10)
      {| DeliverySpeedConfig.speed_type := "express";
         DeliverySpeedConfig.base_charge := Num 10;
         DeliverySpeedConfig.extra_charge_per_kg := Num (12 / 10) |} "express"
    = Return r
    ∧ ShippingChargeResult.shippingCharge r = Num 1522.
Proof.
  eexists. split; [apply priceShipment_Num; lra|].
  cbn [ShippingChargeResult.shippingCharge].
  assert (Hrate : bandRate 50 = 3%R).
  { unfold bandRate. destruct (Rlt_dec 50 100); [reflexivity | lra]. }
  rewrite Hrate. change (expressOf "express" (12 / 10) 10) with (12 / 10 * 10)%R.
  rewrite (round2_value _ 152200) by lra. f_equal. lra.
Qed.

Example price_express_600km_25kg :
  ∃ r : ShippingChargeResult.t,
    priceShipment (Num 600) (Num 25)
      {| DeliverySpeedConfig.speed_type := "express";
         DeliverySpeedConfig.base_charge := Num 10;
         DeliverySpeedConfig.extra_charge_per_kg := Num (12 / 10) |} "express"
    = Return r
    ∧ ShippingChargeResult.shippingCharge r = Num 15040.
Proof.
  eexists. split; [apply priceShipment_Num; lra|].
  cbn [ShippingChargeResult.shippingCharge].
  assert (Hrate : bandRate 600 = 1%R).
  { unfold bandRate. destruct (Rlt_dec 600 100); [lra|].
    destruct (Rlt_dec 600 500); [lra | reflexivity]. }
  rewrite Hrate. change (expressOf "express" (12 / 10) 25) with (12 / 10 * 25)%R.
  rewrite (round2_value _ 1504000) by lra. f_equal. lra.
Qed.

(** ** validation.ts *)

Lemma validateCoordinates_valid (lat lon : number) (fieldPrefix : string) :
  isValidCoordinate lat lon = true →
  validateCoordinates lat lon fieldPrefix = Return true.
Proof.
  intros (a & b & -> & -> & [Ha1 Ha2] & [Hb1 Hb2])%isValidCoordinate_true.
  unfold validateCoordinates, ngt, nlt, lit. cbn [isNaN cmp2].
  assert (Rltb a (-90) = false) as -> by (apply Rltb_false; lra).
  assert (Rltb 90 a = false) as -> by (apply Rltb_false; lra).
  assert (Rltb b (-180) = false) as -> by (apply Rltb_false; lra).
  assert (Rltb 180 b = false) as -> by (apply Rltb_false; lra).
  reflexivity.
Qed.

(** ** shipping-service.ts *)

Lemma calculateDistance_checked (lat1 lon1 lat2 lon2 : number) :
  isValidCoordinate lat1 lon1 = true → isValidCoordinate lat2 lon2 = true →
  calculateDistance lat1 lon1 lat2 lon2
  = Return (Num (haversine (realOf lat1) (realOf lon1) (realOf lat2) (realOf lon2))).
Proof.
  intros (a1 & b1 & -> & -> & Ha1 & Hb1)%isValidCoordinate_true
         (a2 & b2 & -> & -> & Ha2 & Hb2)%isValidCoordinate_true.
  cbn [realOf]. by apply calculateDistance_valid.
Qed.

Lemma nearestScan_valid (seller : Seller.t) (warehouses : list Warehouse.t)
    (best : option (Warehouse.t * R)) :
  isValidCoordinate (Seller.latitude seller) (Seller.longitude seller) = true →
  Forall validWarehouse warehouses →
  nearestScan seller warehouses (asNumber best)
  = Return (asNumber (firstMin (sellerDistance seller) warehouses best)).
Proof.
  intros Hs Hws. revert best.
  induction Hws as [|warehouse rest Hw _ IH]; intros best; [reflexivity|].
  cbn [nearestScan firstMin].
  rewrite (calculateDistance_checked _ _ _ _ Hs Hw).
  fold (sellerDistance seller warehouse).
  destruct best as [[w0 m0]|]; cbn [asNumber isNaN negb].
  - unfold nlt. cbn [cmp2]. unfold Rltb.
    destruct (Rlt_dec (sellerDistance seller warehouse) m0).
    + apply (IH (Some (warehouse, sellerDistance seller warehouse))).
    + apply (IH (Some (w0, m0))).
  - apply (IH (Some (warehouse, sellerDistance seller warehouse))).
Qed.

(** The scan, on whatever numbers the distance calls return. *)
Lemma nearestScan_computed (seller : Seller.t) (warehouses : list Warehouse.t)
    (dist : Warehouse.t → R) (best : option (Warehouse.t * R)) :
  (∀ x, x ∈ warehouses →
        calculateDistance (Seller.latitude seller) (Seller.longitude seller)
          (Warehouse.latitude x) (Warehouse.longitude x)
        = Return (Num (dist x))) →
  nearestScan seller warehouses (asNumber best)
  = Return (asNumber (firstMin dist warehouses best)).
Proof.
  revert best. induction warehouses as [|warehouse rest IH]; intros best Hdist;
    [reflexivity|].
  cbn [nearestScan firstMin].
  rewrite (Hdist warehouse) by apply list_elem_of_here.
  assert (Hrest : ∀ x, x ∈ rest →
            calculateDistance (Seller.latitude seller) (Seller.longitude seller)
              (Warehouse.latitude x) (Warehouse.longitude x)
            = Return (Num (dist x)))
    by (intros x Hx; apply Hdist; by apply list_elem_of_further).
  destruct best as [[w0 m0]|]; cbn [asNumber isNaN negb].
  - unfold nlt. cbn [cmp2]. unfold Rltb.
    destruct (Rlt_dec (dist warehouse) m0).
    + apply (IH (Some (warehouse, dist warehouse)) Hrest).
    + apply (IH (Some (w0, m0)) Hrest).
  - apply (IH (Some (warehouse, dist warehouse)) Hrest).
Qed.

(** What [firstMin] returns: the pair it started from, if no listed
    warehouse is strictly nearer, and otherwise the first listed
    warehouse at the least distance. *)
Lemma firstMin_spec (dist : Warehouse.t → R) (warehouses : list Warehouse.t)
    (best : option (Warehouse.t * R)) :
  match firstMin dist warehouses best with
  | None => best = None ∧ warehouses = []
  | Some (w, m) =>
      (best = Some (w, m) ∧ ∀ j x, warehouses !! j = Some x → (m <= dist x)%R)
      ∨ (∃ i : nat,
           warehouses !! i = Some w ∧ m = dist w
           ∧ (∀ j x, warehouses !! j = Some x → (m <= dist x)%R)
           ∧ (∀ j x, (j < i)%nat → warehouses !! j = Some x → (m < dist x)%R)
           ∧ match best with
             | Some (_, m0) => (m < m0)%R
             | None => True
             end)
  end.
Proof.
  revert best. induction warehouses as [|a rest IH]; intros best.
  - cbn. destruct best as [[w m]|]; [|auto].
    left. split; [reflexivity|]. intros j x Hj. rewrite lookup_nil in Hj. discriminate.
  - cbn [firstMin].
    set (best' := match best with
                  | None => Some (a, dist a)
                  | Some (_, minDistance) =>
                      if Rlt_dec (dist a) minDistance then Some (a, dist a) else best
                  end).
    specialize (IH best').
    destruct (firstMin dist rest best') as [[w m]|].
    + destruct IH as [[Hb Hall] | (i & Hi & Hm & Hall & Hfirst & Hlt)].
      * (* the pair carried into the rest of the list survived *)
        destruct best as [[w0 m0]|]; subst best'.
        -- destruct (Rlt_dec (dist a) m0) as [Hlt|Hge].
           ++ injection Hb as <- <-. right. exists 0%nat.
              repeat split; auto.
              ** intros [|j] x Hj; cbn in Hj; [injection Hj as <-; lra | eauto].
              ** intros j x Hj. lia.
           ++ injection Hb as <- <-. left. split; [reflexivity|].
              intros [|j] x Hj; cbn in Hj; [injection Hj as <-; lra | eauto].
        -- injection Hb as <- <-. right. exists 0%nat.
           repeat split; auto.
           ** intros [|j] x Hj; cbn in Hj; [injection Hj as <-; lra | eauto].
           ** intros j x Hj. lia.
      * (* a strictly nearer warehouse was found later in the list *)
        assert (Ha : (m < dist a)%R ∧
                     match best with Some (_, m0) => (m < m0)%R | None => True end).
        { destruct best as [[w0 m0]|]; subst best'; cbn in Hlt.
          - destruct (Rlt_dec (dist a) m0); cbn in Hlt; lra.
          - split; [lra | exact I]. }
        destruct Ha as [Ha Hbest].
        right. exists (S i). repeat split; auto.
        -- intros [|j] x Hj; cbn in Hj; [injection Hj as <-; lra | eauto].
        -- intros [|j] x Hlt' Hj; cbn in Hj; [injection Hj as <-; lra|].
           eapply Hfirst; [|exact Hj]. lia.
    + destruct IH as [Hb _]. subst best'.
      destruct best as [[w0 m0]|]; [destruct (Rlt_dec (dist a) m0)|]; discriminate.
Qed.

Section ServiceProperties.
Variable supabase : SupabaseClient.

  (** The run of [findNearestWarehouse] once the cache has missed and the
      seller and the warehouse list have been fetched. *)
Lemma findNearestWarehouse_computed (sellerId : string) (w : World)
      (seller : Seller.t) (warehouses : list Warehouse.t) :
    let key := CacheKeyBuilder.nearestWarehouse sellerId in
    let w1 := {| cache := (CacheManager.get (clock w) key (cache w)).2;
                 clock := (clock w + latency supabase + latency supabase)%Z |} in
    cacheMiss key w →
    sellers_by_id supabase sellerId = found seller →
    isValidCoordinate (Seller.latitude seller) (Seller.longitude seller) = true →
    warehouses_active supabase = found warehouses →
    warehouses ≠ [] →
    findNearestWarehouse supabase sellerId w
    = match nearestScan seller warehouses None with
      | Return (Some (nearestWarehouse, minDistance)) =>
          let result := nearestResult nearestWarehouse minDistance in
          (Return result,
           {| cache := CacheManager.set (clock w1) key (OfNearestWarehouse result)
                         (Some 300000%Z) (cache w1);
              clock := clock w1 |})
      | Return None =>
          (Throw (Error [Lit "Could not determine nearest warehouse"]), w1)
      | Throw e => (Throw e, w1)
      | BadCast => (BadCast, w1)
      end.
  Proof.
    intros key w1 Hmiss Hseller Hvalid Hws Hne. unfold cacheMiss in Hmiss.
    unfold findNearestWarehouse, mbind, M_bind, cache_get. fold key.
    subst w1. destruct (CacheManager.get (clock w) key (cache w)) as [v c].
    cbn in Hmiss. subst v. cbn [await]. rewrite Hseller. cbn [found error data].
    rewrite (validateCoordinates_valid _ _ _ Hvalid).
    rewrite Hws. cbn [found error data].
    destruct warehouses as [|wh rest]; [contradiction|].
    unfold call.
    destruct (nearestScan seller (wh :: rest) None) as [[[nw md]|]| |]; reflexivity.
  Qed.

  (** The run on a miss, once each distance call has returned a number:
      the first warehouse of the list at the least of these numbers. *)
Lemma findNearestWarehouse_least (sellerId : string) (w : World)
      (seller : Seller.t) (warehouses : list Warehouse.t)
      (dist : Warehouse.t → R) :
    let key := CacheKeyBuilder.nearestWarehouse sellerId in
    let w1 := {| cache := (CacheManager.get (clock w) key (cache w)).2;
                 clock := (clock w + latency supabase + latency supabase)%Z |} in
    cacheMiss key w →
    sellers_by_id supabase sellerId = found seller →
    isValidCoordinate (Seller.latitude seller) (Seller.longitude seller) = true →
    warehouses_active supabase = found warehouses →
    warehouses ≠ [] →
    (∀ x, x ∈ warehouses →
          calculateDistance (Seller.latitude seller) (Seller.longitude seller)
            (Warehouse.latitude x) (Warehouse.longitude x)
          = Return (Num (dist x))) →
    ∃ (i : nat) (nearest : Warehouse.t),
      warehouses !! i = Some nearest
      ∧ (∀ j x, warehouses !! j = Some x → (dist nearest <= dist x)%R)
      ∧ (∀ j x, (j < i)%nat → warehouses !! j = Some x →
           (dist nearest < dist x)%R)
      ∧ findNearestWarehouse supabase sellerId w
        = let result := nearestResult nearest (Num (dist nearest)) in
          (Return result,
           {| cache := CacheManager.set (clock w1) key (OfNearestWarehouse result)
                         (Some 300000%Z) (cache w1);
              clock := clock w1 |}).
  Proof.
    intros key w1 Hmiss Hseller Hvalid Hws Hne Hdist.
    rewrite (findNearestWarehouse_computed sellerId w seller warehouses)
      by assumption.
    change (@None (Warehouse.t * number)) with (asNumber None).
    rewrite (nearestScan_computed seller warehouses dist None Hdist).
    pose proof (firstMin_spec dist warehouses None) as Hspec.
    destruct (firstMin dist warehouses None) as [[nw m]|].
    - destruct Hspec as [[Hb _] | (i & Hi & -> & Hmin & Hfirst & _)];
        [discriminate|].
      exists i, nw. split; [exact Hi|]. split; [exact Hmin|].
      split; [exact Hfirst | reflexivity].
    - destruct Hspec as [_ Hnil]. contradiction.
  Qed.

  (** C3, as the code has it.  When no live result is cached for the
      seller, the seller is found with valid coordinates, the active
      warehouses form a non-empty list, and each distance call from the
      seller returns a number ([dist]), the call returns the first
      warehouse of the list, in the order supplied, at which this number
      is least, and reports [Math.round(distance * 100) / 100] of it.
      When a live result is cached, the call returns it as it is,
      whatever the store holds. *)
Theorem findNearestWarehouse_first_nearest (sellerId : string) (w : World) :
    (∀ (seller : Seller.t) (warehouses : list Warehouse.t)
       (dist : Warehouse.t → R),
     cacheMiss (CacheKeyBuilder.nearestWarehouse sellerId) w →
     sellers_by_id supabase sellerId = found seller →
     isValidCoordinate (Seller.latitude seller) (Seller.longitude seller) = true →
     warehouses_active supabase = found warehouses →
     warehouses ≠ [] →
     (∀ x, x ∈ warehouses →
           calculateDistance (Seller.latitude seller) (Seller.longitude seller)
             (Warehouse.latitude x) (Warehouse.longitude x)
           = Return (Num (dist x))) →
     ∃ (i : nat) (nearest : Warehouse.t),
       warehouses !! i = Some nearest
       ∧ (∀ j x, warehouses !! j = Some x → (dist nearest <= dist x)%R)
       ∧ (∀ j x, (j < i)%nat → warehouses !! j = Some x →
            (dist nearest < dist x)%R)
       ∧ (findNearestWarehouse supabase sellerId w).1
         = Return {|
             NearestWarehouseResult.warehouseId := Warehouse.id nearest;
             NearestWarehouseResult.warehouseLocation :=
               {| lat := Warehouse.latitude nearest;
                  long := Warehouse.longitude nearest |};
             NearestWarehouseResult.warehouseName := Warehouse.name nearest;
             NearestWarehouseResult.distance_km :=
               (Math.round (Num (dist nearest) * lit 100) / lit 100)%js |})
    ∧ (∀ (e : CacheEntry CachedValue) (r : NearestWarehouseResult.t),
         CacheManager.cache (cache w) !! CacheKeyBuilder.nearestWarehouse sellerId
         = Some e →
         (clock w <= expiresAt e)%Z →
         value e = OfNearestWarehouse r →
         (findNearestWarehouse supabase sellerId w).1 = Return r).
  Proof.
    split.
    - intros seller warehouses dist Hmiss Hseller Hvalid Hws Hne Hdist.
      destruct (findNearestWarehouse_least sellerId w seller warehouses dist
                  Hmiss Hseller Hvalid Hws Hne Hdist)
        as (i & nearest & Hi & Hmin & Hfirst & ->).
      exists i, nearest. split; [exact Hi|]. split; [exact Hmin|].
      split; [exact Hfirst | reflexivity].
    - intros e r He Hlive Hv.
      unfold findNearestWarehouse, mbind, M_bind, cache_get.
      rewrite (get_live _ _ _ e He Hlive), Hv. reflexivity.
  Qed.
End ServiceProperties.

(** ** The sample data are well formed *)

Lemma isValidCoordinate_Num (a b : R) :
  (-90 <= a <= 90)%R → (-180 <= b <= 180)%R →
  isValidCoordinate (Num a) (Num b) = true.
Proof. intros Ha Hb. apply isValidCoordinate_true. eauto 10. Qed.

Lemma nestle_valid :
  isValidCoordinate (Seller.latitude nestle) (Seller.longitude nestle) = true.
Proof. apply isValidCoordinate_Num; lra. Qed.

Lemma mumbai_valid : validWarehouse mumbai.
Proof. apply isValidCoordinate_Num; lra. Qed.

Lemma delhi_valid : validWarehouse delhi.
Proof. apply isValidCoordinate_Num; lra. Qed.

Lemma freshWorld_miss (key : string) : cacheMiss key freshWorld.
Proof. unfold cacheMiss, freshWorld, CacheManager.get. cbn. rewrite lookup_empty. reflexivity. Qed.

Lemma findNearestWarehouse_first_nearest_witness :
  ∃ (i : nat) (nearest : Warehouse.t),
    [mumbai; delhi] !! i = Some nearest
    ∧ (findNearestWarehouse (testStore [mumbai; delhi]) (Seller.id nestle)
         freshWorld).1
      = Return {|
          NearestWarehouseResult.warehouseId := Warehouse.id nearest;
          NearestWarehouseResult.warehouseLocation :=
            {| lat := Warehouse.latitude nearest;
               long := Warehouse.longitude nearest |};
          NearestWarehouseResult.warehouseName := Warehouse.name nearest;
          NearestWarehouseResult.distance_km :=
            (Math.round (Num (sellerDistance nestle nearest) * lit 100)
             / lit 100)%js |}.
Proof.
  destruct (findNearestWarehouse_first_nearest (testStore [mumbai; delhi])
              (Seller.id nestle) freshWorld) as [Hcomputed _].
  destruct (Hcomputed nestle [mumbai; delhi] (sellerDistance nestle))
    as (i & nearest & Hi & _ & _ & Hr).
  - apply freshWorld_miss.
  - reflexivity.
  - exact nestle_valid.
  - reflexivity.
  - discriminate.
  - intros x Hx. apply calculateDistance_checked; [exact nestle_valid|].
    apply elem_of_cons in Hx as [-> | Hx]; [exact mumbai_valid|].
    apply elem_of_cons in Hx as [-> | Hx]; [exact delhi_valid|].
    by apply not_elem_of_nil in Hx.
  - exists i, nearest. split; [exact Hi | exact Hr].
Defined.

Lemma findNearestWarehouse_hit (supabase : SupabaseClient) (sellerId : string)
    (w : World) (e : CacheEntry CachedValue) (r : NearestWarehouseResult.t) :
  CacheManager.cache (cache w) !! CacheKeyBuilder.nearestWarehouse sellerId = Some e →
  (clock w <= expiresAt e)%Z →
  value e = OfNearestWarehouse r →
  (findNearestWarehouse supabase sellerId w).1 = Return r.
Proof.
  intros He Hlive Hv.
  unfold findNearestWarehouse, mbind, M_bind, cache_get.
  rewrite (get_live _ _ _ e He Hlive), Hv. reflexivity.
Qed.

(** C3, as the specification words it, fails in two ways.  A listed
    warehouse with out-of-range coordinates makes the call throw instead
    of returning the nearest warehouse; and while a result is cached the
    call returns it without looking at the list: computed when Mumbai was
    the only active warehouse, it is returned again when the list is
    Delhi alone. *)
Lemma findNearestWarehouse_not_always_nearest :
  isValidCoordinate (Seller.latitude nestle) (Seller.longitude nestle) = true
  ∧ (findNearestWarehouse (testStore [misplaced]) (Seller.id nestle) freshWorld).1
    = Throw (Error [Lit "Invalid coordinates provided"])
  ∧ ∃ r : NearestWarehouseResult.t,
      (findNearestWarehouse (testStore [delhi]) (Seller.id nestle)
         (findNearestWarehouse (testStore [mumbai]) (Seller.id nestle)
            freshWorld).2).1
      = Return r
      ∧ NearestWarehouseResult.warehouseId r = Warehouse.id mumbai
      ∧ Warehouse.id mumbai ≠ Warehouse.id delhi.
Proof.
  split; [exact nestle_valid|]. split.
  - rewrite (findNearestWarehouse_computed (testStore [misplaced])
               (Seller.id nestle) freshWorld nestle [misplaced]);
      [|apply freshWorld_miss | reflexivity | exact nestle_valid | reflexivity
       | discriminate].
    cbn [nearestScan]. rewrite calculateDistance_invalid; [reflexivity|].
    right. apply isValidCoordinate_false. left. cbn. lra.
  - rewrite (findNearestWarehouse_computed (testStore [mumbai])
               (Seller.id nestle) freshWorld nestle [mumbai]);
      [|apply freshWorld_miss | reflexivity | exact nestle_valid | reflexivity
       | discriminate].
    change (@None (Warehouse.t * number)) with (asNumber None).
    rewrite (nearestScan_valid nestle [mumbai] None nestle_valid)
      by (repeat constructor; exact mumbai_valid).
    cbn [firstMin asNumber snd].
    eexists. split; [|split; [|discriminate]].
    + eapply findNearestWarehouse_hit.
      * cbn [cache]. apply set_lookup_nonzero. lia.
      * cbn. lia.
      * reflexivity.
    + reflexivity.
Qed.

(** *** calculateShippingCharge *)

Lemma priceShipment_returns (d : R) (weightKg : number)
    (deliveryConfig : DeliverySpeedConfig.t) (deliverySpeed : string) :
  (0 <= d)%R →
  ∃ r : ShippingChargeResult.t,
    priceShipment (Num d) weightKg deliveryConfig deliverySpeed = Return r
    ∧ ShippingChargeResult.weight_kg r = weightKg
    ∧ ShippingChargeResult.transportMode r = bandMode d.
Proof.
  intros Hd. unfold priceShipment.
  rewrite getTransportModeAndRate_band by exact Hd.
  eexists. split; [reflexivity|]. split; reflexivity.
Qed.

Section ChargeProperties.
Variable supabase : SupabaseClient.

(** The outcome of [calculateShippingCharge] once the cache has missed,
    warehouse, customer and speed configuration have been fetched, and
    the distance call has returned [distance]: that of the pricing. *)
Lemma calculateShippingCharge_priced
    (warehouseId customerId deliverySpeed : string) (productId : option string)
    (w : World) (warehouse : Warehouse.t) (customer : Customer.t)
    (deliveryConfig : DeliverySpeedConfig.t) (distance : number) :
  cacheMiss (CacheKeyBuilder.shippingCharge warehouseId customerId deliverySpeed
               productId) w →
  warehouses_by_id supabase warehouseId = found warehouse →
  validWarehouse warehouse →
  customers_by_id supabase customerId = found customer →
  isValidCoordinate (Customer.latitude customer) (Customer.longitude customer)
  = true →
  delivery_speeds_by_type supabase deliverySpeed = found deliveryConfig →
  calculateDistance (Warehouse.latitude warehouse) (Warehouse.longitude warehouse)
    (Customer.latitude customer) (Customer.longitude customer)
  = Return distance →
  (calculateShippingCharge supabase warehouseId customerId deliverySpeed
     productId w).1
  = priceShipment distance (resolvedWeight supabase productId) deliveryConfig
      deliverySpeed.
Proof.
  intros Hmiss Hwh Hwv Hcu Hcv Hcfg Hdist. unfold cacheMiss in Hmiss.
  unfold calculateShippingCharge, mbind, M_bind, cache_get.
  destruct (CacheManager.get (clock w) _ (cache w)) as [v c].
  cbn in Hmiss. subst v. cbn [await]. rewrite Hwh. cbn [found error data].
  rewrite (validateCoordinates_valid _ _ _ Hwv).
  rewrite Hcu. cbn [found error data].
  rewrite (validateCoordinates_valid _ _ _ Hcv).
  rewrite Hcfg. cbn [found error data].
  rewrite Hdist.
  unfold resolvedWeight, call, mret, M_ret, cache_set.
  destruct productId as [p|]; [destruct (bool_decide (p = ""))|].
  - destruct (priceShipment distance (lit 1) deliveryConfig deliverySpeed);
      reflexivity.
  - destruct (data (products_by_id supabase p)) as [product|].
    + destruct (priceShipment distance (Product.weight_kg product)
                  deliveryConfig deliverySpeed); reflexivity.
    + destruct (priceShipment distance (lit 1) deliveryConfig deliverySpeed);
        reflexivity.
  - destruct (priceShipment distance (lit 1) deliveryConfig deliverySpeed);
      reflexivity.
Qed.

(** C4.  A product id is supplied; warehouse, customer and speed
    configuration are resolved and the distance call has returned
    [distance].  If the product query returns no record, the call ends
    as the pricing of [distance] at the default weight of 1 kg ends,
    which is also how the same call without a product id ends: for a
    distance that is a number from 0 up it returns a result with
    [weight_kg = 1].  If the product is found, the call ends as the
    pricing at its [weight_kg] ends. *)
Theorem missing_product_defaults_to_1kg
    (warehouseId customerId deliverySpeed productId : string)
    (w : World) (warehouse : Warehouse.t) (customer : Customer.t)
    (deliveryConfig : DeliverySpeedConfig.t) (distance : number) :
  productId ≠ "" →
  cacheMiss (CacheKeyBuilder.shippingCharge warehouseId customerId deliverySpeed
               (Some productId)) w →
  warehouses_by_id supabase warehouseId = found warehouse →
  validWarehouse warehouse →
  customers_by_id supabase customerId = found customer →
  isValidCoordinate (Customer.latitude customer) (Customer.longitude customer)
  = true →
  delivery_speeds_by_type supabase deliverySpeed = found deliveryConfig →
  calculateDistance (Warehouse.latitude warehouse) (Warehouse.longitude warehouse)
    (Customer.latitude customer) (Customer.longitude customer)
  = Return distance →
  let run :=
    (calculateShippingCharge supabase warehouseId customerId deliverySpeed
       (Some productId) w).1 in
  (data (products_by_id supabase productId) = None →
     run = priceShipment distance (lit 1) deliveryConfig deliverySpeed
     ∧ (cacheMiss (CacheKeyBuilder.shippingCharge warehouseId customerId
                     deliverySpeed None) w →
        run = (calculateShippingCharge supabase warehouseId customerId
                 deliverySpeed None w).1)
     ∧ (∀ d : R, distance = Num d → (0 <= d)%R →
          ∃ r : ShippingChargeResult.t,
            run = Return r ∧ ShippingChargeResult.weight_kg r = lit 1))
  ∧ (∀ product : Product.t,
       data (products_by_id supabase productId) = Some product →
       run = priceShipment distance (Product.weight_kg product) deliveryConfig
               deliverySpeed
       ∧ (∀ d : R, distance = Num d → (0 <= d)%R →
            ∃ r : ShippingChargeResult.t,
              run = Return r
              ∧ ShippingChargeResult.weight_kg r = Product.weight_kg product)).
Proof.
  intros Hp Hmiss Hwh Hwv Hcu Hcv Hcfg Hdist run. subst run.
  rewrite (calculateShippingCharge_priced warehouseId customerId deliverySpeed
             (Some productId) w warehouse customer deliveryConfig distance)
    by assumption.
  unfold resolvedWeight. rewrite bool_decide_eq_false_2 by exact Hp.
  split.
  - intros ->. split; [reflexivity|]. split.
    + intros Hmiss0.
      rewrite (calculateShippingCharge_priced warehouseId customerId
                 deliverySpeed None w warehouse customer deliveryConfig distance)
        by assumption.
      reflexivity.
    + intros d -> Hd.
      destruct (priceShipment_returns d (lit 1) deliveryConfig deliverySpeed Hd)
        as (r & Hr & Hweight & _).
      exists r. auto.
  - intros product ->. split; [reflexivity|].
    intros d -> Hd.
    destruct (priceShipment_returns d (Product.weight_kg product) deliveryConfig
                deliverySpeed Hd) as (r & Hr & Hweight & _).
    exists r. auto.
Qed.
End ChargeProperties.

Lemma kiranaMumbai_valid :
  isValidCoordinate (Customer.latitude kiranaMumbai)
    (Customer.longitude kiranaMumbai) = true.
Proof. apply isValidCoordinate_Num; lra. Qed.

(** A mistyped product id on the Mumbai route, express delivery. *)
Lemma missing_product_defaults_to_1kg_witness :
  ∃ r : ShippingChargeResult.t,
    (calculateShippingCharge (testStore [mumbai; delhi]) (Warehouse.id mumbai)
       (Customer.id kiranaMumbai) "express" (Some "no-such-product")
       freshWorld).1 = Return r
    ∧ ShippingChargeResult.weight_kg r = lit 1.
Proof.
  destruct (missing_product_defaults_to_1kg (testStore [mumbai; delhi])
              (Warehouse.id mumbai) (Customer.id kiranaMumbai) "express"
              "no-such-product" freshWorld mumbai kiranaMumbai
              {| DeliverySpeedConfig.speed_type := "express";
                 DeliverySpeedConfig.base_charge := Num 10;
                 DeliverySpeedConfig.extra_charge_per_kg := Num (12 / 10) |}
              (Num (routeDistance mumbai kiranaMumbai)))
    as [Hmissing _].
  - discriminate.
  - apply freshWorld_miss.
  - reflexivity.
  - exact mumbai_valid.
  - reflexivity.
  - exact kiranaMumbai_valid.
  - reflexivity.
  - apply calculateDistance_checked; [exact mumbai_valid | exact kiranaMumbai_valid].
  - destruct Hmissing as (_ & _ & Hreturns); [reflexivity|].
    apply (Hreturns (routeDistance mumbai kiranaMumbai) eq_refl).
    apply haversine_nonneg.
Defined.

(** ** Cache writes of the three operations (C9) *)

Lemma shippingCharge_namespace (warehouseId customerId deliverySpeed : string)
    (productId : option string) :
  startsWith "shipping_charge:"
    (CacheKeyBuilder.shippingCharge warehouseId customerId deliverySpeed productId)
  = true.
Proof.
  unfold CacheKeyBuilder.shippingCharge, CacheKeyBuilder.withProduct.
  destruct productId as [p|]; [destruct (bool_decide (p = ""))|]; reflexivity.
Qed.

Lemma calculation_namespace (sellerId customerId deliverySpeed : string)
    (productId : option string) :
  startsWith "calculation:"
    (CacheKeyBuilder.calculation sellerId customerId deliverySpeed productId)
  = true
  ∧ startsWith "shipping_charge:"
      (CacheKeyBuilder.calculation sellerId customerId deliverySpeed productId)
    = false
  ∧ startsWith "nearest_warehouse:"
      (CacheKeyBuilder.calculation sellerId customerId deliverySpeed productId)
    = false.
Proof.
  unfold CacheKeyBuilder.calculation, CacheKeyBuilder.withProduct.
  destruct productId as [p|]; [destruct (bool_decide (p = ""))|];
    repeat split; reflexivity.
Qed.

(** The keys of the three operations never coincide. *)
Lemma calculation_key_ne_nearestWarehouse
    (sellerId customerId deliverySpeed : string) (productId : option string)
    (sellerId' : string) :
  CacheKeyBuilder.nearestWarehouse sellerId'
  ≠ CacheKeyBuilder.calculation sellerId customerId deliverySpeed productId.
Proof.
  intros H.
  destruct (calculation_namespace sellerId customerId deliverySpeed productId)
    as (_ & _ & Hn).
  rewrite <- H in Hn. discriminate.
Qed.

Lemma calculation_key_ne_shippingCharge
    (sellerId customerId deliverySpeed : string) (productId : option string)
    (warehouseId customerId' deliverySpeed' : string) (productId' : option string) :
  CacheKeyBuilder.shippingCharge warehouseId customerId' deliverySpeed' productId'
  ≠ CacheKeyBuilder.calculation sellerId customerId deliverySpeed productId.
Proof.
  intros H.
  destruct (calculation_namespace sellerId customerId deliverySpeed productId)
    as (_ & Hs & _).
  rewrite <- H, shippingCharge_namespace in Hs. discriminate.
Qed.

(** What the read at the start of an operation leaves in the map. *)
Lemma get_effect {T : Type} (now : Z) (key : string) (this : CacheManager.t T) :
  let v := (CacheManager.get now key this).1 in
  let c := (CacheManager.get now key this).2 in
  (∀ k, k ≠ key → CacheManager.cache c !! k = CacheManager.cache this !! k)
  ∧ match v with
    | None => CacheManager.cache c !! key = None
    | Some x => ∃ e, CacheManager.cache c !! key = Some e ∧ value e = x
    end.
Proof.
  unfold CacheManager.get.
  destruct (CacheManager.cache this !! key) as [e|] eqn:He; cbn.
  - destruct (now >? expiresAt e)%Z; cbn.
    + split; [|apply lookup_delete_eq].
      intros k Hk. by apply lookup_delete_ne.
    + split; [reflexivity|]. exists e. auto.
  - split; [reflexivity | exact He].
Qed.

(** The shape shared by the two leaf operations: a read of [key], then,
    on a miss, queries and pure calls, and a single write of [key] right
    before the return. *)
Ltac leaf_discipline key :=
  match goal with
  | |- cacheDiscipline _ _ ?w ?run =>
      destruct run as [o w'] eqn:Hrun;
      unfold cacheDiscipline; cbn [fst snd];
      unfold mbind, M_bind, cache_get in Hrun;
      pose proof (get_effect (clock w) key (cache w)) as [Hframe Hkey];
      destruct (CacheManager.get (clock w) key (cache w)) as [v c];
      cbn [fst snd] in Hframe, Hkey;
      unfold await, throw, call, cache_set, badCast, mret, M_ret in Hrun;
      repeat case_match; simplify_eq; cbn [cache clock];
      (split;
       [ intros k Hk; try rewrite set_lookup_ne by congruence; auto
       | first [ exact Hkey | exact I
               | eexists; split; [apply set_lookup | reflexivity] ] ])
  end.

Section CacheDiscipline.
Variable supabase : SupabaseClient.

Lemma findNearestWarehouse_discipline (sellerId : string) (w : World) :
  cacheDiscipline (CacheKeyBuilder.nearestWarehouse sellerId) OfNearestWarehouse
    w (findNearestWarehouse supabase sellerId w).
Proof.
  unfold findNearestWarehouse.
  leaf_discipline (CacheKeyBuilder.nearestWarehouse sellerId).
Qed.

Lemma calculateShippingCharge_discipline
    (warehouseId customerId deliverySpeed : string) (productId : option string)
    (w : World) :
  cacheDiscipline
    (CacheKeyBuilder.shippingCharge warehouseId customerId deliverySpeed productId)
    OfShippingCharge w
    (calculateShippingCharge supabase warehouseId customerId deliverySpeed
       productId w).
Proof.
  unfold calculateShippingCharge.
  leaf_discipline (CacheKeyBuilder.shippingCharge warehouseId customerId
                     deliverySpeed productId).
Qed.
End CacheDiscipline.

Section CompleteShipping.
Variable supabase : SupabaseClient.

(** [calculateCompleteShipping] lets the two inner operations write
    their own keys; what it leaves under its own key follows the same
    rule as theirs. *)
Lemma calculateCompleteShipping_own_key
    (sellerId customerId deliverySpeed : string) (productId : option string)
    (w : World) :
  let key := CacheKeyBuilder.calculation sellerId customerId deliverySpeed productId in
  let run := calculateCompleteShipping supabase sellerId customerId deliverySpeed
               productId w in
  match run.1 with
  | Throw _ => CacheManager.cache (cache run.2) !! key = None
  | Return r =>
      ∃ e, CacheManager.cache (cache run.2) !! key = Some e
           ∧ value e = OfCompleteShipping r
  | BadCast => True
  end.
Proof.
  intros key run. subst run.
  unfold calculateCompleteShipping, mbind, M_bind, cache_get. fold key.
  pose proof (get_effect (clock w) key (cache w)) as [_ Hkey].
  destruct (CacheManager.get (clock w) key (cache w)) as [v c].
  cbn [fst snd] in Hkey.
  destruct v as [[r|r|r]|]; try exact Hkey; try exact I.
  set (w0 := {| cache := c; clock := clock w |}).
  pose proof (findNearestWarehouse_discipline supabase sellerId w0) as [Hn _].
  destruct (findNearestWarehouse supabase sellerId w0) as [o1 w1].
  cbn [fst snd] in Hn.
  assert (Hk1 : CacheManager.cache (cache w1) !! key = None).
  { rewrite Hn; [exact Hkey|]. intros Heq. symmetry in Heq.
    exact (calculation_key_ne_nearestWarehouse _ _ _ _ _ Heq). }
  destruct o1 as [nearestWarehouse|e1|]; cbn [fst snd]; try exact Hk1; try exact I.
  pose proof (calculateShippingCharge_discipline supabase
                (NearestWarehouseResult.warehouseId nearestWarehouse)
                customerId deliverySpeed productId w1) as [Hs _].
  destruct (calculateShippingCharge supabase
              (NearestWarehouseResult.warehouseId nearestWarehouse)
              customerId deliverySpeed productId w1) as [o2 w2].
  cbn [fst snd] in Hs.
  assert (Hk2 : CacheManager.cache (cache w2) !! key = None).
  { rewrite Hs; [exact Hk1|]. intros Heq. symmetry in Heq.
    exact (calculation_key_ne_shippingCharge _ _ _ _ _ _ _ _ Heq). }
  destruct o2 as [shippingCharge|e2|]; cbn [fst snd]; try exact Hk2; try exact I.
  unfold cache_set, mret, M_ret. cbn [fst snd cache].
  eexists. split; [apply set_lookup | reflexivity].
Qed.

(** C9.  Each of the three operations writes the cache under its own key
    only as its last step before returning: if the operation throws,
    nothing is stored under its key afterwards, and if it returns, the
    entry under its key holds exactly the returned result. *)
Theorem failed_operation_caches_nothing :
  (∀ sellerId w e w',
     findNearestWarehouse supabase sellerId w = (Throw e, w') →
     CacheManager.cache (cache w') !! CacheKeyBuilder.nearestWarehouse sellerId
     = None)
  ∧ (∀ warehouseId customerId deliverySpeed productId w e w',
       calculateShippingCharge supabase warehouseId customerId deliverySpeed
         productId w = (Throw e, w') →
       CacheManager.cache (cache w')
       !! CacheKeyBuilder.shippingCharge warehouseId customerId deliverySpeed
            productId = None)
  ∧ (∀ sellerId customerId deliverySpeed productId w e w',
       calculateCompleteShipping supabase sellerId customerId deliverySpeed
         productId w = (Throw e, w') →
       CacheManager.cache (cache w')
       !! CacheKeyBuilder.calculation sellerId customerId deliverySpeed
            productId = None)
  ∧ (∀ sellerId w r w',
       findNearestWarehouse supabase sellerId w = (Return r, w') →
       ∃ entry,
         CacheManager.cache (cache w') !! CacheKeyBuilder.nearestWarehouse sellerId
         = Some entry ∧ value entry = OfNearestWarehouse r)
  ∧ (∀ warehouseId customerId deliverySpeed productId w r w',
       calculateShippingCharge supabase warehouseId customerId deliverySpeed
         productId w = (Return r, w') →
       ∃ entry,
         CacheManager.cache (cache w')
         !! CacheKeyBuilder.shippingCharge warehouseId customerId deliverySpeed
              productId = Some entry ∧ value entry = OfShippingCharge r)
  ∧ (∀ sellerId customerId deliverySpeed productId w r w',
       calculateCompleteShipping supabase sellerId customerId deliverySpeed
         productId w = (Return r, w') →
       ∃ entry,
         CacheManager.cache (cache w')
         !! CacheKeyBuilder.calculation sellerId customerId deliverySpeed
              productId = Some entry ∧ value entry = OfCompleteShipping r).
Proof.
  repeat split.
  - intros sellerId w e w' Hrun.
    pose proof (findNearestWarehouse_discipline supabase sellerId w) as [_ H].
    rewrite Hrun in H. exact H.
  - intros warehouseId customerId deliverySpeed productId w e w' Hrun.
    pose proof (calculateShippingCharge_discipline supabase warehouseId customerId
                  deliverySpeed productId w) as [_ H].
    rewrite Hrun in H. exact H.
  - intros sellerId customerId deliverySpeed productId w e w' Hrun.
    pose proof (calculateCompleteShipping_own_key sellerId customerId
                  deliverySpeed productId w) as H.
    cbv zeta in H. rewrite Hrun in H. exact H.
  - intros sellerId w r w' Hrun.
    pose proof (findNearestWarehouse_discipline supabase sellerId w) as [_ H].
    rewrite Hrun in H. exact H.
  - intros warehouseId customerId deliverySpeed productId w r w' Hrun.
    pose proof (calculateShippingCharge_discipline supabase warehouseId customerId
                  deliverySpeed productId w) as [_ H].
    rewrite Hrun in H. exact H.
  - intros sellerId customerId deliverySpeed productId w r w' Hrun.
    pose proof (calculateCompleteShipping_own_key sellerId customerId
                  deliverySpeed productId w) as H.
    cbv zeta in H. rewrite Hrun in H. exact H.
Qed.
End CompleteShipping.


Lemma absent_miss (key : string) (w : World) :
  CacheManager.cache (cache w) !! key = None → cacheMiss key w.
Proof. intros H. unfold cacheMiss, CacheManager.get. rewrite H. reflexivity. Qed.

Lemma shippingCharge_key_ne_nearestWarehouse
    (warehouseId customerId deliverySpeed : string) (productId : option string)
    (sellerId : string) :
  CacheKeyBuilder.shippingCharge warehouseId customerId deliverySpeed productId
  ≠ CacheKeyBuilder.nearestWarehouse sellerId.
Proof.
  intros H.
  pose proof (shippingCharge_namespace warehouseId customerId deliverySpeed
                productId) as Hs.
  rewrite H in Hs. discriminate.
Qed.

(** An unknown customer stops [calculateShippingCharge] after the
    warehouse has been resolved. *)
Lemma calculateShippingCharge_unknown_customer (supabase : SupabaseClient)
    (warehouseId customerId deliverySpeed : string) (productId : option string)
    (w : World) (warehouse : Warehouse.t) :
  cacheMiss (CacheKeyBuilder.shippingCharge warehouseId customerId deliverySpeed
               productId) w →
  warehouses_by_id supabase warehouseId = found warehouse →
  validWarehouse warehouse →
  customers_by_id supabase customerId = notFound →
  (calculateShippingCharge supabase warehouseId customerId deliverySpeed
     productId w).1
  = Throw (ResourceNotFoundError "Customer" customerId).
Proof.
  intros Hmiss Hwh Hwv Hcu. unfold cacheMiss in Hmiss.
  unfold calculateShippingCharge, mbind, M_bind, cache_get.
  destruct (CacheManager.get (clock w) _ (cache w)) as [v c].
  cbn in Hmiss. subst v. cbn [await]. rewrite Hwh. cbn [found error data].
  rewrite (validateCoordinates_valid _ _ _ Hwv).
  rewrite Hcu. reflexivity.
Qed.

Lemma get_absent {T : Type} (now : Z) (key : string) (this : CacheManager.t T) :
  CacheManager.cache this !! key = None →
  CacheManager.get now key this
  = (None,
     {| CacheManager.cache := CacheManager.cache this;
        CacheManager.hits := CacheManager.hits this;
        CacheManager.misses := S (CacheManager.misses this);
        CacheManager.defaultTTL := CacheManager.defaultTTL this |}).
Proof. intros H. unfold CacheManager.get. rewrite H. reflexivity. Qed.

(** An unknown customer: the warehouse lookup succeeds and is cached, the
    charge calculation throws, and nothing is stored for the whole
    calculation. *)
Lemma failed_operation_caches_nothing_witness :
  (calculateCompleteShipping (testStore [mumbai]) (Seller.id nestle)
     "no-such-customer" "standard" None freshWorld).1
  = Throw (ResourceNotFoundError "Customer" "no-such-customer")
  ∧ CacheManager.cache
      (cache (calculateCompleteShipping (testStore [mumbai])
                (Seller.id nestle) "no-such-customer" "standard" None
                freshWorld).2)
    !! CacheKeyBuilder.calculation (Seller.id nestle) "no-such-customer"
         "standard" None = None.
Proof.
  assert (Hrun :
    (calculateCompleteShipping (testStore [mumbai]) (Seller.id nestle)
       "no-such-customer" "standard" None freshWorld).1
    = Throw (ResourceNotFoundError "Customer" "no-such-customer")).
  { unfold calculateCompleteShipping, mbind, M_bind, cache_get.
    rewrite get_absent by apply lookup_empty.
    rewrite (findNearestWarehouse_computed (testStore [mumbai])
               (Seller.id nestle) _ nestle [mumbai]);
      [| apply absent_miss, lookup_empty | reflexivity | exact nestle_valid
       | reflexivity | discriminate].
    change (@None (Warehouse.t * number)) with (asNumber None).
    rewrite (nearestScan_valid nestle [mumbai] None nestle_valid)
      by (repeat constructor; exact mumbai_valid).
    cbn [firstMin asNumber]. cbv zeta.
    match goal with
    | |- context [calculateShippingCharge ?s ?a ?b ?c ?d ?w1] =>
        pose proof (calculateShippingCharge_unknown_customer s a b c d w1 mumbai)
          as Hthrow;
        destruct (calculateShippingCharge s a b c d w1) as [o2 w2]
    end.
    cbn [fst] in Hthrow. rewrite Hthrow; [reflexivity | | reflexivity
                                          | exact mumbai_valid | reflexivity].
    apply absent_miss. cbn [cache clock].
    rewrite set_lookup_ne by (apply not_eq_sym, shippingCharge_key_ne_nearestWarehouse).
    rewrite get_absent by apply lookup_empty. apply lookup_empty. }
  split; [exact Hrun|].
  destruct (failed_operation_caches_nothing (testStore [mumbai]))
    as (_ & _ & Hcomplete & _).
  eapply (Hcomplete (Seller.id nestle) "no-such-customer" "standard" None
            freshWorld (ResourceNotFoundError "Customer" "no-such-customer")).
  rewrite <- Hrun. apply surjective_pairing.
Defined.

(** ** The cache stays well typed: no [BadCast] *)

Lemma wellTyped_get (now : Z) (key : string) (m : CacheManager.t CachedValue) :
  wellTyped m →
  wellTyped (CacheManager.get now key m).2
  ∧ ∀ v, (CacheManager.get now key m).1 = Some v →
         startsWith (namespaceOf v) key = true.
Proof.
  intros Hm. unfold CacheManager.get.
  destruct (CacheManager.cache m !! key) as [e|] eqn:He; cbn.
  - destruct (now >? expiresAt e)%Z; cbn.
    + split; [|discriminate]. intros k e' Hk. cbn in Hk.
      apply lookup_delete_Some in Hk as [_ Hk]. exact (Hm k e' Hk).
    + split; [exact Hm|]. intros v [= <-]. exact (Hm key e He).
  - split; [exact Hm | discriminate].
Qed.

Lemma wellTyped_set (now : Z) (key : string) (v : CachedValue) (ttl : option Z)
    (m : CacheManager.t CachedValue) :
  wellTyped m → startsWith (namespaceOf v) key = true →
  wellTyped (CacheManager.set now key v ttl m).
Proof.
  intros Hm Hv k e Hk. unfold CacheManager.set in Hk. cbn in Hk.
  apply lookup_insert_Some in Hk as [[<- <-] | [_ Hk]]; [exact Hv | exact (Hm k e Hk)].
Qed.

Lemma nearestWarehouse_namespace (sellerId : string) :
  startsWith "nearest_warehouse:" (CacheKeyBuilder.nearestWarehouse sellerId) = true
  ∧ startsWith "shipping_charge:" (CacheKeyBuilder.nearestWarehouse sellerId) = false
  ∧ startsWith "calculation:" (CacheKeyBuilder.nearestWarehouse sellerId) = false.
Proof. repeat split; reflexivity. Qed.

Lemma shippingCharge_namespace_only (warehouseId customerId deliverySpeed : string)
    (productId : option string) :
  startsWith "nearest_warehouse:"
    (CacheKeyBuilder.shippingCharge warehouseId customerId deliverySpeed productId)
  = false
  ∧ startsWith "calculation:"
      (CacheKeyBuilder.shippingCharge warehouseId customerId deliverySpeed productId)
    = false.
Proof.
  unfold CacheKeyBuilder.shippingCharge, CacheKeyBuilder.withProduct.
  destruct productId as [p|]; [destruct (bool_decide (p = ""))|];
    repeat split; reflexivity.
Qed.

(** The pure functions never end in [BadCast]. *)
Lemma calculateDistance_not_BadCast (lat1 lon1 lat2 lon2 : number) :
  calculateDistance lat1 lon1 lat2 lon2 ≠ BadCast.
Proof.
  unfold calculateDistance.
  destruct (negb (isValidCoordinate lat1 lon1) || negb (isValidCoordinate lat2 lon2));
    discriminate.
Qed.

Lemma nearestScan_not_BadCast (seller : Seller.t) (warehouses : list Warehouse.t)
    (best : option (Warehouse.t * number)) :
  nearestScan seller warehouses best ≠ BadCast.
Proof.
  revert best. induction warehouses as [|warehouse rest IH]; intros best;
    cbn [nearestScan]; [discriminate|].
  pose proof (calculateDistance_not_BadCast (Seller.latitude seller)
                (Seller.longitude seller) (Warehouse.latitude warehouse)
                (Warehouse.longitude warehouse)) as Hd.
  destruct (calculateDistance _ _ _ _) as [distance|e|];
    [apply IH | discriminate | contradiction].
Qed.

Lemma priceShipment_not_BadCast (distance weightKg : number)
    (deliveryConfig : DeliverySpeedConfig.t) (deliverySpeed : string) :
  priceShipment distance weightKg deliveryConfig deliverySpeed ≠ BadCast.
Proof.
  unfold priceShipment, TransportModeSelector.getTransportModeAndRate,
    TransportModeSelector.selectStrategy.
  destruct (distance <? lit 0)%js; [discriminate|].
  destruct (List.find _ _); discriminate.
Qed.

Ltac leaf_typed w key Hw Hns Hrun :=
  cbn [fst snd];
  unfold mbind, M_bind, cache_get in Hrun;
  let Hc := fresh "Hc" in
  let Hv := fresh "Hv" in
  pose proof (wellTyped_get (clock w) key (cache w) Hw) as [Hc Hv];
  destruct (CacheManager.get (clock w) key (cache w)) as [? ?];
  cbn [fst snd] in Hc, Hv;
  unfold await, throw, call, cache_set, badCast, mret, M_ret in Hrun;
  repeat case_match; simplify_eq; cbn [cache clock];
  try (specialize (Hv _ eq_refl); cbn [namespaceOf] in Hv;
       rewrite Hv in Hns; destruct Hns as (? & ? & ?); discriminate);
  try (exfalso;
       first [ eapply nearestScan_not_BadCast; eassumption
             | eapply priceShipment_not_BadCast; eassumption
             | eapply calculateDistance_not_BadCast; eassumption ]);
  (split; [discriminate|]);
  try exact Hc;
  try (apply wellTyped_set; [exact Hc | cbn [namespaceOf]; tauto]).

Section WellTyped.
Variable supabase : SupabaseClient.

Lemma findNearestWarehouse_typed (sellerId : string) (w : World) :
  wellTyped (cache w) →
  (findNearestWarehouse supabase sellerId w).1 ≠ BadCast
  ∧ wellTyped (cache (findNearestWarehouse supabase sellerId w).2).
Proof.
  intros Hw.
  pose proof (nearestWarehouse_namespace sellerId) as Hns.
  destruct (findNearestWarehouse supabase sellerId w) as [o w'] eqn:Hrun.
  unfold findNearestWarehouse in Hrun.
  leaf_typed w (CacheKeyBuilder.nearestWarehouse sellerId) Hw Hns Hrun.
Qed.

Lemma calculateShippingCharge_typed
    (warehouseId customerId deliverySpeed : string) (productId : option string)
    (w : World) :
  wellTyped (cache w) →
  (calculateShippingCharge supabase warehouseId customerId deliverySpeed
     productId w).1 ≠ BadCast
  ∧ wellTyped (cache (calculateShippingCharge supabase warehouseId customerId
                        deliverySpeed productId w).2).
Proof.
  intros Hw.
  pose proof (shippingCharge_namespace warehouseId customerId deliverySpeed
                productId) as Hs.
  pose proof (shippingCharge_namespace_only warehouseId customerId deliverySpeed
                productId) as [Hn Hc].
  assert (Hns := conj Hs (conj Hn Hc)).
  destruct (calculateShippingCharge supabase warehouseId customerId deliverySpeed
              productId w) as [o w'] eqn:Hrun.
  unfold calculateShippingCharge in Hrun.
  leaf_typed w (CacheKeyBuilder.shippingCharge warehouseId customerId
                  deliverySpeed productId) Hw Hns Hrun.
Qed.

(** From a well-typed cache, and so from the empty cache of a fresh
    process, no operation ends in [BadCast], and the cache stays well
    typed. *)
Lemma calculateCompleteShipping_typed
    (sellerId customerId deliverySpeed : string) (productId : option string)
    (w : World) :
  wellTyped (cache w) →
  (calculateCompleteShipping supabase sellerId customerId deliverySpeed
     productId w).1 ≠ BadCast
  ∧ wellTyped (cache (calculateCompleteShipping supabase sellerId customerId
                        deliverySpeed productId w).2).
Proof.
  intros Hw.
  pose proof (calculation_namespace sellerId customerId deliverySpeed productId)
    as (Hc & Hs & Hn).
  unfold calculateCompleteShipping, mbind, M_bind, cache_get.
  pose proof (wellTyped_get (clock w)
                (CacheKeyBuilder.calculation sellerId customerId deliverySpeed
                   productId) (cache w) Hw) as [Hc0 Hv].
  destruct (CacheManager.get (clock w) _ (cache w)) as [v c].
  cbn [fst snd] in Hc0, Hv.
  destruct v as [[r|r|r]|]; cbn [fst snd cache badCast mret M_ret];
    try (specialize (Hv _ eq_refl); cbn [namespaceOf] in Hv; congruence);
    try (split; [discriminate | exact Hc0]).
  set (w0 := {| cache := c; clock := clock w |}).
  destruct (findNearestWarehouse_typed sellerId w0 Hc0) as [Hb1 Ht1].
  destruct (findNearestWarehouse supabase sellerId w0) as [o1 w1].
  cbn [fst snd] in Hb1, Ht1.
  destruct o1 as [nearestWarehouse|e1|]; cbn [fst snd];
    try (split; [discriminate | exact Ht1]); [|contradiction].
  destruct (calculateShippingCharge_typed
              (NearestWarehouseResult.warehouseId nearestWarehouse)
              customerId deliverySpeed productId w1 Ht1) as [Hb2 Ht2].
  destruct (calculateShippingCharge supabase
              (NearestWarehouseResult.warehouseId nearestWarehouse)
              customerId deliverySpeed productId w1) as [o2 w2].
  cbn [fst snd] in Hb2, Ht2.
  destruct o2 as [shippingCharge|e2|]; cbn [fst snd];
    try (split; [discriminate | exact Ht2]); [|contradiction].
  unfold cache_set, mret, M_ret. cbn [fst snd cache].
  split; [discriminate|]. apply wellTyped_set; [exact Ht2 | exact Hc].
Qed.
End WellTyped.

Lemma freshWorld_wellTyped : wellTyped (cache freshWorld).
Proof. intros k e Hk. cbn in Hk. rewrite lookup_empty in Hk. discriminate. Qed.

(** * Further properties *)

(** ** validation.ts *)

Lemma append_inj_l (p a b : string) : p +:+ a = p +:+ b → a = b.
Proof.
  induction p as [|c p IH]; cbn; [auto|]. intros [= H]. auto.
Qed.

Lemma latitude_field_ne_longitude (p : string) :
  p +:+ "latitude" ≠ p +:+ "longitude".
Proof. intros H. apply append_inj_l in H. discriminate. Qed.

Ltac field_membership p :=
  pose proof (latitude_field_ne_longitude p);
  cbn [map field In]; intuition (try congruence; try lra).

(** Unlike [calculateDistance], the validator tells which field failed:
    on invalid coordinates it throws a [ValidationException] that lists
    [<prefix>latitude] exactly when the latitude is [NaN] or out of
    range, and [<prefix>longitude] exactly when the longitude is; on
    valid coordinates it returns [true]. *)
Theorem validateCoordinates_names_failing_fields
    (lat lon : number) (fieldPrefix : string) :
  (isValidCoordinate lat lon = true →
     validateCoordinates lat lon fieldPrefix = Return true)
  ∧ (isValidCoordinate lat lon = false →
     ∃ errors : list ValidationError,
       validateCoordinates lat lon fieldPrefix = Throw (ValidationException errors)
       ∧ (In (fieldPrefix +:+ "latitude") (map field errors)
          ↔ failsCheck LatitudeField lat)
       ∧ (In (fieldPrefix +:+ "longitude") (map field errors)
          ↔ failsCheck LongitudeField lon)
       ∧ (length errors <= 2)%nat).
Proof.
  split; [apply validateCoordinates_valid|].
  intros Hinv. apply isValidCoordinate_false in Hinv.
  unfold validateCoordinates, ngt, nlt, lit.
  destruct lat as [|a], lon as [|b]; cbn [isNaN cmp2 app]; unfold Rltb;
    repeat match goal with
           | |- context [Rlt_dec ?x ?y] => destruct (Rlt_dec x y)
           end;
    cbn [orb app length Nat.ltb Nat.leb] in *;
    try (eexists; split; [reflexivity|]; cbn [failsCheck length];
         split; [|split; [|lia]]; field_membership fieldPrefix).
  all: exfalso; cbn [failsCheck] in Hinv; lra.
Qed.

Lemma validateCoordinates_names_failing_fields_witness :
  ∃ errors : list ValidationError,
    validateCoordinates (lit 999) (lit 0) "seller."
    = Throw (ValidationException errors)
    ∧ (In "seller.latitude" (map field errors)
       ↔ failsCheck LatitudeField (lit 999)).
Proof.
  destruct (validateCoordinates_names_failing_fields (lit 999) (lit 0) "seller.")
    as [_ H].
  destruct H as (errors & Hthrow & Hlat & _).
  - apply isValidCoordinate_false. left. cbn. lra.
  - exists errors. split; [exact Hthrow | exact Hlat].
Defined.

(** [validateRequired] reports every missing entry, in the order of the
    entries, and nothing else: an entry is missing when its value is
    [null], [undefined] or the empty string, so [0], [false] and [NaN]
    count as present. *)
Theorem validateRequired_lists_missing (params : list (string * JsValue)) :
  validateRequired params
  = match List.filter (fun entry => isMissing entry.2) params with
    | [] => Return true
    | missing =>
        Throw (ValidationException
                 (map (fun entry : string * JsValue =>
                         {| field := entry.1;
                            message := entry.1 +:+ " is required" |}) missing))
    end.
Proof.
  unfold validateRequired.
  assert (Hfold : ∀ acc,
    fold_left
      (fun (errors : list ValidationError) (entry : string * JsValue) =>
         if isMissing entry.2
         then errors ++ [{| field := entry.1; message := entry.1 +:+ " is required" |}]
         else errors) params acc
    = acc ++ map (fun entry : string * JsValue =>
                    {| field := entry.1; message := entry.1 +:+ " is required" |})
               (List.filter (fun entry => isMissing entry.2) params)).
  { induction params as [|entry rest IH]; intros acc; cbn [fold_left List.filter map].
    - symmetry. apply app_nil_r.
    - rewrite IH. destruct (isMissing entry.2); cbn [map]; [|reflexivity].
      rewrite <- app_assoc. reflexivity. }
  rewrite Hfold. cbn [app].
  destruct (List.filter (fun entry => isMissing entry.2) params); reflexivity.
Qed.

Lemma test_get (regex : list charClass) (s : string) :
  test regex s = true →
  String.length s = length regex
  ∧ ∀ i c, String.get i s = Some c →
           ∃ cl, regex !! i = Some cl ∧ inClass cl c = true.
Proof.
  revert s. induction regex as [|cl regex IH]; intros [|c0 s]; cbn [test];
    try discriminate.
  - intros _. split; [reflexivity|]. intros i c Hi. destruct i; discriminate.
  - intros [Hc Hs]%andb_true_iff. destruct (IH s Hs) as [Hlen Hget].
    split; [cbn; congruence|].
    intros [|i] c Hi; cbn in Hi.
    + injection Hi as <-. exists cl. auto.
    + exact (Hget i c Hi).
Qed.

Lemma special_digits_are_hex (c : Ascii.ascii) :
  (inClass Four c = true → inClass HexDigit c = true)
  ∧ (inClass VariantDigit c = true → inClass HexDigit c = true).
Proof.
  unfold inClass, between. split; intros H;
    repeat match goal with
           | H : _ || _ = true |- _ => apply orb_true_iff in H as [H|H]
           | H : _ && _ = true |- _ => apply andb_true_iff in H as [? ?]
           end;
    repeat match goal with
           | H : (_ <=? _)%N = true |- _ => apply N.leb_le in H
           | H : (_ =? _)%N = true |- _ => apply N.eqb_eq in H
           end;
    apply orb_true_iff;
    first [ left; apply orb_true_iff; left; apply andb_true_iff;
            split; apply N.leb_le; lia
          | left; apply orb_true_iff; right; apply andb_true_iff;
            split; apply N.leb_le; lia
          | right; apply andb_true_iff; split; apply N.leb_le; lia ].
Qed.

(** A string accepted by [validateUUID] has the shape of a version-4
    UUID: 36 characters, dashes at positions 8, 13, 18 and 23 and
    hexadecimal digits elsewhere, with the digit 4 at position 14. *)
Theorem validateUUID_shape (value fieldName : string) :
  validateUUID value fieldName = Return true →
  String.length value = 36%nat
  ∧ (∀ i c, String.get i value = Some c →
       if bool_decide (i ∈ [8; 13; 18; 23]%nat)
       then Ascii.N_of_ascii c = 45%N
       else inClass HexDigit c = true)
  ∧ (∃ c, String.get 14 value = Some c ∧ Ascii.N_of_ascii c = 52%N).
Proof.
  unfold validateUUID. destruct (bool_decide (value = "")); [discriminate|].
  destruct (test uuidRegex value) eqn:Htest; [|discriminate]. intros _.
  destruct (test_get _ _ Htest) as [Hlen Hget].
  split; [exact Hlen|]. split.
  - intros i c Hi. destruct (Hget i c Hi) as (cl & Hcl & Hin).
    do 36 (destruct i as [|i];
           [ cbn in Hcl; injection Hcl as <-;
             lazymatch goal with
             | |- context [bool_decide ?P] =>
                 let b := eval vm_compute in (bool_decide P) in
                 change (bool_decide P) with b
             end; cbv iota;
             first [ exact Hin
                   | apply N.eqb_eq; exact Hin
                   | apply (proj1 (special_digits_are_hex c)); exact Hin
                   | apply (proj2 (special_digits_are_hex c)); exact Hin ] |]).
    discriminate Hcl.
  - destruct (String.get 14 value) as [c|] eqn:Hc.
    + exists c. split; [reflexivity|].
      destruct (Hget 14%nat c Hc) as (cl & Hcl & Hin).
      cbn in Hcl. injection Hcl as <-. apply N.eqb_eq. exact Hin.
    + exfalso. do 15 (destruct value as [|? value]; [discriminate Hlen|]).
      discriminate Hc.
Qed.

Lemma validateUUID_shape_witness :
  String.length (Seller.id nestle) = 36%nat
  ∧ ∃ c, String.get 14 (Seller.id nestle) = Some c ∧ Ascii.N_of_ascii c = 52%N.
Proof.
  destruct (validateUUID_shape (Seller.id nestle) "sellerId") as (Hlen & _ & H14).
  - vm_compute. reflexivity.
  - split; [exact Hlen | exact H14].
Defined.

Lemma validateUUID_Return (value fieldName : string) (b : bool) :
  validateUUID value fieldName = Return b →
  test uuidRegex value = true ∧ value ≠ "".
Proof.
  unfold validateUUID. case_bool_decide as Hv; [discriminate|].
  destruct (test uuidRegex value); [auto | discriminate].
Qed.

Lemma validateDeliverySpeed_Return (value : string) (b : bool) :
  validateDeliverySpeed value = Return b →
  value = "standard" ∨ value = "express".
Proof.
  unfold validateDeliverySpeed. case_bool_decide; [discriminate|].
  case_bool_decide as Hin; [|discriminate]. intros _.
  apply elem_of_cons in Hin as [->|Hin]; [auto|].
  apply elem_of_cons in Hin as [->|Hin]; [auto|].
  by apply elem_of_nil in Hin.
Qed.

Lemma andThen_Return {A B : Type} (o : outcome A) (k : A → outcome B) (b : B) :
  andThen o k = Return b → ∃ a, o = Return a ∧ k a = Return b.
Proof. destruct o as [a| |]; cbn; [eauto | discriminate | discriminate]. Qed.

Lemma truthy_nonempty (x : option string) : truthy x ≠ Some "".
Proof.
  unfold truthy. destruct x as [s|]; [|discriminate].
  case_bool_decide; [discriminate | congruence].
Qed.

Lemma checkCalculateRequest_passes_facts (body : CalculateRequest.t)
    (sellerId customerId deliverySpeed : string) (productId : option string) :
  checkCalculateRequest body
  = Return (sellerId, customerId, deliverySpeed, productId) →
  test uuidRegex sellerId = true
  ∧ test uuidRegex customerId = true
  ∧ (deliverySpeed = "standard" ∨ deliverySpeed = "express")
  ∧ productId ≠ Some "".
Proof.
  unfold checkCalculateRequest. intros H.
  apply andThen_Return in H as (_ & _ & H).
  apply andThen_Return in H as (b1 & Hs & H).
  apply andThen_Return in H as (b2 & Hc & H).
  apply andThen_Return in H as (b3 & Hp & H).
  apply andThen_Return in H as (b4 & Hd & H).
  injection H as <- <- <- <-.
  apply validateUUID_Return in Hs as [Hs _], Hc as [Hc _].
  apply validateDeliverySpeed_Return in Hd.
  repeat split; auto. apply truthy_nonempty.
Qed.

(** What the request check lets through to [calculateCompleteShipping]:
    seller and customer ids that are version-4 UUIDs, a delivery speed
    that is "standard" (also when the body names none) or "express", and
    a product id that is absent or a version-4 UUID, never the empty
    string. *)
Theorem checkCalculateRequest_passes (body : CalculateRequest.t)
    (sellerId customerId deliverySpeed : string) (productId : option string) :
  checkCalculateRequest body
  = Return (sellerId, customerId, deliverySpeed, productId) →
  CalculateRequest.sellerId body = Some sellerId
  ∧ CalculateRequest.customerId body = Some customerId
  ∧ test uuidRegex sellerId = true
  ∧ test uuidRegex customerId = true
  ∧ deliverySpeed = default "standard" (CalculateRequest.deliverySpeed body)
  ∧ (deliverySpeed = "standard" ∨ deliverySpeed = "express")
  ∧ productId = truthy (CalculateRequest.productId body)
  ∧ (∀ p, productId = Some p → test uuidRegex p = true).
Proof.
  unfold checkCalculateRequest. intros H.
  apply andThen_Return in H as (_ & _ & H).
  apply andThen_Return in H as (b1 & Hs & H).
  apply andThen_Return in H as (b2 & Hc & H).
  apply andThen_Return in H as (b3 & Hp & H).
  apply andThen_Return in H as (b4 & Hd & H).
  injection H as <- <- <- <-.
  apply validateUUID_Return in Hs as [Hs Hs0], Hc as [Hc Hc0].
  apply validateDeliverySpeed_Return in Hd.
  repeat split; auto.
  - destruct (CalculateRequest.sellerId body); [reflexivity | contradiction].
  - destruct (CalculateRequest.customerId body); [reflexivity | contradiction].
  - intros p Heq. rewrite Heq in Hp.
    apply validateUUID_Return in Hp as [Hp _]. exact Hp.
Qed.

Lemma checkCalculateRequest_passes_witness :
  test uuidRegex (Seller.id nestle) = true
  ∧ ("standard" = "standard" ∨ "standard" = "express").
Proof.
  destruct (checkCalculateRequest_passes
              {| CalculateRequest.sellerId := Some (Seller.id nestle);
                 CalculateRequest.customerId := Some (Customer.id kiranaMumbai);
                 CalculateRequest.deliverySpeed := None;
                 CalculateRequest.productId := Some "" |}
              (Seller.id nestle) (Customer.id kiranaMumbai) "standard" None)
    as (_ & _ & Hs & _ & _ & Hd & _).
  - vm_compute. reflexivity.
  - split; [exact Hs | exact Hd].
Defined.

(** *** Cache keys of checked requests *)

Lemma append_inj_length (a a' r r' : string) :
  String.length a = String.length a' →
  a +:+ r = a' +:+ r' → a = a' ∧ r = r'.
Proof.
  revert a'. induction a as [|c a IH]; intros [|c' a']; cbn; try discriminate.
  - auto.
  - intros [= Hlen] [= -> Happ]. destruct (IH a' Hlen Happ) as [-> ->]. auto.
Qed.

Lemma test_length (regex : list charClass) (s : string) :
  test regex s = true → String.length s = length regex.
Proof. intros H. apply (test_get regex s H). Qed.

Lemma append_assoc (a b c : string) : (a +:+ b) +:+ c = a +:+ (b +:+ c).
Proof.
  induction a as [|x a IH]; [reflexivity|].
  change (String x ((a +:+ b) +:+ c) = String x (a +:+ (b +:+ c))).
  rewrite IH. reflexivity.
Qed.

Lemma withProduct_append (x d : string) (p : option string) :
  CacheKeyBuilder.withProduct (x +:+ d) p
  = x +:+ CacheKeyBuilder.withProduct d p.
Proof.
  unfold CacheKeyBuilder.withProduct.
  destruct p as [p|]; [|reflexivity].
  destruct (bool_decide (p = "")); [reflexivity | apply append_assoc].
Qed.

Lemma withProduct_inj (d d' : string) (p p' : option string) :
  (d = "standard" ∨ d = "express") → (d' = "standard" ∨ d' = "express") →
  p ≠ Some "" → p' ≠ Some "" →
  CacheKeyBuilder.withProduct d p = CacheKeyBuilder.withProduct d' p' →
  d = d' ∧ p = p'.
Proof.
  unfold CacheKeyBuilder.withProduct. intros Hd Hd' Hp Hp'.
  destruct p as [p|], p' as [p'|].
  - rewrite !bool_decide_eq_false_2 by congruence.
    destruct Hd as [-> | ->], Hd' as [-> | ->]; cbn; intros Heq;
      simplify_eq; auto.
  - rewrite bool_decide_eq_false_2 by congruence.
    destruct Hd as [-> | ->], Hd' as [-> | ->]; cbn; intros Heq;
      simplify_eq.
  - rewrite bool_decide_eq_false_2 by congruence.
    destruct Hd as [-> | ->], Hd' as [-> | ->]; cbn; intros Heq;
      simplify_eq.
  - intros ->. auto.
Qed.

(** Two checked requests that get the same cache key are the same
    request: the key of [calculateCompleteShipping] never confuses two
    requests that passed the check. *)
Theorem checked_requests_have_distinct_keys (body1 body2 : CalculateRequest.t)
    (s1 c1 d1 s2 c2 d2 : string) (p1 p2 : option string) :
  checkCalculateRequest body1 = Return (s1, c1, d1, p1) →
  checkCalculateRequest body2 = Return (s2, c2, d2, p2) →
  CacheKeyBuilder.calculation s1 c1 d1 p1 = CacheKeyBuilder.calculation s2 c2 d2 p2 →
  (s1, c1, d1, p1) = (s2, c2, d2, p2).
Proof.
  intros H1 H2 Hkey.
  apply checkCalculateRequest_passes_facts in H1 as (Hs1 & Hc1 & Hd1 & Hp1).
  apply checkCalculateRequest_passes_facts in H2 as (Hs2 & Hc2 & Hd2 & Hp2).
  unfold CacheKeyBuilder.calculation in Hkey. cbv zeta in Hkey.
  change ("calculation:" +:+ s1 +:+ ":" +:+ c1 +:+ ":" +:+ d1)
    with ("calculation:" +:+ (s1 +:+ ":" +:+ (c1 +:+ ":" +:+ d1))) in Hkey.
  rewrite <- !append_assoc in Hkey.
  rewrite !withProduct_append in Hkey.
  rewrite !append_assoc in Hkey.
  apply append_inj_l in Hkey.
  apply append_inj_length in Hkey as [-> Hkey];
    [|rewrite (test_length _ _ Hs1), (test_length _ _ Hs2); reflexivity].
  apply append_inj_l in Hkey.
  apply append_inj_length in Hkey as [-> Hkey];
    [|rewrite (test_length _ _ Hc1), (test_length _ _ Hc2); reflexivity].
  apply append_inj_l in Hkey.
  destruct (withProduct_inj d1 d2 p1 p2 Hd1 Hd2 Hp1 Hp2 Hkey) as [-> ->].
  reflexivity.
Qed.

Lemma checked_requests_have_distinct_keys_witness :
  (Seller.id nestle, Customer.id kiranaMumbai, "standard", @None string)
  = (Seller.id nestle, Customer.id kiranaMumbai, "standard", None).
Proof.
  apply (checked_requests_have_distinct_keys
           {| CalculateRequest.sellerId := Some (Seller.id nestle);
              CalculateRequest.customerId := Some (Customer.id kiranaMumbai);
              CalculateRequest.deliverySpeed := None;
              CalculateRequest.productId := Some "" |}
           {| CalculateRequest.sellerId := Some (Seller.id nestle);
              CalculateRequest.customerId := Some (Customer.id kiranaMumbai);
              CalculateRequest.deliverySpeed := Some "standard";
              CalculateRequest.productId := None |});
    vm_compute; reflexivity.
Defined.

(** ** cache-manager.ts *)

Section CacheOperations.
Context {T : Type}.
Implicit Types (this : CacheManager.t T) (key : string).

Lemma cleanup_lookup now key this (e : CacheEntry T) :
  CacheManager.cache (CacheManager.cleanup now this).2 !! key = Some e
  ↔ CacheManager.cache this !! key = Some e ∧ (now <= expiresAt e)%Z.
Proof.
  unfold CacheManager.cleanup. cbn [snd CacheManager.cache].
  rewrite map_lookup_filter_Some. cbn. split; intros [H1 H2]; split; auto; lia.
Qed.

(** The sweep is invisible to readers: at any later time [get] and [has]
    answer after [cleanup] what they would have answered without it.
    After the sweep no entry that had expired is left, and every entry
    still alive is kept. *)
Theorem cleanup_transparent_to_reads (now later : Z) key this :
  (now <= later)%Z →
  (CacheManager.get later key (CacheManager.cleanup now this).2).1
  = (CacheManager.get later key this).1
  ∧ (CacheManager.has later key (CacheManager.cleanup now this).2).1
    = (CacheManager.has later key this).1
  ∧ (∀ k e,
       CacheManager.cache (CacheManager.cleanup now this).2 !! k = Some e
       ↔ CacheManager.cache this !! k = Some e ∧ (now <= expiresAt e)%Z).
Proof.
  intros Hle. split; [|split; [|intros k e; apply cleanup_lookup]].
  - unfold CacheManager.get.
    destruct (CacheManager.cache (CacheManager.cleanup now this).2 !! key)
      as [e|] eqn:Hc.
    + apply cleanup_lookup in Hc as [-> _]. destruct (later >? expiresAt e)%Z; reflexivity.
    + destruct (CacheManager.cache this !! key) as [e|] eqn:Ho; [|reflexivity].
      destruct (Z.gtb_spec later (expiresAt e)); [reflexivity|].
      assert (Hin : CacheManager.cache (CacheManager.cleanup now this).2 !! key
                    = Some e) by (apply cleanup_lookup; split; [exact Ho | lia]).
      congruence.
  - unfold CacheManager.has.
    destruct (CacheManager.cache (CacheManager.cleanup now this).2 !! key)
      as [e|] eqn:Hc.
    + apply cleanup_lookup in Hc as [-> _]. destruct (later >? expiresAt e)%Z; reflexivity.
    + destruct (CacheManager.cache this !! key) as [e|] eqn:Ho; [|reflexivity].
      destruct (Z.gtb_spec later (expiresAt e)); [reflexivity|].
      assert (Hin : CacheManager.cache (CacheManager.cleanup now this).2 !! key
                    = Some e) by (apply cleanup_lookup; split; [exact Ho | lia]).
      congruence.
Qed.

Lemma deletePattern_absent (pattern : string) this (k : string) :
  includes pattern k = true →
  CacheManager.cache (CacheManager.deletePattern pattern this).2 !! k = None.
Proof.
  intros Hk. unfold CacheManager.deletePattern. cbn [snd CacheManager.cache].
  apply map_lookup_filter_None. right. intros e _. cbn. auto.
Qed.

(** [deletePattern] removes exactly the keys that include the pattern,
    leaves every other entry and both counters alone, and returns the
    number of keys it removed. *)
Theorem deletePattern_removes_matching (pattern : string) this :
  (∀ k, includes pattern k = true →
        CacheManager.cache (CacheManager.deletePattern pattern this).2 !! k = None)
  ∧ (∀ k, includes pattern k = false →
          CacheManager.cache (CacheManager.deletePattern pattern this).2 !! k
          = CacheManager.cache this !! k)
  ∧ ((CacheManager.deletePattern pattern this).1
     + base.size (CacheManager.cache (CacheManager.deletePattern pattern this).2)
     = base.size (CacheManager.cache this))%nat
  ∧ CacheManager.hits (CacheManager.deletePattern pattern this).2
    = CacheManager.hits this
  ∧ CacheManager.misses (CacheManager.deletePattern pattern this).2
    = CacheManager.misses this.
Proof.
  unfold CacheManager.deletePattern. cbn [fst snd CacheManager.cache
    CacheManager.hits CacheManager.misses].
  repeat split.
  - intros k Hk. apply (deletePattern_absent pattern this k Hk).
  - intros k Hk. apply option_eq. intros e.
    rewrite map_lookup_filter_Some. cbn. rewrite Hk. intuition discriminate.
  - rewrite <- map_size_disj_union by apply map_disjoint_filter_complement.
    rewrite map_filter_union_complement. reflexivity.
Qed.

(** [delete] answers whether the key was in the map, an expired entry
    that no read has evicted yet included, which [has] reports as
    absent.  Afterwards the key is gone for [get], [has] and a second
    [delete], and the other keys are untouched. *)
Theorem delete_removes_even_expired (now : Z) key this :
  ((CacheManager.delete key this).1 = true
   ↔ is_Some (CacheManager.cache this !! key))
  ∧ (∀ e, CacheManager.cache this !! key = Some e → (now > expiresAt e)%Z →
          (CacheManager.has now key this).1 = false
          ∧ (CacheManager.delete key this).1 = true)
  ∧ (CacheManager.get now key (CacheManager.delete key this).2).1 = None
  ∧ (CacheManager.has now key (CacheManager.delete key this).2).1 = false
  ∧ (CacheManager.delete key (CacheManager.delete key this).2).1 = false
  ∧ (∀ k, k ≠ key →
          CacheManager.cache (CacheManager.delete key this).2 !! k
          = CacheManager.cache this !! k).
Proof.
  unfold CacheManager.delete. cbn [fst snd].
  assert (Hgone : base.delete key (CacheManager.cache this) !! key = None)
    by apply lookup_delete_eq.
  repeat split.
  - apply bool_decide_eq_true_1.
  - apply bool_decide_eq_true_2.
  - rewrite (has_expired now key this e) by assumption. reflexivity.
  - apply bool_decide_eq_true_2. eauto.
  - unfold CacheManager.get. cbn [CacheManager.cache]. rewrite Hgone. reflexivity.
  - unfold CacheManager.has. cbn [CacheManager.cache]. rewrite Hgone. reflexivity.
  - cbn [CacheManager.cache]. apply bool_decide_eq_false_2. rewrite Hgone.
    intros [? ?]. discriminate.
  - intros k Hk. cbn [CacheManager.cache]. apply lookup_delete_ne. congruence.
Qed.

(** [getOrSet]: a live entry whose value is not [null] is returned
    without running the factory, whatever the factory would have done,
    and the map is left as it is.  When the read finds nothing, or finds
    a live entry that holds [null], the factory is run: its value is
    returned and stored under the key, over the [null] entry if there was
    one, and a factory that throws is rethrown and stores nothing, so
    that after a miss the key is absent. *)
Theorem getOrSet_runs_factory_only_on_miss (isNull : T → bool) (now later : Z)
    key (factory : outcome T) (ttl : option Z) this :
  let run := CacheManager.getOrSet isNull now key factory later ttl this in
  let cached := (CacheManager.get now key this).1 in
  (∀ e, CacheManager.cache this !! key = Some e → (now <= expiresAt e)%Z →
        cached = Some (value e)
        ∧ (isNull (value e) = false →
           run.1 = Return (value e)
           ∧ CacheManager.cache run.2 = CacheManager.cache this))
  ∧ ((cached = None ∨ ∃ v0, cached = Some v0 ∧ isNull v0 = true) →
     (∀ v, factory = Return v →
           run.1 = Return v
           ∧ ∃ e, CacheManager.cache run.2 !! key = Some e
                  ∧ value e = v
                  ∧ ∀ t, ttl = Some t → t ≠ 0%Z → expiresAt e = (later + t)%Z)
     ∧ (∀ exn, factory = Throw exn →
               run.1 = Throw exn
               ∧ CacheManager.cache run.2
                 = CacheManager.cache (CacheManager.get now key this).2))
  ∧ (cached = None → ∀ exn, factory = Throw exn →
       CacheManager.cache run.2 !! key = None).
Proof.
  cbv zeta. unfold CacheManager.getOrSet. split; [|split].
  - intros e He Hlive. rewrite (get_live now key this e He Hlive). cbn [fst snd].
    split; [reflexivity|]. intros ->. auto.
  - intros Hrun.
    destruct (CacheManager.get now key this) as [cached this1]. cbn [fst snd] in *.
    assert (Hproduce :
      match cached with
      | Some v => if isNull v then true else false
      | None => true
      end = true).
    { destruct Hrun as [-> | (v0 & -> & ->)]; reflexivity. }
    split.
    + intros v ->.
      destruct cached as [v0|]; [destruct (isNull v0); [|discriminate]|];
        cbn [fst snd];
        (split; [reflexivity|]; eexists; split; [apply set_lookup|];
         split; [reflexivity|]; intros t -> Ht; cbn [expiresAt];
         destruct (Z.eqb_spec t 0); [contradiction | reflexivity]).
    + intros exn ->.
      destruct cached as [v0|]; [destruct (isNull v0); [|discriminate]|];
        cbn [fst snd]; auto.
  - intros Hmiss exn ->.
    pose proof (get_effect now key this) as [_ Hkey]. cbv zeta in Hkey.
    destruct (CacheManager.get now key this) as [cached this1].
    cbn [fst snd] in Hmiss, Hkey. subst cached. cbn [fst snd]. exact Hkey.
Qed.

(** Every [get] counts exactly once, as a hit when it returns a value
    and as a miss otherwise; [set], [has], [delete] and [cleanup] count
    nothing; and the hit rate reported by [getStats] lies between 0 and
    1. *)
Theorem stats_count_reads_only (now : Z) key (v : T) (ttl : option Z) this :
  (CacheManager.hits (CacheManager.get now key this).2
   + CacheManager.misses (CacheManager.get now key this).2
   = S (CacheManager.hits this + CacheManager.misses this))%nat
  ∧ (is_Some (CacheManager.get now key this).1
     ↔ CacheManager.hits (CacheManager.get now key this).2
       = S (CacheManager.hits this))
  ∧ (let count this' := (CacheManager.hits this', CacheManager.misses this') in
     count (CacheManager.set now key v ttl this) = count this
     ∧ count (CacheManager.has now key this).2 = count this
     ∧ count (CacheManager.delete key this).2 = count this
     ∧ count (CacheManager.cleanup now this).2 = count this)
  ∧ ∃ r : R, CacheStats.hitRate (CacheManager.getStats this) = Num r
             ∧ (0 <= r <= 1)%R.
Proof.
  split; [|split; [|split]].
  - unfold CacheManager.get.
    destruct (CacheManager.cache this !! key) as [e|];
      [destruct (now >? expiresAt e)%Z|]; cbn; lia.
  - unfold CacheManager.get.
    destruct (CacheManager.cache this !! key) as [e|];
      [destruct (now >? expiresAt e)%Z|]; cbn; split;
      try (intros [? ?]; discriminate); try lia; eauto.
  - cbv zeta. repeat split.
    unfold CacheManager.has.
    destruct (CacheManager.cache this !! key) as [e|];
      [destruct (now >? expiresAt e)%Z|]; reflexivity.
  - unfold CacheManager.getStats. cbn [CacheStats.hitRate].
    set (h := CacheManager.hits this). set (m := CacheManager.misses this).
    destruct (Nat.ltb_spec 0 (h + m)) as [Hpos|Hzero].
    + unfold lit. rewrite ndiv_Num.
      * eexists. split; [reflexivity|].
        assert (Hh : (0 <= IZR (Z.of_nat h))%R) by (apply IZR_le; lia).
        assert (Ht : (0 < IZR (Z.of_nat (h + m)))%R) by (apply IZR_lt; lia).
        assert (Hle : (IZR (Z.of_nat h) <= IZR (Z.of_nat (h + m)))%R)
          by (apply IZR_le; lia).
        split.
        -- apply Rmult_le_pos; [exact Hh|]. left. apply Rinv_0_lt_compat. exact Ht.
        -- apply (Rmult_le_reg_r (IZR (Z.of_nat (h + m)))); [exact Ht|].
           unfold Rdiv. rewrite Rmult_assoc, Rinv_l by lra. lra.
      * apply not_0_IZR. lia.
    + exists 0%R. split; [reflexivity | lra].
Qed.
End CacheOperations.

Lemma prefix_startsWith (pre s : string) :
  startsWith pre s = true → String.prefix pre s = true.
Proof.
  revert s. induction pre as [|a pre IH]; intros [|b s]; cbn;
    try discriminate; try reflexivity.
  intros [Hab Hs]%andb_true_iff. apply Ascii.eqb_eq in Hab as ->.
  destruct (Ascii.ascii_dec b b); [auto | contradiction].
Qed.

Lemma startsWith_includes (pre s : string) :
  startsWith pre s = true → includes pre s = true.
Proof.
  intros H. apply prefix_startsWith in H.
  destruct s; cbn [includes]; rewrite H; reflexivity.
Qed.

(** Deleting by an operation's key prefix empties that operation's
    cache: after [deletePattern("nearest_warehouse:")] the next
    [findNearestWarehouse] of any seller starts with a miss. *)
Theorem deletePattern_invalidates_nearestWarehouse (w : World) (sellerId : string) :
  cacheMiss (CacheKeyBuilder.nearestWarehouse sellerId)
    {| cache := (CacheManager.deletePattern "nearest_warehouse:" (cache w)).2;
       clock := clock w |}.
Proof.
  apply absent_miss. cbn [cache].
  apply deletePattern_absent.
  apply startsWith_includes.
  apply (nearestWarehouse_namespace sellerId).
Qed.

Lemma cleanup_transparent_to_reads_witness :
  (CacheManager.get 200 "persist"
     (CacheManager.cleanup 100
        (CacheManager.set 0 "persist" "value3" (Some 10000%Z)
           CacheManager.getInstance)).2).1
  = (CacheManager.get 200 "persist"
       (CacheManager.set 0 "persist" "value3" (Some 10000%Z)
          CacheManager.getInstance)).1.
Proof.
  apply (cleanup_transparent_to_reads 100 200 "persist"
           (CacheManager.set 0 "persist" "value3" (Some 10000%Z)
              CacheManager.getInstance)).
  lia.
Defined.

Lemma deletePattern_removes_matching_witness :
  CacheManager.cache
    (CacheManager.deletePattern "user:"
       (CacheManager.set 0 "user:1:profile" "data1" None
          CacheManager.getInstance)).2 !! "user:1:profile" = None.
Proof.
  apply (deletePattern_removes_matching "user:"
           (CacheManager.set 0 "user:1:profile" "data1" None
              CacheManager.getInstance)).
  reflexivity.
Defined.

Lemma delete_removes_even_expired_witness :
  (CacheManager.has 100 "short-lived"
     (CacheManager.set 0 "short-lived" "value" (Some 50%Z)
        CacheManager.getInstance)).1 = false
  ∧ (CacheManager.delete "short-lived"
       (CacheManager.set 0 "short-lived" "value" (Some 50%Z)
          CacheManager.getInstance)).1 = true.
Proof.
  destruct (delete_removes_even_expired 100 "short-lived"
              (CacheManager.set 0 "short-lived" "value" (Some 50%Z)
                 CacheManager.getInstance)) as (_ & H & _).
  apply (H {| value := "value"; expiresAt := 50 |}).
  - apply set_lookup_nonzero. lia.
  - cbn. lia.
Defined.

Lemma getOrSet_runs_factory_only_on_miss_witness :
  (CacheManager.getOrSet (fun _ => false) 1 "cached" (Return "new-value") 2 None
     (CacheManager.set 0 "cached" "cached-value" None
        CacheManager.getInstance)).1
  = Return "cached-value".
Proof.
  destruct (getOrSet_runs_factory_only_on_miss (fun _ => false) 1 2 "cached"
              (Return "new-value") None
              (CacheManager.set 0 "cached" "cached-value" None
                 CacheManager.getInstance)) as (H & _).
  destruct (H {| value := "cached-value"; expiresAt := 300000 |}) as [_ Hr].
  - apply set_lookup.
  - cbn. lia.
  - apply Hr. reflexivity.
Defined.

(** ** transport-strategy.ts and the older handlers *)

(** The mode choice of the older handlers and the selector agree on
    every non-negative distance.  They part on the rest: for a negative
    distance and for [NaN] the older function answers Mini Van at rate
    3, where the selector throws. *)
Theorem getTransportMode_agrees_from_zero (d : R) :
  ((0 <= d)%R →
     TransportModeSelector.getTransportModeAndRate (Num d)
     = Return (getTransportMode (Num d)))
  ∧ ((d < 0)%R →
     getTransportMode (Num d) = {| mode := "Mini Van"; rate := lit 3 |}
     ∧ TransportModeSelector.getTransportModeAndRate (Num d)
       = Throw (Error [Lit "Distance cannot be negative"]))
  ∧ getTransportMode NaN = {| mode := "Mini Van"; rate := lit 3 |}
  ∧ TransportModeSelector.getTransportModeAndRate NaN
    = Throw (Error [Lit "No transport mode available for distance: ";
                    Val NaN; Lit " km"]).
Proof.
  split; [|split; [|split; reflexivity]].
  - intros Hd. unfold getTransportMode. band_cases.
  - intros Hd. split; [unfold getTransportMode|]; band_cases.
Qed.

Lemma getTransportMode_agrees_from_zero_witness :
  TransportModeSelector.getTransportModeAndRate (Num 150)
  = Return (getTransportMode (Num 150)).
Proof. apply (getTransportMode_agrees_from_zero 150). lra. Defined.

(** The declared bounds of a strategy against what it accepts: every
    accepted distance is at least [getMinDistance], but [getMaxDistance]
    is no upper bound, since Mini Van accepts the distances between its
    declared maximum 99.99 and 100, and Truck those between 499.99 and
    500. *)
Theorem declared_maximum_is_exceeded (d : R) :
  (∀ s, In s TransportModeSelector.getAllStrategies →
        canHandle s (Num d) = true →
        ∃ lo : R, getMinDistance s = Num lo ∧ (lo <= d)%R)
  ∧ ((9999 / 100 < d < 100)%R →
     canHandle MiniVanStrategy (Num d) = true
     ∧ ∃ hi : R, getMaxDistance MiniVanStrategy = Some (Num hi) ∧ (hi < d)%R)
  ∧ ((49999 / 100 < d < 500)%R →
     canHandle TruckStrategy (Num d) = true
     ∧ ∃ hi : R, getMaxDistance TruckStrategy = Some (Num hi) ∧ (hi < d)%R).
Proof.
  split; [|split].
  - intros s [<- | [<- | [<- | []]]] H; cbn in H; unfold nge, nle, nlt, lit in H;
      cbn [cmp2] in H;
      repeat match goal with
             | H : _ && _ = true |- _ => apply andb_true_iff in H as [? ?]
             | H : Rleb _ _ = true |- _ => apply Rleb_true in H
             end;
      eexists; (split; [reflexivity|]); cbn; lra.
  - intros [H1 H2]. split.
    + cbn. unfold nge, nle, nlt, lit. cbn [cmp2]. apply andb_true_iff.
      split; [apply Rleb_true | apply Rltb_true]; lra.
    + eexists. split; [reflexivity | lra].
  - intros [H1 H2]. split.
    + cbn. unfold nge, nle, nlt, lit. cbn [cmp2]. apply andb_true_iff.
      split; [apply Rleb_true | apply Rltb_true]; lra.
    + eexists. split; [reflexivity | lra].
Qed.

Lemma declared_maximum_is_exceeded_witness :
  canHandle MiniVanStrategy (Num (99995 / 1000)) = true
  ∧ ∃ hi : R, getMaxDistance MiniVanStrategy = Some (Num hi)
              ∧ (hi < 99995 / 1000)%R.
Proof.
  destruct (declared_maximum_is_exceeded (99995 / 1000)) as (_ & H & _).
  apply H. lra.
Defined.

(** ** Pricing *)

Lemma round2_nonneg (x : R) : (0 <= x)%R → (0 <= round2 x)%R.
Proof.
  intros Hx. unfold round2.
  assert (H : (0 <= Zfloor (x * 100 + / 2))%Z) by (apply Zfloor_lub; lra).
  apply IZR_le in H. lra.
Qed.

Lemma round2_monotone (x y : R) : (x <= y)%R → (round2 x <= round2 y)%R.
Proof.
  intros Hxy. unfold round2.
  assert (H : (Zfloor (x * 100 + / 2) <= Zfloor (y * 100 + / 2))%Z)
    by (apply Zfloor_le; lra).
  apply IZR_le in H. lra.
Qed.

Lemma round2_gap (x y : R) : (x + 1 / 100 <= y)%R → (round2 x < round2 y)%R.
Proof.
  intros Hxy. unfold round2.
  assert (H : (Zfloor (x * 100 + / 2) + 1 <= Zfloor (y * 100 + / 2))%Z).
  { rewrite <- Zfloor_addz. apply Zfloor_le. lra. }
  apply IZR_le in H. rewrite plus_IZR in H. lra.
Qed.

Lemma bandRate_bounds (d : R) : (1 <= bandRate d <= 3)%R.
Proof.
  unfold bandRate. destruct (Rlt_dec d 100); [lra|].
  destruct (Rlt_dec d 500); lra.
Qed.

Lemma expressOf_nonneg (deliverySpeed : string) (e w : R) :
  (0 <= e)%R → (0 <= w)%R → (0 <= expressOf deliverySpeed e w)%R.
Proof.
  intros He Hw. unfold expressOf.
  destruct (bool_decide (deliverySpeed = "express")); [nra | lra].
Qed.

(** For a non-negative distance, weight, base charge and extra charge,
    every amount of the result is a number and none is negative. *)
Theorem priceShipment_amounts_nonnegative (d w b e : R)
    (speedType deliverySpeed : string) :
  (0 <= d)%R → (0 <= w)%R → (0 <= b)%R → (0 <= e)%R →
  ∃ (r : ShippingChargeResult.t) (total km base transport express : R),
    priceShipment (Num d) (Num w)
      {| DeliverySpeedConfig.speed_type := speedType;
         DeliverySpeedConfig.base_charge := Num b;
         DeliverySpeedConfig.extra_charge_per_kg := Num e |} deliverySpeed
    = Return r
    ∧ ShippingChargeResult.shippingCharge r = Num total
    ∧ ShippingChargeResult.distance_km r = Num km
    ∧ ShippingChargeResult.breakdown r
      = {| baseCharge := Num base; transportCharge := Num transport;
           expressCharge := Num express |}
    ∧ (0 <= total)%R ∧ (0 <= km)%R ∧ (0 <= base)%R
    ∧ (0 <= transport)%R ∧ (0 <= express)%R.
Proof.
  intros Hd Hw Hb He.
  pose proof (bandRate_bounds d) as Hrate.
  pose proof (expressOf_nonneg deliverySpeed e w He Hw) as Hx.
  assert (Ht : (0 <= d * bandRate d * w)%R)
    by (repeat apply Rmult_le_pos; lra).
  eexists _, _, _, _, _, _. split; [apply priceShipment_Num; exact Hd|].
  cbn [ShippingChargeResult.shippingCharge ShippingChargeResult.distance_km
       ShippingChargeResult.breakdown].
  repeat split; try reflexivity; try (apply round2_nonneg; lra). exact Hb.
Qed.

Lemma priceShipment_amounts_nonnegative_witness :
  ∃ (r : ShippingChargeResult.t) (total : R),
    priceShipment (Num 600) (Num 25)
      {| DeliverySpeedConfig.speed_type := "express";
         DeliverySpeedConfig.base_charge := Num 10;
         DeliverySpeedConfig.extra_charge_per_kg := Num (12 / 10) |} "express"
    = Return r
    ∧ ShippingChargeResult.shippingCharge r = Num total ∧ (0 <= total)%R.
Proof.
  destruct (priceShipment_amounts_nonnegative 600 25 10 (12 / 10) "express"
              "express") as (r & total & km & base & tr & ex & Hr & Ht & _ & _ & H0 & _);
    [lra | lra | lra | lra |].
  exists r, total. auto.
Defined.

(** A heavier parcel never costs less: with the distance, the speed and
    the configuration fixed, the transport charge and the total grow
    with the weight. *)
Theorem priceShipment_monotone_in_weight (d w1 w2 b e : R)
    (speedType deliverySpeed : string) :
  (0 <= d)%R → (0 <= e)%R → (w1 <= w2)%R →
  ∃ (r1 r2 : ShippingChargeResult.t) (total1 total2 t1 t2 : R),
    priceShipment (Num d) (Num w1)
      {| DeliverySpeedConfig.speed_type := speedType;
         DeliverySpeedConfig.base_charge := Num b;
         DeliverySpeedConfig.extra_charge_per_kg := Num e |} deliverySpeed
    = Return r1
    ∧ priceShipment (Num d) (Num w2)
        {| DeliverySpeedConfig.speed_type := speedType;
           DeliverySpeedConfig.base_charge := Num b;
           DeliverySpeedConfig.extra_charge_per_kg := Num e |} deliverySpeed
      = Return r2
    ∧ ShippingChargeResult.shippingCharge r1 = Num total1
    ∧ ShippingChargeResult.shippingCharge r2 = Num total2
    ∧ transportCharge (ShippingChargeResult.breakdown r1) = Num t1
    ∧ transportCharge (ShippingChargeResult.breakdown r2) = Num t2
    ∧ (total1 <= total2)%R ∧ (t1 <= t2)%R.
Proof.
  intros Hd He Hw.
  pose proof (bandRate_bounds d) as Hrate.
  assert (Ht : (d * bandRate d * w1 <= d * bandRate d * w2)%R)
    by (apply Rmult_le_compat_l; [apply Rmult_le_pos; lra | exact Hw]).
  assert (Hx : (expressOf deliverySpeed e w1 <= expressOf deliverySpeed e w2)%R).
  { unfold expressOf. destruct (bool_decide (deliverySpeed = "express")); nra. }
  eexists _, _, _, _, _, _.
  split; [apply priceShipment_Num; exact Hd|].
  split; [apply priceShipment_Num; exact Hd|].
  cbn [ShippingChargeResult.shippingCharge ShippingChargeResult.breakdown
       transportCharge].
  repeat split; try reflexivity; apply round2_monotone; lra.
Qed.

Lemma priceShipment_monotone_in_weight_witness :
  ∃ (r1 r2 : ShippingChargeResult.t) (total1 total2 : R),
    priceShipment (Num 50) (Num (5 / 10))
      {| DeliverySpeedConfig.speed_type := "standard";
         DeliverySpeedConfig.base_charge := Num 10;
         DeliverySpeedConfig.extra_charge_per_kg := Num 0 |} "standard"
    = Return r1
    ∧ priceShipment (Num 50) (Num 10)
        {| DeliverySpeedConfig.speed_type := "standard";
           DeliverySpeedConfig.base_charge := Num 10;
           DeliverySpeedConfig.extra_charge_per_kg := Num 0 |} "standard"
      = Return r2
    ∧ ShippingChargeResult.shippingCharge r1 = Num total1
    ∧ ShippingChargeResult.shippingCharge r2 = Num total2
    ∧ (total1 <= total2)%R.
Proof.
  destruct (priceShipment_monotone_in_weight 50 (5 / 10) 10 10 0 "standard"
              "standard")
    as (r1 & r2 & total1 & total2 & t1 & t2 & H1 & H2 & H3 & H4 & _ & _ & H5 & _);
    [lra | lra | lra |].
  exists r1, r2, total1, total2. auto.
Defined.

(** The price is not monotone in the distance: at the start of a band the
    rate drops, so for a parcel of at least 1 kg a route of 67 to just
    under 100 km costs more than a route of exactly 100 km, and a route
    of 251 to just under 500 km more than one of exactly 500 km. *)
Theorem priceShipment_drops_at_band_start (d w b e : R)
    (speedType deliverySpeed : string) :
  (1 <= w)%R → (67 <= d < 100 ∨ 251 <= d < 500)%R →
  ∃ (r r' : ShippingChargeResult.t) (total total' : R),
    priceShipment (Num d) (Num w)
      {| DeliverySpeedConfig.speed_type := speedType;
         DeliverySpeedConfig.base_charge := Num b;
         DeliverySpeedConfig.extra_charge_per_kg := Num e |} deliverySpeed
    = Return r
    ∧ priceShipment (Num (if Rlt_dec d 100 then 100 else 500)) (Num w)
        {| DeliverySpeedConfig.speed_type := speedType;
           DeliverySpeedConfig.base_charge := Num b;
           DeliverySpeedConfig.extra_charge_per_kg := Num e |} deliverySpeed
      = Return r'
    ∧ ShippingChargeResult.shippingCharge r = Num total
    ∧ ShippingChargeResult.shippingCharge r' = Num total'
    ∧ (total' < total)%R.
Proof.
  intros Hw Hd.
  eexists _, _, _, _.
  split; [apply priceShipment_Num; lra|].
  split; [apply priceShipment_Num; destruct (Rlt_dec d 100); lra|].
  cbn [ShippingChargeResult.shippingCharge].
  split; [reflexivity|]. split; [reflexivity|].
  apply round2_gap. unfold bandRate.
  destruct Hd as [[H1 H2] | [H1 H2]].
  - destruct (Rlt_dec d 100); [|lra].
    destruct (Rlt_dec 100 100); [lra|]. destruct (Rlt_dec 100 500); [|lra]. nra.
  - destruct (Rlt_dec d 100); [lra|]. destruct (Rlt_dec d 500); [|lra].
    destruct (Rlt_dec 500 100); [lra|]. destruct (Rlt_dec 500 500); [lra|]. nra.
Qed.

Lemma priceShipment_drops_at_band_start_witness :
  ∃ (r r' : ShippingChargeResult.t) (total total' : R),
    priceShipment (Num 99) (Num 10)
      {| DeliverySpeedConfig.speed_type := "standard";
         DeliverySpeedConfig.base_charge := Num 10;
         DeliverySpeedConfig.extra_charge_per_kg := Num 0 |} "standard"
    = Return r
    ∧ priceShipment (Num (if Rlt_dec 99 100 then 100 else 500)) (Num 10)
        {| DeliverySpeedConfig.speed_type := "standard";
           DeliverySpeedConfig.base_charge := Num 10;
           DeliverySpeedConfig.extra_charge_per_kg := Num 0 |} "standard"
      = Return r'
    ∧ ShippingChargeResult.shippingCharge r = Num total
    ∧ ShippingChargeResult.shippingCharge r' = Num total'
    ∧ (total' < total)%R.
Proof.
  apply (priceShipment_drops_at_band_start 99 10 10 0 "standard" "standard"); lra.
Defined.

(** ** shipping-service.ts *)

Lemma nearestScan_invalid (seller : Seller.t) (warehouses : list Warehouse.t)
    (best : option (Warehouse.t * number)) :
  Exists (fun x => isValidCoordinate (Warehouse.latitude x)
                     (Warehouse.longitude x) = false) warehouses →
  nearestScan seller warehouses best
  = Throw (Error [Lit "Invalid coordinates provided"]).
Proof.
  revert best. induction warehouses as [|a rest IH]; intros best Hex.
  - inversion Hex.
  - cbn [nearestScan].
    destruct (isValidCoordinate (Warehouse.latitude a) (Warehouse.longitude a))
      eqn:Ha.
    + assert (Hrest : Exists (fun x => isValidCoordinate (Warehouse.latitude x)
                                         (Warehouse.longitude x) = false) rest).
      { inversion Hex; subst; [congruence | assumption]. }
      destruct (isValidCoordinate (Seller.latitude seller)
                  (Seller.longitude seller)) eqn:Hs.
      * rewrite (calculateDistance_checked _ _ _ _ Hs Ha). by apply IH.
      * rewrite calculateDistance_invalid by (by left). reflexivity.
    + rewrite calculateDistance_invalid by (by right). reflexivity.
Qed.

(** One active warehouse row with out-of-range coordinates stops the
    lookup for every seller, wherever the row stands in the list and
    however near the other warehouses are: the call throws the plain
    error of [calculateDistance], and stores nothing. *)
Theorem invalid_warehouse_fails_every_lookup (supabase : SupabaseClient)
    (sellerId : string) (w : World) (seller : Seller.t)
    (warehouses : list Warehouse.t) :
  cacheMiss (CacheKeyBuilder.nearestWarehouse sellerId) w →
  sellers_by_id supabase sellerId = found seller →
  isValidCoordinate (Seller.latitude seller) (Seller.longitude seller) = true →
  warehouses_active supabase = found warehouses →
  Exists (fun x => isValidCoordinate (Warehouse.latitude x)
                     (Warehouse.longitude x) = false) warehouses →
  (findNearestWarehouse supabase sellerId w).1
  = Throw (Error [Lit "Invalid coordinates provided"])
  ∧ CacheManager.cache (cache (findNearestWarehouse supabase sellerId w).2)
    !! CacheKeyBuilder.nearestWarehouse sellerId = None.
Proof.
  intros Hmiss Hseller Hvalid Hws Hex.
  assert (Hne : warehouses ≠ []) by (intros ->; inversion Hex).
  pose proof (get_effect (clock w) (CacheKeyBuilder.nearestWarehouse sellerId)
                (cache w)) as [_ Hkey].
  rewrite (findNearestWarehouse_computed supabase sellerId w seller warehouses)
    by assumption.
  rewrite (nearestScan_invalid seller warehouses None Hex).
  unfold cacheMiss in Hmiss. rewrite Hmiss in Hkey.
  split; [reflexivity | exact Hkey].
Qed.

Lemma invalid_warehouse_fails_every_lookup_witness :
  (findNearestWarehouse (testStore [mumbai; misplaced; delhi])
     (Seller.id nestle) freshWorld).1
  = Throw (Error [Lit "Invalid coordinates provided"]).
Proof.
  apply (invalid_warehouse_fails_every_lookup
           (testStore [mumbai; misplaced; delhi]) (Seller.id nestle) freshWorld
           nestle [mumbai; misplaced; delhi]).
  - apply freshWorld_miss.
  - reflexivity.
  - exact nestle_valid.
  - reflexivity.
  - apply Exists_cons_tl, Exists_cons_hd.
    apply isValidCoordinate_false. left. cbn. lra.
Defined.

(** What the computation finds when everything is in place: a warehouse
    of the list whose distance to the seller is least. *)
Lemma findNearestWarehouse_minimum (supabase : SupabaseClient)
    (sellerId : string) (w : World) (seller : Seller.t)
    (warehouses : list Warehouse.t) :
  let key := CacheKeyBuilder.nearestWarehouse sellerId in
  let w1 := {| cache := (CacheManager.get (clock w) key (cache w)).2;
               clock := (clock w + latency supabase + latency supabase)%Z |} in
  cacheMiss key w →
  sellers_by_id supabase sellerId = found seller →
  isValidCoordinate (Seller.latitude seller) (Seller.longitude seller) = true →
  warehouses_active supabase = found warehouses →
  warehouses ≠ [] →
  Forall validWarehouse warehouses →
  ∃ (i : nat) (nearest : Warehouse.t),
    warehouses !! i = Some nearest
    ∧ (∀ j x, warehouses !! j = Some x →
         (sellerDistance seller nearest <= sellerDistance seller x)%R)
    ∧ findNearestWarehouse supabase sellerId w
      = let result := nearestResult nearest (Num (sellerDistance seller nearest)) in
        (Return result,
         {| cache := CacheManager.set (clock w1) key (OfNearestWarehouse result)
                       (Some 300000%Z) (cache w1);
            clock := clock w1 |}).
Proof.
  intros key w1 Hmiss Hseller Hvalid Hws Hne Hall.
  rewrite (findNearestWarehouse_computed supabase sellerId w seller warehouses)
    by assumption.
  change (@None (Warehouse.t * number)) with (asNumber None).
  rewrite (nearestScan_valid seller warehouses None Hvalid Hall).
  pose proof (firstMin_spec (sellerDistance seller) warehouses None) as Hspec.
  destruct (firstMin (sellerDistance seller) warehouses None) as [[nw m]|].
  - destruct Hspec as [[Hb _] | (i & Hi & -> & Hmin & _ & _)]; [discriminate|].
    exists i, nw. split; [exact Hi|]. split; [exact Hmin | reflexivity].
  - destruct Hspec as [_ Hnil]. contradiction.
Qed.

(** The distance reported does not depend on the order in which the
    store lists the active warehouses: when each distance call from the
    seller returns a number, two stores that return the same rows in
    different orders give results with the same [distance_km], although
    the warehouse named may differ when two are equally near. *)
Theorem nearest_distance_order_independent (supabase supabase' : SupabaseClient)
    (sellerId : string) (w w' : World) (seller : Seller.t)
    (warehouses warehouses' : list Warehouse.t) (dist : Warehouse.t → R) :
  cacheMiss (CacheKeyBuilder.nearestWarehouse sellerId) w →
  cacheMiss (CacheKeyBuilder.nearestWarehouse sellerId) w' →
  sellers_by_id supabase sellerId = found seller →
  sellers_by_id supabase' sellerId = found seller →
  isValidCoordinate (Seller.latitude seller) (Seller.longitude seller) = true →
  warehouses_active supabase = found warehouses →
  warehouses_active supabase' = found warehouses' →
  warehouses ≡ₚ warehouses' →
  warehouses ≠ [] →
  (∀ x, x ∈ warehouses →
        calculateDistance (Seller.latitude seller) (Seller.longitude seller)
          (Warehouse.latitude x) (Warehouse.longitude x)
        = Return (Num (dist x))) →
  ∃ r r' : NearestWarehouseResult.t,
    (findNearestWarehouse supabase sellerId w).1 = Return r
    ∧ (findNearestWarehouse supabase' sellerId w').1 = Return r'
    ∧ NearestWarehouseResult.distance_km r = NearestWarehouseResult.distance_km r'.
Proof.
  intros Hmiss Hmiss' Hseller Hseller' Hvalid Hws Hws' Hperm Hne Hdist.
  assert (Hne' : warehouses' ≠ []).
  { intros ->. apply Permutation_nil_r in Hperm. contradiction. }
  assert (Hdist' : ∀ x, x ∈ warehouses' →
            calculateDistance (Seller.latitude seller) (Seller.longitude seller)
              (Warehouse.latitude x) (Warehouse.longitude x)
            = Return (Num (dist x)))
    by (intros x Hx; apply Hdist; by rewrite Hperm).
  destruct (findNearestWarehouse_least supabase sellerId w seller warehouses dist
              Hmiss Hseller Hvalid Hws Hne Hdist) as (i & n & Hi & Hmin & _ & ->).
  destruct (findNearestWarehouse_least supabase' sellerId w' seller warehouses'
              dist Hmiss' Hseller' Hvalid Hws' Hne' Hdist')
    as (i' & n' & Hi' & Hmin' & _ & ->).
  eexists _, _. split; [reflexivity|]. split; [reflexivity|].
  cbn [fst nearestResult NearestWarehouseResult.distance_km].
  assert (Hin : n ∈ warehouses')
    by (rewrite <- Hperm; eapply list_elem_of_lookup_2; eauto).
  assert (Hin' : n' ∈ warehouses)
    by (rewrite Hperm; eapply list_elem_of_lookup_2; eauto).
  apply list_elem_of_lookup_1 in Hin as [j Hj].
  apply list_elem_of_lookup_1 in Hin' as [j' Hj'].
  pose proof (Hmin _ _ Hj'). pose proof (Hmin' _ _ Hj).
  assert (Heq : dist n = dist n') by lra.
  rewrite Heq. reflexivity.
Qed.

Lemma sample_distances (x : Warehouse.t) :
  x ∈ [mumbai; delhi] →
  calculateDistance (Seller.latitude nestle) (Seller.longitude nestle)
    (Warehouse.latitude x) (Warehouse.longitude x)
  = Return (Num (sellerDistance nestle x)).
Proof.
  intros Hx. apply calculateDistance_checked; [exact nestle_valid|].
  apply elem_of_cons in Hx as [-> | Hx]; [exact mumbai_valid|].
  apply elem_of_cons in Hx as [-> | Hx]; [exact delhi_valid|].
  by apply not_elem_of_nil in Hx.
Qed.

Lemma nearest_distance_order_independent_witness :
  ∃ r r' : NearestWarehouseResult.t,
    (findNearestWarehouse (testStore [mumbai; delhi]) (Seller.id nestle)
       freshWorld).1 = Return r
    ∧ (findNearestWarehouse (testStore [delhi; mumbai]) (Seller.id nestle)
         freshWorld).1 = Return r'
    ∧ NearestWarehouseResult.distance_km r = NearestWarehouseResult.distance_km r'.
Proof.
  apply (nearest_distance_order_independent (testStore [mumbai; delhi])
           (testStore [delhi; mumbai]) (Seller.id nestle) freshWorld freshWorld
           nestle [mumbai; delhi] [delhi; mumbai] (sellerDistance nestle)).
  - apply freshWorld_miss.
  - apply freshWorld_miss.
  - reflexivity.
  - reflexivity.
  - exact nestle_valid.
  - reflexivity.
  - reflexivity.
  - apply perm_swap.
  - discriminate.
  - exact sample_distances.
Defined.

(** *** Results are kept for their time to live *)

Ltac leaf_written :=
  match goal with
  | Hmiss : cacheMiss ?key ?w, Hrun : _ = (Return _, _) |- _ =>
      unfold cacheMiss in Hmiss;
      unfold mbind, M_bind, cache_get in Hrun;
      destruct (CacheManager.get (clock w) key (cache w)) as [v c];
      cbn [fst] in Hmiss; subst v;
      unfold await, throw, call, cache_set, badCast, mret, M_ret in Hrun;
      repeat case_match; simplify_eq; cbn [cache clock];
      apply set_lookup_nonzero; lia
  end.

Lemma findNearestWarehouse_written (supabase : SupabaseClient)
    (sellerId : string) (w w' : World) (r : NearestWarehouseResult.t) :
  cacheMiss (CacheKeyBuilder.nearestWarehouse sellerId) w →
  findNearestWarehouse supabase sellerId w = (Return r, w') →
  CacheManager.cache (cache w') !! CacheKeyBuilder.nearestWarehouse sellerId
  = Some {| value := OfNearestWarehouse r; expiresAt := (clock w' + 300000)%Z |}.
Proof. intros Hmiss Hrun. unfold findNearestWarehouse in Hrun. leaf_written. Qed.

Lemma calculateShippingCharge_written (supabase : SupabaseClient)
    (warehouseId customerId deliverySpeed : string) (productId : option string)
    (w w' : World) (r : ShippingChargeResult.t) :
  cacheMiss (CacheKeyBuilder.shippingCharge warehouseId customerId deliverySpeed
               productId) w →
  calculateShippingCharge supabase warehouseId customerId deliverySpeed productId w
  = (Return r, w') →
  CacheManager.cache (cache w')
  !! CacheKeyBuilder.shippingCharge warehouseId customerId deliverySpeed productId
  = Some {| value := OfShippingCharge r; expiresAt := (clock w' + 120000)%Z |}.
Proof. intros Hmiss Hrun. unfold calculateShippingCharge in Hrun. leaf_written. Qed.

Lemma calculateCompleteShipping_written (supabase : SupabaseClient)
    (sellerId customerId deliverySpeed : string) (productId : option string)
    (w w' : World) (r : CompleteShippingResult.t) :
  cacheMiss (CacheKeyBuilder.calculation sellerId customerId deliverySpeed
               productId) w →
  calculateCompleteShipping supabase sellerId customerId deliverySpeed productId w
  = (Return r, w') →
  CacheManager.cache (cache w')
  !! CacheKeyBuilder.calculation sellerId customerId deliverySpeed productId
  = Some {| value := OfCompleteShipping r; expiresAt := (clock w' + 120000)%Z |}.
Proof.
  intros Hmiss Hrun. unfold cacheMiss in Hmiss.
  unfold calculateCompleteShipping, mbind, M_bind, cache_get in Hrun.
  destruct (CacheManager.get (clock w) _ (cache w)) as [v c].
  cbn [fst] in Hmiss. subst v.
  destruct (findNearestWarehouse supabase sellerId _) as [[n|e1|] w1];
    try discriminate.
  destruct (calculateShippingCharge supabase _ customerId deliverySpeed
              productId w1) as [[s|e2|] w2]; try discriminate.
  unfold cache_set, mret, M_ret in Hrun. simplify_eq. cbn [cache clock].
  apply set_lookup_nonzero. lia.
Qed.

Lemma calculateShippingCharge_hit (supabase : SupabaseClient)
    (warehouseId customerId deliverySpeed : string) (productId : option string)
    (w : World) (e : CacheEntry CachedValue) (r : ShippingChargeResult.t) :
  CacheManager.cache (cache w)
  !! CacheKeyBuilder.shippingCharge warehouseId customerId deliverySpeed productId
  = Some e →
  (clock w <= expiresAt e)%Z →
  value e = OfShippingCharge r →
  (calculateShippingCharge supabase warehouseId customerId deliverySpeed
     productId w).1 = Return r.
Proof.
  intros He Hlive Hv.
  unfold calculateShippingCharge, mbind, M_bind, cache_get.
  rewrite (get_live _ _ _ e He Hlive), Hv. reflexivity.
Qed.

Lemma calculateCompleteShipping_hit (supabase : SupabaseClient)
    (sellerId customerId deliverySpeed : string) (productId : option string)
    (w : World) (e : CacheEntry CachedValue) (r : CompleteShippingResult.t) :
  CacheManager.cache (cache w)
  !! CacheKeyBuilder.calculation sellerId customerId deliverySpeed productId
  = Some e →
  (clock w <= expiresAt e)%Z →
  value e = OfCompleteShipping r →
  (calculateCompleteShipping supabase sellerId customerId deliverySpeed
     productId w).1 = Return r.
Proof.
  intros He Hlive Hv.
  unfold calculateCompleteShipping, mbind, M_bind, cache_get.
  rewrite (get_live _ _ _ e He Hlive), Hv. reflexivity.
Qed.

Lemma expired_miss (key : string) (w : World) (e : CacheEntry CachedValue) :
  CacheManager.cache (cache w) !! key = Some e → (clock w > expiresAt e)%Z →
  cacheMiss key w.
Proof.
  intros He Hlate. unfold cacheMiss. by rewrite (get_expired _ _ _ e He Hlate).
Qed.

(** A result computed on a miss is served again, unchanged and without
    looking at the store, to every call with the same arguments up to 5
    minutes later for [findNearestWarehouse] and up to 2 minutes later
    for the other two operations, whatever the store holds by then; a
    call after that time misses again. *)
Theorem results_served_for_ttl (supabase supabase' : SupabaseClient)
    (w w' later : World) :
  cache later = cache w' →
  (∀ sellerId r,
     cacheMiss (CacheKeyBuilder.nearestWarehouse sellerId) w →
     findNearestWarehouse supabase sellerId w = (Return r, w') →
     ((clock later <= clock w' + 300000)%Z →
      (findNearestWarehouse supabase' sellerId later).1 = Return r)
     ∧ ((clock later > clock w' + 300000)%Z →
        cacheMiss (CacheKeyBuilder.nearestWarehouse sellerId) later))
  ∧ (∀ warehouseId customerId deliverySpeed productId r,
       cacheMiss (CacheKeyBuilder.shippingCharge warehouseId customerId
                    deliverySpeed productId) w →
       calculateShippingCharge supabase warehouseId customerId deliverySpeed
         productId w = (Return r, w') →
       ((clock later <= clock w' + 120000)%Z →
        (calculateShippingCharge supabase' warehouseId customerId deliverySpeed
           productId later).1 = Return r)
       ∧ ((clock later > clock w' + 120000)%Z →
          cacheMiss (CacheKeyBuilder.shippingCharge warehouseId customerId
                       deliverySpeed productId) later))
  ∧ (∀ sellerId customerId deliverySpeed productId r,
       cacheMiss (CacheKeyBuilder.calculation sellerId customerId
                    deliverySpeed productId) w →
       calculateCompleteShipping supabase sellerId customerId deliverySpeed
         productId w = (Return r, w') →
       ((clock later <= clock w' + 120000)%Z →
        (calculateCompleteShipping supabase' sellerId customerId deliverySpeed
           productId later).1 = Return r)
       ∧ ((clock later > clock w' + 120000)%Z →
          cacheMiss (CacheKeyBuilder.calculation sellerId customerId
                       deliverySpeed productId) later)).
Proof.
  intros Hcache. split; [|split].
  - intros sellerId r Hmiss Hrun.
    pose proof (findNearestWarehouse_written _ _ _ _ _ Hmiss Hrun) as He.
    rewrite <- Hcache in He. split; intros Ht.
    + eapply findNearestWarehouse_hit; [exact He | exact Ht | reflexivity].
    + eapply expired_miss; [exact He | exact Ht].
  - intros warehouseId customerId deliverySpeed productId r Hmiss Hrun.
    pose proof (calculateShippingCharge_written _ _ _ _ _ _ _ _ Hmiss Hrun) as He.
    rewrite <- Hcache in He. split; intros Ht.
    + eapply calculateShippingCharge_hit; [exact He | exact Ht | reflexivity].
    + eapply expired_miss; [exact He | exact Ht].
  - intros sellerId customerId deliverySpeed productId r Hmiss Hrun.
    pose proof (calculateCompleteShipping_written _ _ _ _ _ _ _ _ Hmiss Hrun) as He.
    rewrite <- Hcache in He. split; intros Ht.
    + eapply calculateCompleteShipping_hit; [exact He | exact Ht | reflexivity].
    + eapply expired_miss; [exact He | exact Ht].
Qed.

Lemma results_served_for_ttl_witness :
  ∃ (r : NearestWarehouseResult.t) (w' : World),
    findNearestWarehouse (testStore [mumbai]) (Seller.id nestle) freshWorld
    = (Return r, w')
    ∧ (findNearestWarehouse (testStore [delhi]) (Seller.id nestle)
         {| cache := cache w'; clock := (clock w' + 300000)%Z |}).1 = Return r.
Proof.
  destruct (findNearestWarehouse_minimum (testStore [mumbai]) (Seller.id nestle)
              freshWorld nestle [mumbai]) as (i & n & _ & _ & Hrun).
  - apply freshWorld_miss.
  - reflexivity.
  - exact nestle_valid.
  - reflexivity.
  - discriminate.
  - repeat constructor; exact mumbai_valid.
  - cbv zeta in Hrun. eexists _, _. split; [exact Hrun|].
    match type of Hrun with
    | _ = (Return ?r, ?w') =>
        destruct (results_served_for_ttl (testStore [mumbai]) (testStore [delhi])
                    freshWorld w'
                    {| cache := cache w'; clock := (clock w' + 300000)%Z |}
                    eq_refl) as (H & _ & _);
        destruct (H (Seller.id nestle) r (freshWorld_miss _) Hrun) as [Hserved _]
    end.
    apply Hserved. cbn [clock]. lia.
Defined.

(** *** calculateCompleteShipping, end to end *)

Lemma calculateDistance_Return_valid (lat1 lon1 lat2 lon2 distance : number) :
  calculateDistance lat1 lon1 lat2 lon2 = Return distance →
  isValidCoordinate lat1 lon1 = true ∧ isValidCoordinate lat2 lon2 = true.
Proof.
  unfold calculateDistance.
  destruct (isValidCoordinate lat1 lon1), (isValidCoordinate lat2 lon2);
    cbn [negb orb]; intros H; try discriminate. auto.
Qed.

Lemma priceShipment_carries (distance weightKg : number)
    (deliveryConfig : DeliverySpeedConfig.t) (deliverySpeed : string)
    (charge : ShippingChargeResult.t) :
  priceShipment distance weightKg deliveryConfig deliverySpeed = Return charge →
  ShippingChargeResult.distance_km charge
  = (Math.round (distance * lit 100) / lit 100)%js
  ∧ ShippingChargeResult.weight_kg charge = weightKg.
Proof.
  unfold priceShipment.
  destruct (TransportModeSelector.getTransportModeAndRate distance);
    intros H; simplify_eq. auto.
Qed.

(** On an empty cache, with the seller, the customer and the speed
    configuration on record, a non-empty list of active warehouses, each
    found again by its id at the same coordinates, and each distance
    call having returned (a number [dist] from the seller, whatever
    [route] to the customer): [calculateCompleteShipping] picks a
    warehouse of the list at the least distance from the seller, and
    ends as the pricing of the leg from that warehouse to the customer
    ends.  When the pricing returns, the result names that warehouse and
    carries the charge, mode and breakdown of the pricing; its
    [distance_km] is [Math.round(route * 100) / 100] of the
    warehouse-to-customer distance, not the seller-to-warehouse one. *)
Theorem calculateCompleteShipping_end_to_end (supabase : SupabaseClient)
    (sellerId customerId deliverySpeed : string) (productId : option string)
    (w : World) (seller : Seller.t) (customer : Customer.t)
    (warehouses : list Warehouse.t) (deliveryConfig : DeliverySpeedConfig.t)
    (dist : Warehouse.t → R) (route : Warehouse.t → number) :
  CacheManager.cache (cache w) = ∅ →
  sellers_by_id supabase sellerId = found seller →
  isValidCoordinate (Seller.latitude seller) (Seller.longitude seller) = true →
  warehouses_active supabase = found warehouses →
  warehouses ≠ [] →
  (∀ x, x ∈ warehouses →
        ∃ row, warehouses_by_id supabase (Warehouse.id x) = found row
               ∧ Warehouse.latitude row = Warehouse.latitude x
               ∧ Warehouse.longitude row = Warehouse.longitude x) →
  customers_by_id supabase customerId = found customer →
  delivery_speeds_by_type supabase deliverySpeed = found deliveryConfig →
  (∀ x, x ∈ warehouses →
        calculateDistance (Seller.latitude seller) (Seller.longitude seller)
          (Warehouse.latitude x) (Warehouse.longitude x)
        = Return (Num (dist x))) →
  (∀ x, x ∈ warehouses →
        calculateDistance (Warehouse.latitude x) (Warehouse.longitude x)
          (Customer.latitude customer) (Customer.longitude customer)
        = Return (route x)) →
  ∃ nearest : Warehouse.t,
    nearest ∈ warehouses
    ∧ (∀ x, x ∈ warehouses → (dist nearest <= dist x)%R)
    ∧ (calculateCompleteShipping supabase sellerId customerId deliverySpeed
         productId w).1
      = match priceShipment (route nearest) (resolvedWeight supabase productId)
                deliveryConfig deliverySpeed with
        | Return charge =>
            Return (completeResult
                      (nearestResult nearest (Num (dist nearest))) charge)
        | Throw e => Throw e
        | BadCast => BadCast
        end
    ∧ (∀ charge,
         priceShipment (route nearest) (resolvedWeight supabase productId)
           deliveryConfig deliverySpeed = Return charge →
         CompleteShippingResult.distance_km
           (completeResult (nearestResult nearest (Num (dist nearest))) charge)
         = (Math.round (route nearest * lit 100) / lit 100)%js
         ∧ CompleteShippingResult.weight_kg
             (completeResult (nearestResult nearest (Num (dist nearest))) charge)
           = resolvedWeight supabase productId
         ∧ warehouseId
             (CompleteShippingResult.nearestWarehouse
                (completeResult (nearestResult nearest (Num (dist nearest)))
                   charge))
           = Warehouse.id nearest).
Proof.
  intros Hempty Hseller Hsv Hws Hne Hbyid Hcust Hcfg Hdist Hroute.
  unfold calculateCompleteShipping, mbind, M_bind, cache_get.
  rewrite get_absent by (rewrite Hempty; apply lookup_empty).
  set (w0 := {| cache := _; clock := clock w |}).
  assert (Hempty0 : CacheManager.cache (cache w0) = ∅) by exact Hempty.
  destruct (findNearestWarehouse_least supabase sellerId w0 seller warehouses dist)
    as (i & nearest & Hi & Hmin & _ & ->); try assumption.
  { apply absent_miss. rewrite Hempty0. apply lookup_empty. }
  cbv zeta.
  set (w1 := {| cache := CacheManager.set _ _ _ _ _; clock := _ |}).
  assert (Hin : nearest ∈ warehouses) by (eapply list_elem_of_lookup_2; eauto).
  destruct (Hbyid nearest Hin) as (row & Hrow & Hlat & Hlong).
  pose proof (Hroute nearest Hin) as Hleg. rewrite <- Hlat, <- Hlong in Hleg.
  destruct (calculateDistance_Return_valid _ _ _ _ _ Hleg) as [Hrv Hcv].
  assert (Hmiss1 : cacheMiss (CacheKeyBuilder.shippingCharge (Warehouse.id nearest)
                                customerId deliverySpeed productId) w1).
  { apply absent_miss. subst w1. cbn [cache].
    rewrite set_lookup_ne.
    - rewrite get_absent by (rewrite Hempty0; apply lookup_empty).
      cbn [snd CacheManager.cache]. rewrite Hempty0. apply lookup_empty.
    - intros Heq. symmetry in Heq.
      exact (shippingCharge_key_ne_nearestWarehouse _ _ _ _ _ Heq). }
  pose proof (calculateShippingCharge_priced supabase (Warehouse.id nearest)
                customerId deliverySpeed productId w1 row customer
                deliveryConfig (route nearest) Hmiss1 Hrow Hrv Hcust Hcv Hcfg Hleg)
    as Hcharge.
  cbn [nearestResult NearestWarehouseResult.warehouseId].
  destruct (calculateShippingCharge supabase (Warehouse.id nearest) customerId
              deliverySpeed productId w1) as [o2 w2].
  cbn [fst] in Hcharge. rewrite Hcharge.
  exists nearest. split; [exact Hin|]. split.
  - intros x [j Hj]%list_elem_of_lookup_1. eauto.
  - split.
    + destruct (priceShipment (route nearest) (resolvedWeight supabase productId)
                  deliveryConfig deliverySpeed); reflexivity.
    + intros charge Hprice.
      destruct (priceShipment_carries _ _ _ _ _ Hprice) as [Hd Hw].
      cbn [completeResult CompleteShippingResult.distance_km
           CompleteShippingResult.weight_kg CompleteShippingResult.nearestWarehouse
           warehouseId nearestResult NearestWarehouseResult.warehouseId].
      auto.
Qed.

Lemma calculateCompleteShipping_end_to_end_witness :
  ∃ nearest : Warehouse.t,
    nearest ∈ [mumbai; delhi]
    ∧ (calculateCompleteShipping (testStore [mumbai; delhi]) (Seller.id nestle)
         (Customer.id kiranaMumbai) "express" (Some lightProductId) freshWorld).1
      = match priceShipment (Num (routeDistance nearest kiranaMumbai))
                (resolvedWeight (testStore [mumbai; delhi]) (Some lightProductId))
                {| DeliverySpeedConfig.speed_type := "express";
                   DeliverySpeedConfig.base_charge := Num 10;
                   DeliverySpeedConfig.extra_charge_per_kg := Num (12 / 10) |}
                "express" with
        | Return charge =>
            Return (completeResult
                      (nearestResult nearest (Num (sellerDistance nestle nearest)))
                      charge)
        | Throw e => Throw e
        | BadCast => BadCast
        end.
Proof.
  destruct (calculateCompleteShipping_end_to_end (testStore [mumbai; delhi])
              (Seller.id nestle) (Customer.id kiranaMumbai) "express"
              (Some lightProductId) freshWorld nestle kiranaMumbai
              [mumbai; delhi]
              {| DeliverySpeedConfig.speed_type := "express";
                 DeliverySpeedConfig.base_charge := Num 10;
                 DeliverySpeedConfig.extra_charge_per_kg := Num (12 / 10) |}
              (sellerDistance nestle)
              (fun x => Num (routeDistance x kiranaMumbai)))
    as (nearest & Hin & _ & Hrun & _).
  - reflexivity.
  - reflexivity.
  - exact nestle_valid.
  - reflexivity.
  - discriminate.
  - intros x Hx. exists x. split; [|auto].
    apply elem_of_cons in Hx as [-> | Hx]; [reflexivity|].
    apply elem_of_cons in Hx as [-> | Hx]; [reflexivity|].
    by apply not_elem_of_nil in Hx.
  - reflexivity.
  - reflexivity.
  - exact sample_distances.
  - intros x Hx. apply calculateDistance_checked; [|exact kiranaMumbai_valid].
    apply elem_of_cons in Hx as [-> | Hx]; [exact mumbai_valid|].
    apply elem_of_cons in Hx as [-> | Hx]; [exact delhi_valid|].
    by apply not_elem_of_nil in Hx.
  - exists nearest. split; [exact Hin | exact Hrun].
Defined.

(** ** calculate-shipping handler *)

Lemma findNearestWarehouse_unknown_seller (supabase : SupabaseClient)
    (sellerId : string) (w : World) :
  cacheMiss (CacheKeyBuilder.nearestWarehouse sellerId) w →
  data (sellers_by_id supabase sellerId) = None →
  (findNearestWarehouse supabase sellerId w).1
  = Throw (ResourceNotFoundError "Seller" sellerId).
Proof.
  intros Hmiss Hseller. unfold cacheMiss in Hmiss.
  unfold findNearestWarehouse, mbind, M_bind, cache_get.
  destruct (CacheManager.get (clock w) _ (cache w)) as [v c].
  cbn in Hmiss. subst v. cbn [await]. rewrite Hseller.
  destruct (error (sellers_by_id supabase sellerId)); reflexivity.
Qed.

Lemma findNearestWarehouse_no_warehouses (supabase : SupabaseClient)
    (sellerId : string) (w : World) (seller : Seller.t) :
  cacheMiss (CacheKeyBuilder.nearestWarehouse sellerId) w →
  sellers_by_id supabase sellerId = found seller →
  isValidCoordinate (Seller.latitude seller) (Seller.longitude seller) = true →
  warehouses_active supabase = found [] →
  (findNearestWarehouse supabase sellerId w).1 = Throw NoWarehousesFoundError.
Proof.
  intros Hmiss Hseller Hvalid Hws. unfold cacheMiss in Hmiss.
  unfold findNearestWarehouse, mbind, M_bind, cache_get.
  destruct (CacheManager.get (clock w) _ (cache w)) as [v c].
  cbn in Hmiss. subst v. cbn [await]. rewrite Hseller. cbn [found error data].
  rewrite (validateCoordinates_valid _ _ _ Hvalid).
  rewrite Hws. reflexivity.
Qed.

(** On an empty cache, what stops the nearest-warehouse step stops the
    whole calculation with the same exception. *)
Lemma calculateCompleteShipping_nearest_fails (supabase : SupabaseClient)
    (sellerId customerId deliverySpeed : string) (productId : option string)
    (w : World) (e : Exception) :
  CacheManager.cache (cache w) = ∅ →
  (∀ w0, CacheManager.cache (cache w0) = ∅ →
         (findNearestWarehouse supabase sellerId w0).1 = Throw e) →
  (calculateCompleteShipping supabase sellerId customerId deliverySpeed
     productId w).1 = Throw e.
Proof.
  intros Hempty Hnearest.
  unfold calculateCompleteShipping, mbind, M_bind, cache_get.
  rewrite get_absent by (rewrite Hempty; apply lookup_empty).
  match goal with
  | |- context [findNearestWarehouse supabase sellerId ?w0] =>
      specialize (Hnearest w0 Hempty);
      destruct (findNearestWarehouse supabase sellerId w0) as [o w1]
  end.
  cbn [fst] in Hnearest. subst o. reflexivity.
Qed.

(** The answers of the calculate-shipping handler.  An OPTIONS request is
    answered with 200 and any method other than OPTIONS and POST with
    405; a POST without the two environment variables with 500, and one
    whose body does not parse with 400; a request that fails the check
    with 400; none of these touches the cache.  A checked request on an
    empty cache is answered with 404 when the seller is not on record,
    and with 500 when there is no active warehouse: the handler decides
    by the words "not found" in the message, and the status the error
    class carries is not used.  No answer has a status other than 200,
    400, 404, 405 or 500. *)
Theorem calculateShippingHandler_status (runtime : Runtime)
    (supabase : SupabaseClient) (req : HttpRequest.t) (w : World) :
  let answer := calculateShippingHandler runtime supabase req w in
  (HttpRequest.method req = "OPTIONS" →
     answer = (Return {| HttpResponse.status := 200;
                         HttpResponse.body := TextBody "ok" |}, w))
  ∧ (HttpRequest.method req ≠ "OPTIONS" → HttpRequest.method req ≠ "POST" →
     answer = (Return {| HttpResponse.status := 405;
                         HttpResponse.body := ErrorBody "Method not allowed" None |},
               w))
  ∧ (HttpRequest.method req = "POST" →
     (configured runtime = false →
      answer = (Return {| HttpResponse.status := 500;
                          HttpResponse.body :=
                            ErrorBody "Internal server error"
                                      (Some "Missing Supabase configuration") |},
                w))
     ∧ (configured runtime = true →
        (HttpRequest.json req = None →
         answer = (Return {| HttpResponse.status := 400;
                             HttpResponse.body :=
                               ErrorBody "Invalid JSON in request body" None |},
                   w))
        ∧ (∀ body error,
             HttpRequest.json req = Some (FieldsBody body) →
             checkCalculateRequest body = Throw error →
             answer
             = (Return {| HttpResponse.status := 400;
                          HttpResponse.body :=
                            createValidationErrorResponse (show runtime) error |},
                w))
        ∧ (∀ body sellerId customerId deliverySpeed productId,
             HttpRequest.json req = Some (FieldsBody body) →
             checkCalculateRequest body
             = Return (sellerId, customerId, deliverySpeed, productId) →
             CacheManager.cache (cache w) = ∅ →
             (data (sellers_by_id supabase sellerId) = None →
              answer.1
              = Return {| HttpResponse.status := 404;
                          HttpResponse.body :=
                            ErrorBody "Resource not found"
                                      (Some ("Seller not found: " +:+ sellerId)) |})
             ∧ (∀ seller,
                  sellers_by_id supabase sellerId = found seller →
                  isValidCoordinate (Seller.latitude seller)
                    (Seller.longitude seller) = true →
                  warehouses_active supabase = found [] →
                  answer.1
                  = Return {| HttpResponse.status := 500;
                              HttpResponse.body :=
                                ErrorBody "Internal server error"
                                  (Some "No active warehouses found in the system")
                           |}))))
  ∧ (∀ response,
       answer.1 = Return response →
       HttpResponse.status response ∈ [200; 400; 404; 405; 500]%Z).
Proof.
  cbv zeta. unfold calculateShippingHandler.
  split; [|split; [|split]].
  - intros ->. reflexivity.
  - intros Hopt Hpost.
    rewrite bool_decide_eq_false_2 by exact Hopt.
    rewrite bool_decide_eq_false_2 by exact Hpost. reflexivity.
  - intros ->. cbn [bool_decide]. 
    rewrite bool_decide_eq_false_2 by discriminate.
    rewrite bool_decide_eq_true_2 by reflexivity. cbn [negb].
    split; [intros ->; reflexivity|].
    intros ->. cbn [negb]. split; [intros ->; reflexivity|]. split.
    + intros body error -> ->. reflexivity.
    + intros body sellerId customerId deliverySpeed productId -> -> Hempty. split.
      * intros Hseller.
        pose proof (calculateCompleteShipping_nearest_fails supabase sellerId
                      customerId deliverySpeed productId w
                      (ResourceNotFoundError "Seller" sellerId) Hempty) as Hrun.
        destruct (calculateCompleteShipping supabase sellerId customerId
                    deliverySpeed productId w) as [o w'].
        cbn [fst] in Hrun. rewrite Hrun.
        -- cbn [fst messageOf]. unfold failureResponse.
           assert (Hinc : includes "not found"
                            ("Seller" +:+ " not found: " +:+ sellerId) = true)
             by (vm_compute; reflexivity).
           rewrite Hinc. reflexivity.
        -- intros w0 Hw0.
           apply findNearestWarehouse_unknown_seller; [|exact Hseller].
           apply absent_miss. rewrite Hw0. apply lookup_empty.
      * intros seller Hseller Hvalid Hws.
        pose proof (calculateCompleteShipping_nearest_fails supabase sellerId
                      customerId deliverySpeed productId w
                      NoWarehousesFoundError Hempty) as Hrun.
        destruct (calculateCompleteShipping supabase sellerId customerId
                    deliverySpeed productId w) as [o w'].
        cbn [fst] in Hrun. rewrite Hrun.
        -- reflexivity.
        -- intros w0 Hw0.
           apply (findNearestWarehouse_no_warehouses supabase sellerId w0 seller);
             try assumption.
           apply absent_miss. rewrite Hw0. apply lookup_empty.
  - intros response.
    assert (Hfail : ∀ m, HttpResponse.status (failureResponse m)
                         ∈ [200; 400; 404; 405; 500]%Z).
    { intros m. unfold failureResponse.
      destruct (includes "not found" m); cbn [HttpResponse.status]; set_solver. }
    destruct (bool_decide (HttpRequest.method req = "OPTIONS"));
      [cbn [fst]; intros H; simplify_eq; cbn [HttpResponse.status]; set_solver|].
    destruct (bool_decide (HttpRequest.method req = "POST")); cbn [negb];
      [|cbn [fst]; intros H; simplify_eq; cbn [HttpResponse.status]; set_solver].
    destruct (configured runtime); cbn [negb];
      [|cbn [fst]; intros H; simplify_eq; apply Hfail].
    destruct (HttpRequest.json req) as [[|body]|];
      [cbn [fst]; intros H; simplify_eq; apply Hfail
      | |cbn [fst]; intros H; simplify_eq; cbn [HttpResponse.status]; set_solver].
    destruct (checkCalculateRequest body) as [[[[s c] d] p]|e|]; cbn [fst].
    + destruct (calculateCompleteShipping supabase s c d p w) as [[r|e|] w'];
        cbn [fst]; intros H; simplify_eq.
      * cbn [HttpResponse.status]. set_solver.
      * apply Hfail.
    + intros H. simplify_eq. cbn [HttpResponse.status]. set_solver.
    + discriminate.
Qed.

Lemma calculateShippingHandler_status_witness :
  (calculateShippingHandler
     {| show := fun _ => ""; typeErrorMessage := ""; configured := true |}
     (testStore [mumbai; delhi])
     {| HttpRequest.method := "POST";
        HttpRequest.json :=
          Some (FieldsBody
                  {| CalculateRequest.sellerId :=
                       Some "660e8400-e29b-41d4-a716-446655440099";
                     CalculateRequest.customerId := Some (Customer.id kiranaMumbai);
                     CalculateRequest.deliverySpeed := None;
                     CalculateRequest.productId := None |}) |} freshWorld).1
  = Return {| HttpResponse.status := 404;
              HttpResponse.body :=
                ErrorBody "Resource not found"
                  (Some ("Seller not found: "
                         +:+ "660e8400-e29b-41d4-a716-446655440099")) |}.
Proof.
  destruct (calculateShippingHandler_status
              {| show := fun _ => ""; typeErrorMessage := ""; configured := true |}
              (testStore [mumbai; delhi])
              {| HttpRequest.method := "POST";
                 HttpRequest.json :=
                   Some (FieldsBody
                           {| CalculateRequest.sellerId :=
                                Some "660e8400-e29b-41d4-a716-446655440099";
                              CalculateRequest.customerId :=
                                Some (Customer.id kiranaMumbai);
                              CalculateRequest.deliverySpeed := None;
                              CalculateRequest.productId := None |}) |}
              freshWorld) as (_ & _ & Hpost & _).
  destruct (Hpost eq_refl) as [_ Hconfigured].
  destruct (Hconfigured eq_refl) as (_ & _ & Hchecked).
  destruct (Hchecked _ "660e8400-e29b-41d4-a716-446655440099"
              (Customer.id kiranaMumbai) "standard" None eq_refl) as [H404 _].
  - vm_compute. reflexivity.
  - reflexivity.
  - apply H404. reflexivity.
Defined.
